(** * duplicati-client: the session manager of [duplicati_client.py]

    A shallow embedding of the authentication and session life cycle of the
    command-line client: [verify_token], [check_response], [login],
    [write_config], [load_config] and the helpers they call, followed by the
    properties of the session manager.

    Conventions of the embedding.
    - A Python [str] is a [string]; a character stands for a code point
      below 256.  Python [bytes] are [list byte].
    - A naive [datetime] is the number of microseconds since the start of
      the calendar, a [Z]; [timedelta(0, 600)] is [600 * 10^6].
    - The configuration dictionary [data] is one mutable object shared by
      every function of the program: it is a field of the [world], next to
      the file system cell that holds the configuration file, the standard
      output and the log of HTTP requests.
    - A function of the program is a computation in the monad [M]: it maps
      a world to an [outcome] and a new world.  [sys.exit(n)] is the outcome
      [Exit n], an uncaught Python exception is [Raise e].
    - The libraries the program calls (the HTTP client, YAML, hashlib,
      base64, the clock, the local time zone, getpass) are variables of the
      section [Client].  The module [Reference] implements SHA-256 and
      base64 to run the client on concrete handshakes. *)

From Stdlib Require Import ZArith Lia Ascii String List.
From stdpp Require Import gmap strings list fin_maps pretty.

Local Open Scope string_scope.
Local Open Scope list_scope.
Local Open Scope Z_scope.

(** ** Python string primitives *)

Module Py.

Definition LF : string := String "010"%char "".
Definition DQUOTE : string := String "034"%char "".

(** [s.replace(old, new)] for a one-character [old]. *)
Fixpoint replace (old : ascii) (new : string) (s : string) : string :=
  match s with
  | "" => ""
  | String c s' =>
      if Ascii.eqb c old then new +:+ replace old new s'
      else String c (replace old new s')
  end.

(** [s.count(sep)] for a one-character [sep]. *)
Fixpoint count (sep : ascii) (s : string) : nat :=
  match s with
  | "" => 0%nat
  | String c s' => if Ascii.eqb c sep then S (count sep s') else count sep s'
  end.

(** [s.index(sep)] for a one-character [sep]; [None] is [ValueError]. *)
Fixpoint index (sep : ascii) (s : string) : option nat :=
  match s with
  | "" => None
  | String c s' => if Ascii.eqb c sep then Some 0%nat else S <$> index sep s'
  end.

(** [s.split(sep)] for a one-character [sep]. *)
Fixpoint split (sep : ascii) (s : string) : list string :=
  match s with
  | "" => [""]
  | String c s' =>
      if Ascii.eqb c sep then "" :: split sep s'
      else match split sep s' with
           | [] => [String c ""]
           | h :: t => String c h :: t
           end
  end.

(** [\d] on code points below 256: the ASCII digits. *)
Definition is_digit (c : ascii) : bool :=
  let n := nat_of_ascii c in (48 <=? n)%nat && (n <=? 57)%nat.

(** [re.findall(r'\d+', s)]: the maximal runs of digits, left to right.
    [cur] is the run being read. *)
Fixpoint digit_runs (cur : string) (s : string) : list string :=
  match s with
  | "" => if String.eqb cur "" then [] else [cur]
  | String c s' =>
      if is_digit c then digit_runs (cur +:+ String c "") s'
      else (if String.eqb cur "" then [] else [cur]) ++ digit_runs "" s'
  end.

Definition findall_digits (s : string) : list string := digit_runs "" s.

(** [''.join(l)]. *)
Definition join (l : list string) : string := String.concat "" l.

(** [c.lower()] on code points below 256: A-Z and the Latin-1 capitals. *)
Definition chr_lower (c : ascii) : ascii :=
  let n := nat_of_ascii c in
  if ((65 <=? n)%nat && (n <=? 90)%nat)
     || ((192 <=? n)%nat && (n <=? 222)%nat && negb (n =? 215)%nat)
  then ascii_of_nat (n + 32) else c.

Fixpoint lower (s : string) : string :=
  match s with
  | "" => ""
  | String c s' => String (chr_lower c) (lower s')
  end.

(** [x in l] for a list of strings. *)
Definition in_list (x : string) (l : list string) : bool :=
  existsb (String.eqb x) l.

(** [sub in s] for strings. *)
Definition contains (sub s : string) : bool :=
  match String.index 0 sub s with Some _ => true | None => false end.

(** [s.encode()]: UTF-8 of code points below 256. *)
Definition encode_chr (c : ascii) : list Byte.byte :=
  let n := N_of_ascii c in
  if (n <? 128)%N then [byte_of_ascii c]
  else match Byte.of_N (192 + N.shiftr n 6), Byte.of_N (128 + N.land n 63) with
       | Some hi, Some lo => [hi; lo]
       | _, _ => []
       end.

Fixpoint encode (s : string) : list Byte.byte :=
  match s with
  | "" => []
  | String c s' => encode_chr c ++ encode s'
  end.

(** [str(n)] for an integer. *)
Definition str_of_int (n : Z) : string := pretty n.

End Py.

(** ** Values, the world and the monad of the program *)

(** The Python values a configuration holds. *)
#[warnings="-register-all"]
Inductive value : Type :=
  | VNone
  | VBool (b : bool)
  | VStr (s : string)
  | VTime (t : Z)
  | VDict (m : gmap string value).

Abbreviation dict := (gmap string value).

Inductive exn : Type :=
  | KeyError (key : string)
  | TypeError
  | AttributeError
  | ValueError
  | UnboundLocalError (name : string)
  | JSONDecodeError
  | BinasciiError
  | FileNotFoundError.

Inductive http_method : Type := GET | POST.

(** A request as the program hands it to the HTTP client. *)
Record request : Type := Request {
  req_method : http_method;
  req_url : string;
  req_headers : list (string * string);
  req_cookies : list (string * string);
  req_data : list (string * string);
  req_allow_redirects : bool
}.

(** What the program reads of a response: the status, the cookies and the
    members of the JSON body ([None]: the body is not JSON). *)
Record response : Type := Response {
  status_code : Z;
  cookies : gmap string string;
  json : option (gmap string string)
}.

Record world : Type := World {
  data : dict;                   (* the configuration dictionary *)
  verbose : bool;                (* the global [verbose] *)
  config_disk : option string;   (* the text of [config_file], if it exists *)
  directory_exists : bool;       (* does the directory of [config_file] exist *)
  stdout : list string;          (* what was printed, oldest first *)
  sent : list request;           (* the HTTP requests issued, oldest first *)
  clock_reads : nat              (* how often [datetime.now()] was called *)
}.

Inductive outcome (A : Type) : Type :=
  | Ret (a : A)
  | Exit (code : Z)
  | Raise (e : exn).
Arguments Ret {A} a.
Arguments Exit {A} code.
Arguments Raise {A} e.

Definition M (A : Type) : Type := world -> outcome A * world.

Definition ret {A} (a : A) : M A := fun w => (Ret a, w).

Definition bind {A B} (c : M A) (k : A -> M B) : M B :=
  fun w =>
    match c w with
    | (Ret a, w') => k a w'
    | (Exit n, w') => (Exit n, w')
    | (Raise e, w') => (Raise e, w')
    end.

Notation "'let*' x ':=' c 'in' k" := (bind c (fun x => k))
  (at level 10, x name, c at level 200, k at level 200).
Notation "c ;;; k" := (bind c (fun _ => k))
  (at level 200, k at level 200, right associativity).

Definition sys_exit {A} (n : Z) : M A := fun w => (Exit n, w).
Definition raise {A} (e : exn) : M A := fun w => (Raise e, w).
Definition get_data : M dict := fun w => (Ret (data w), w).

Definition set_data (d : dict) (w : world) : world :=
  World d (verbose w) (config_disk w) (directory_exists w) (stdout w)
        (sent w) (clock_reads w).

Definition put_data (d : dict) : M unit := fun w => (Ret tt, set_data d w).

Definition print (line : string) : M unit :=
  fun w => (Ret tt,
            World (data w) (verbose w) (config_disk w) (directory_exists w)
                  (stdout w ++ [line]) (sent w) (clock_reads w)).

(** The status the process ends with when a command function is the last
    thing [main] runs: 0 after a normal return, the argument of
    [sys.exit], 1 after an uncaught exception. *)
Definition exit_status {A} (o : outcome A) : Z :=
  match o with
  | Ret _ => 0
  | Exit n => n
  | Raise _ => 1
  end.

(** *** Dictionary access *)

(** [d.get(k, None)]. *)
Definition dict_get (d : dict) (k : string) : value :=
  match d !! k with Some v => v | None => VNone end.

(** [v[k]]. *)
Definition subscript (v : value) (k : string) : M value :=
  match v with
  | VDict m => match m !! k with
               | Some x => ret x
               | None => raise (KeyError k)
               end
  | _ => raise TypeError
  end.

(** [data[k] = v]. *)
Definition setitem (k : string) (v : value) : M unit :=
  let* d := get_data in put_data (<[k := v]> d).

(** A value used where only a [str] will do. *)
Definition as_str (v : value) : M string :=
  match v with
  | VStr s => ret s
  | _ => raise TypeError
  end.

Definition is_none (v : value) : bool :=
  match v with VNone => true | _ => false end.

(** [k in v] for a string [k]; [None] is [TypeError]. *)
Definition value_contains (k : string) (v : value) : option bool :=
  match v with
  | VDict m => Some (bool_decide (is_Some (m !! k)))
  | VStr s => Some (Py.contains k s)
  | _ => None
  end.

(** ** Time zones *)

(** An aware [datetime]: the wall-clock reading and the offset of its zone
    from UTC, both in microseconds. *)
Record aware : Type := Aware { wall : Z; utcoffset : Z }.

Definition timedelta (days seconds : Z) : Z := (days * 86400 + seconds) * 1000000.

(** [t.replace(tzinfo=tz.tzutc())]. *)
Definition replace_tzutc (t : Z) : aware := Aware t 0.

(** The instant an aware datetime denotes. *)
Definition instant (a : aware) : Z := wall a - utcoffset a.

(** [a > b] on aware datetimes with distinct zone objects: Python compares
    the instants. *)
Definition aware_gt (a b : aware) : bool := instant b <? instant a.

(** ** The client *)

Section Client.

(** *** The collaborators of the program *)

(** The value of the [n]-th call of [datetime.datetime.now()]. *)
Variable clock : nat -> Z.
(** [tz.tzlocal()]: the offset of local time at a UTC instant. *)
Variable tzlocal : Z -> Z.
(** The server behind the HTTP client: its response to a request, given
    the requests issued before. *)
Variable server : list request -> request -> response.
(** What the user types at the [getpass] prompt. *)
Variable getpass : string.
(** [yaml.dump(d, default_flow_style=False)] and [yaml.safe_load]; the
    right injection is the text of a [yaml.YAMLError]. *)
Variable yaml_dump : dict -> string.
Variable yaml_safe_load : string -> value + string.
(** [hashlib.sha256(b).digest()], [base64.b64decode] ([None] is
    [binascii.Error]) and [base64.b64encode(b).decode('utf-8')]. *)
Variable sha256 : list Byte.byte -> list Byte.byte.
Variable b64decode : string -> option (list Byte.byte).
Variable b64encode : list Byte.byte -> string.
(** [urllib.parse.unquote] on a text that holds a percent sign, and
    [urllib.parse.quote_plus]. *)
Variable unquote_escaped : string -> string.
Variable quote_plus : string -> string.
(** [os.path.dirname(config_file)]. *)
Variable directory : string.

Definition datetime_now : M Z :=
  fun w => (Ret (clock (clock_reads w)),
            World (data w) (verbose w) (config_disk w) (directory_exists w)
                  (stdout w) (sent w) (S (clock_reads w))).

(** [a.astimezone(tz.tzlocal())]. *)
Definition astimezone_local (a : aware) : aware :=
  let utc := instant a in Aware (utc + tzlocal utc) (tzlocal utc).

(** [requests.get] and [requests.post]: the request is logged and the
    server answers. *)
Definition http (rq : request) : M response :=
  fun w => (Ret (server (sent w) rq),
            World (data w) (verbose w) (config_disk w) (directory_exists w)
                  (stdout w) (sent w ++ [rq]) (clock_reads w)).

Definition requests_get (url : string) (allow_redirects : bool) : M response :=
  http (Request GET url [] [] [] allow_redirects).

Definition requests_post (url : string) (payload cookies : list (string * string))
  : M response :=
  http (Request POST url [] cookies payload true).

(** *** [unquote] (Python 3 branch): [urllib.parse.unquote] returns a text
    without percent sign as it is. *)
Definition unquote (text : string) : string :=
  if Py.contains "%" text then unquote_escaped text else text.

(** *** [log_output] *)
Definition log_output (text : string) (important : bool) (code : option Z)
  : M unit :=
  fun w =>
    if negb (verbose w) && negb important then ret tt w
    else match code with
         | None => print text w
         | Some c =>
             if negb (verbose w) then print text w
             else print (text +:+ Py.LF +:+ "Code: " +:+ Py.str_of_int c) w
         end.

(** *** [write_config]

    [directory] is [os.path.dirname(config_file)]: the empty path when the
    configuration file is named without a directory part, as the module's
    own [config.yml] is. *)

(** [os.path.exists(directory)]: the empty path never exists. *)
Definition path_exists (w : world) : bool :=
  negb (String.eqb directory "") && directory_exists w.

(** [os.makedirs(directory)]: the empty path is refused with
    [FileNotFoundError]. *)
Definition makedirs : M unit :=
  if String.eqb directory "" then raise FileNotFoundError
  else
    fun w => (Ret tt,
              World (data w) (verbose w) (config_disk w) true
                    (stdout w) (sent w) (clock_reads w)).

Definition write_config (d : dict) : M unit :=
  (fun w =>
     if path_exists w then ret tt w
     else
       (log_output ("Created directory " +:+ Py.DQUOTE +:+ directory
                    +:+ Py.DQUOTE) true None ;;;
        makedirs) w) ;;;
  fun w => (Ret tt,
            World (data w) (verbose w) (Some (yaml_dump d))
                  (directory_exists w) (stdout w) (sent w) (clock_reads w)).

(** *** [validate_config] *)
Definition contains_or_raise (k : string) (v : value) : M bool :=
  match value_contains k v with
  | Some b => ret b
  | None => raise TypeError
  end.

(** [data.get("server", {})]. *)
Definition get_server_or_empty (v : value) : M value :=
  match v with
  | VDict m => ret (match m !! "server" with Some s => s | None => VDict ∅ end)
  | _ => raise AttributeError
  end.

Definition validate_config (v : value) : M unit :=
  let* has_server := contains_or_raise "server" v in
  let* s1 := get_server_or_empty v in
  let* has_protocol := contains_or_raise "protocol" s1 in
  let* s2 := get_server_or_empty v in
  let* has_url := contains_or_raise "url" s2 in
  let* s3 := get_server_or_empty v in
  let* has_port := contains_or_raise "port" s3 in
  let* has_token := contains_or_raise "token" v in
  let* has_expires := contains_or_raise "token_expires" v in
  let valid := has_server && has_protocol && has_url && has_port
               && has_token && has_expires in
  if valid then ret tt
  else
    log_output ("Configuration appears to be invalid. "
                +:+ "You can re-create it with --overwrite.") true None ;;;
    sys_exit 2.

(** *** [load_config] *)
Definition load_config (d : dict) (overwrite : bool) : M value :=
  (fun w =>
     if negb (bool_decide (is_Some (config_disk w))) || overwrite
     then (log_output "Creating config file" true None ;;; write_config d) w
     else ret tt w) ;;;
  fun w =>
    match config_disk w with
    | None => raise FileNotFoundError w
    | Some text =>
        match yaml_safe_load text with
        | inl v => (validate_config v ;;; ret v) w
        | inr msg => (log_output msg true None ;;; sys_exit 2) w
        end
    end.

(** *** [verify_token] *)
Definition verify_token : M unit :=
  let* d := get_data in
  let token := dict_get d "token" in
  let expires := dict_get d "token_expires" in
  if is_none token || is_none expires then
    log_output "Not logged in" true None ;;; sys_exit 2
  else
    let* now := datetime_now in
    let now := astimezone_local (replace_tzutc now) in
    match expires with
    | VTime e =>
        let expires := astimezone_local (replace_tzutc e) in
        if aware_gt now expires then
          log_output "Token expired" true None ;;; sys_exit 2
        else ret tt
    | VStr _ => raise TypeError
    | _ => raise AttributeError
    end.

(** *** [check_response] *)
Definition check_response (status : Z) : M unit :=
  if status =? 400 then
    log_output "Session expired. Please login again" true (Some status) ;;;
    sys_exit 2
  else if status =? 503 then
    log_output "Server is not responding. Is it running?" true (Some status) ;;;
    sys_exit 2
  else if status =? 200 then
    let* now := datetime_now in
    let expiration := now + timedelta 0 600 in
    let* d := get_data in
    put_data (<["token_expires" := VTime expiration]> d) ;;;
    let* d := get_data in
    write_config d
  else ret tt.

(** *** [create_baseurl] *)
Definition create_baseurl (additional_path : string) (append_token : bool)
  : M string :=
  let* d := get_data in
  let* srv := subscript (VDict d) "server" in
  let* protocol := subscript srv "protocol" in
  let* srv := subscript (VDict d) "server" in
  let* url := subscript srv "url" in
  let* srv := subscript (VDict d) "server" in
  let* port := subscript srv "port" in
  let* protocol := as_str protocol in
  let* url := as_str url in
  let* port := as_str port in
  let baseurl := protocol +:+ "://" +:+ url +:+ ":" +:+ port
                 +:+ additional_path in
  if append_token then
    let* token := as_str (match d !! "token" with Some v => v | None => VStr "" end) in
    ret (baseurl +:+ "?x-xsrf-token=" +:+ quote_plus token)
  else ret baseurl.

(** *** [login] *)

(** The locals [protocol], [url] and [port] of [login]; [None] is a name
    that no statement has assigned yet. *)
Definition locals : Type := option string * option string * option string.

(** Lines 751-768: the parse of [input_url]. *)
Definition login_parse (input_url : option string) : M locals :=
  match input_url with
  | None => ret (None, None, None)
  | Some input_url =>
      let input_url := Py.replace "_" "" (Py.replace "/" "" input_url) in
      let count := Py.count ":" input_url in
      if (count =? 2)%nat then
        match Py.split ":" input_url with
        | [protocol; url; port] => ret (Some protocol, Some url, Some port)
        | _ => raise ValueError
        end
      else
        let* before6 :=
          (if (count =? 1)%nat then
             match Py.index ":" input_url with
             | Some i => ret (i <? 6)%nat
             | None => raise ValueError
             end
           else ret false) in
        if before6 then
          match Py.split ":" input_url with
          | [protocol; url] => ret (Some protocol, Some url, Some "")
          | _ => raise ValueError
          end
        else if (count =? 1)%nat then
          match Py.split ":" input_url with
          | [url; port] => ret (Some "", Some url, Some port)
          | _ => raise ValueError
          end
        else if (count =? 0)%nat then
          ret (Some "", Some input_url, Some "")
        else
          log_output "Invalid URL" true None ;;;
          sys_exit 2
  end.

(** A local read before any assignment. *)
Definition read_local (name : string) (x : option string) : M string :=
  match x with
  | Some s => ret s
  | None => raise (UnboundLocalError name)
  end.

(** Lines 770-779: the digits of the port, then the configured values for
    what the parse left empty. *)
Definition login_defaults (l : locals) : M (value * value * value) :=
  let '(protocol, url, port) := l in
  let* port := read_local "port" port in
  let port := Py.join (Py.findall_digits port) in
  let* protocol := read_local "protocol" protocol in
  let* d := get_data in
  let* protocol :=
    (if negb (Py.in_list (Py.lower protocol) ["http"; "https"]) then
       let* srv := subscript (VDict d) "server" in subscript srv "protocol"
     else ret (VStr protocol)) in
  let* url := read_local "url" url in
  let* url :=
    (if String.eqb url "" then
       let* srv := subscript (VDict d) "server" in subscript srv "url"
     else ret (VStr url)) in
  let* port :=
    (if String.eqb port "" then
       let* srv := subscript (VDict d) "server" in subscript srv "port"
     else ret (VStr port)) in
  ret (protocol, url, port).

(** [data["server"][k] = v]. *)
Definition set_server (k : string) (v : value) : M unit :=
  let* d := get_data in
  let* srv := subscript (VDict d) "server" in
  match srv with
  | VDict s => put_data (<["server" := VDict (<[k := v]> s)]> d)
  | _ => raise TypeError
  end.

(** [r.cookies[name]] and [r.json()[name]]. *)
Definition cookie (r : response) (name : string) : M string :=
  match cookies r !! name with
  | Some c => ret c
  | None => raise (KeyError name)
  end.

Definition json_member (r : response) (name : string) : M string :=
  match json r with
  | None => raise JSONDecodeError
  | Some body => match body !! name with
                 | Some x => ret x
                 | None => raise (KeyError name)
                 end
  end.

Definition b64decode_or_raise (s : string) : M (list Byte.byte) :=
  match b64decode s with
  | Some b => ret b
  | None => raise BinasciiError
  end.

(** Lines 838-845: the session is recorded and written. *)
Definition login_finish (token : string) : M unit :=
  setitem "token" (VStr token) ;;;
  let* now := datetime_now in
  let expiration := now + timedelta 0 600 in
  setitem "token_expires" (VTime expiration) ;;;
  let* now := datetime_now in
  setitem "last_login" (VTime now) ;;;
  let* d := get_data in
  write_config d ;;;
  log_output "Login successful" true None.

(** Lines 811-814: the digest of the password. *)
Definition noncedpwd (password : string) (salt nonce_bytes : list Byte.byte)
  : list Byte.byte :=
  let salt_password := (Py.encode password ++ salt)%list in
  let saltedpwd := sha256 salt_password in
  let nonce_password := (nonce_bytes ++ saltedpwd)%list in
  sha256 nonce_password.

(** Lines 825-832: the answer to the submitted digest. *)
Definition login_verdict (r : response) (token : string) : M unit :=
  check_response (status_code r) ;;;
  if status_code r =? 200 then
    log_output "Connected" true (Some (status_code r)) ;;;
    let* auth := cookie r "session-auth" in
    setitem "session-auth" (VStr (unquote auth)) ;;;
    login_finish token
  else
    log_output "Error authenticating against the server" true
               (Some (status_code r)) ;;;
    sys_exit 2.

(** Lines 807-824: salt, nonce and token are read off the answer [r] to the
    nonce request, the password is hashed and the digest is submitted. *)
Definition login_authenticate (baseurl password : string) (r : response)
  : M unit :=
  let* salt := json_member r "Salt" in
  let* nonce := json_member r "Nonce" in
  setitem "nonce" (VStr (unquote nonce)) ;;;
  let* token := cookie r "xsrf-token" in
  let token := unquote token in
  log_output "Hashing password..." false None ;;;
  let* salt := b64decode_or_raise salt in
  let* d := get_data in
  let* nonce := subscript (VDict d) "nonce" in
  let* nonce := as_str nonce in
  let* nonce := b64decode_or_raise nonce in
  let digest := noncedpwd password salt nonce in
  log_output "Authenticating... " false None ;;;
  let payload := [("password", b64encode digest)] in
  let* d := get_data in
  let* session_nonce :=
    as_str (match d !! "nonce" with Some v => v | None => VStr "" end) in
  let cookies := [("xsrf-token", token); ("session-nonce", session_nonce)] in
  let* r := requests_post baseurl payload cookies in
  login_verdict r token.

(** Lines 794-805: the server asked for a password; the nonce is requested. *)
Definition login_challenge (status : Z) (password : option string) : M unit :=
  let* password :=
    (match password with
     | None =>
         log_output "Authentication required" true (Some status) ;;;
         ret getpass
     | Some p => ret p
     end) in
  log_output "Getting nonce and salt..." false None ;;;
  let* baseurl := create_baseurl "/login.cgi" false in
  let payload := [("get-nonce", "1")] in
  let* r := requests_post baseurl payload [] in
  if negb (status_code r =? 200) then
    log_output "Error getting salt from server" true (Some (status_code r))
  else
    login_authenticate baseurl password r.

(** Lines 750-779: the resolution of the server address. *)
Definition login_resolve (input_url : option string)
  : M (value * value * value) :=
  let* l := login_parse input_url in
  login_defaults l.

(** Lines 781-788: the configuration in memory takes the address, and the
    probe goes out. *)
Definition login_probe (resolved : value * value * value) : M response :=
  let '(protocol, url, port) := resolved in
  set_server "protocol" protocol ;;;
  set_server "url" url ;;;
  set_server "port" port ;;;
  let* baseurl := create_baseurl "" false in
  log_output ("Connecting to " +:+ baseurl +:+ "...") false None ;;;
  requests_get baseurl false.

(** Lines 789-845: what [login] does with the answer to the probe. *)
Definition login_answer (r : response) (password : option string) : M unit :=
  check_response (status_code r) ;;;
  if status_code r =? 200 then
    log_output "OK" false (Some (status_code r)) ;;;
    let* token := cookie r "xsrf-token" in
    login_finish (unquote token)
  else if status_code r =? 302 then
    login_challenge (status_code r) password
  else
    log_output "Error connecting to server" true (Some (status_code r)).

Definition login (input_url : option string) (password : option string)
  : M unit :=
  let* resolved := login_resolve input_url in
  let* r := login_probe resolved in
  login_answer r password.

(** *** [logout] *)
Definition logout : M unit :=
  log_output "Logging out..." true None ;;;
  setitem "token" VNone ;;;
  let* d := get_data in
  write_config d.

End Client.

(** ** The rest of the client: commands and helpers *)

(** [bool(v)]: the truth value of a Python value. *)
Definition truthy (v : value) : bool :=
  match v with
  | VNone => false
  | VBool b => b
  | VStr s => negb (String.eqb s "")
  | VTime _ => true
  | VDict m => negb (size m =? 0)%nat
  end.

(** [str(b)] for a boolean. *)
Definition str_of_bool (b : bool) : string := if b then "True" else "False".

(** [d.get(k, default)]. *)
Definition dict_get_or (d : dict) (k : string) (default : value) : value :=
  match d !! k with Some v => v | None => default end.

(** [create_cookies] and [create_headers], lines 1208-1228. *)
Definition create_cookies (d : dict) : list (string * value) :=
  let token := dict_get_or d "token" (VStr "") in
  if is_none (dict_get d "nonce") then [("xsrf-token", token)]
  else
    let nonce := dict_get_or d "nonce" (VStr "") in
    let session_auth := dict_get_or d "session-auth" (VStr "") in
    [("xsrf-token", token); ("session-nonce", nonce);
     ("session-auth", session_auth)].

Definition create_headers (d : dict) : list (string * value) :=
  [("X-XSRF-TOKEN", dict_get_or d "token" (VStr ""))].

(** The headers and cookies as the HTTP client sends them, when all their
    values are texts. *)
Fixpoint texts (l : list (string * value)) : option (list (string * string)) :=
  match l with
  | [] => Some []
  | (k, VStr s) :: l' => (fun t => (k, s) :: t) <$> texts l'
  | _ => None
  end.

(** [format_duration], lines 1290-1292: [duration_string.split(".")[0]]. *)
Definition format_duration (duration_string : string) : string :=
  match Py.split "." duration_string with
  | first :: _ => first
  | [] => ""
  end.

(** Lines 549-555 (and 557-563, 623-629, 631-637): a message or an exception
    of a log entry is split into lines; beyond 15 lines, unless everything
    is asked for, the first 15 are kept and a line tells how many are
    hidden. *)
Definition shorten_lines (text : string) (show_all : bool) : list string :=
  let lines := Py.split "010" text in
  let message_length := length lines in
  if (15 <? message_length)%nat && negb show_all then
    firstn 15 lines
    ++ [Py.str_of_int (Z.of_nat message_length - 15)
        +:+ " hidden lines (show with --all)"]
  else lines.

Section Commands.

Variable clock : nat -> Z.
Variable tzlocal : Z -> Z.
Variable server : list request -> request -> response.
Variable yaml_dump : dict -> string.
Variable quote_plus : string -> string.
Variable directory : string.

(** [requests.post(baseurl, headers=headers, cookies=cookies)].  A request
    carries texts: [requests] sends the values that are texts as they are.
    What it makes of another value (it leaves out a header that is [None]
    and refuses any other with an exception of its own) is not part of this
    model of the HTTP client, which stops with [TypeError] there; the
    statements on commands are about credentials that are texts. *)
Definition requests_post_with (url : string)
  (headers cookies : list (string * value)) : M response :=
  match texts headers, texts cookies with
  | Some hs, Some cs => http server (Request POST url hs cs [] true)
  | _, _ => raise TypeError
  end.

(** [run_backup], lines 662-674. *)
Definition run_backup (backup_id : Z) : M unit :=
  verify_token clock tzlocal ;;;
  let* baseurl :=
    create_baseurl quote_plus
      ("/api/v1/backup/" +:+ Py.str_of_int backup_id +:+ "/run") false in
  let* d := get_data in
  let cookies := create_cookies d in
  let headers := create_headers d in
  let* r := requests_post_with baseurl headers cookies in
  check_response clock yaml_dump directory (status_code r) ;;;
  if negb (status_code r =? 200) then
    log_output "Error scheduling backup " true (Some (status_code r))
  else
    log_output "Backup scheduled" true (Some 200).

(** [abort_task], lines 678-690. *)
Definition abort_task (task_id : Z) : M unit :=
  verify_token clock tzlocal ;;;
  let* baseurl :=
    create_baseurl quote_plus
      ("/api/v1/task/" +:+ Py.str_of_int task_id +:+ "/abort") false in
  let* d := get_data in
  let cookies := create_cookies d in
  let headers := create_headers d in
  let* r := requests_post_with baseurl headers cookies in
  check_response clock yaml_dump directory (status_code r) ;;;
  if negb (status_code r =? 200) then
    log_output "Error aborting task " true (Some (status_code r))
  else
    log_output "Task aborted" true (Some 200).

(** [toggle_verbose], lines 857-862.  [data.get("verbose", True)] reads back
    the flag just stored. *)
Definition toggle_verbose : M unit :=
  let* d := get_data in
  let flag := negb (truthy (dict_get_or d "verbose" (VBool false))) in
  setitem "verbose" (VBool flag) ;;;
  let* d := get_data in
  write_config yaml_dump directory d ;;;
  log_output ("verbose mode: " +:+ str_of_bool flag) true None.

(** [set_parameters_file], lines 955-969; [args] is the dictionary of the
    command line. *)
Definition set_parameters_file (args : dict) (file : option string) : M unit :=
  if truthy (dict_get_or args "disable" (VBool false)) then
    let* d := get_data in
    put_data (delete "parameters_file" d) ;;;
    let* d := get_data in
    write_config yaml_dump directory d ;;;
    log_output "Disabling parameters-file" true None
  else
    match file with
    | None => ret tt
    | Some f =>
        setitem "parameters_file" (VStr f) ;;;
        let* d := get_data in
        write_config yaml_dump directory d ;;;
        log_output "Setting parameters-file" true None
    end.

End Commands.

(** ** [load_parameters], lines 973-1007 *)

(** What [os.path.isfile] and [open] take as the name of a file: a text,
    or a truth value, which Python reads as a file descriptor. *)
Definition path_like (v : value) : bool :=
  match v with
  | VStr _ | VBool _ => true
  | _ => false
  end.

(** [len(v)]. *)
Definition len (v : value) : M nat :=
  match v with
  | VStr s => ret (String.length s)
  | VDict m => ret (size m)
  | _ => raise TypeError
  end.

(** The loop over [parameters_file.items()]: an argument of the command
    line that is not [None] is kept. *)
Definition fill_arguments (args : dict) (items : list (string * value))
  : dict :=
  fold_left (fun a kv => if is_none (dict_get a kv.1)
                         then <[kv.1 := kv.2]> a else a)
            items args.

Section Parameters.
Variable yaml_dump : dict -> string.
Variable yaml_safe_load : string -> value + string.
Variable directory : string.
(** The text of the regular file a name denotes, if it denotes one. *)
Variable parameters_disk : value -> option string.

Definition load_parameters (args : dict) : M dict :=
  let* d := get_data in
  let file := dict_get d "parameters_file" in
  if is_none file then ret args
  else if negb (path_like file) then raise TypeError
  else
    match parameters_disk file with
    | None => ret args
    | Some text =>
        match yaml_safe_load text with
        | inr msg => log_output msg true None ;;; ret args
        | inl parameters_file =>
            let* parameters := len parameters_file in
            log_output ("Loaded " +:+ Py.str_of_int (Z.of_nat parameters)
                        +:+ " parameters from file") true None ;;;
            match parameters_file with
            | VDict m =>
                let args := fill_arguments args (map_to_list m) in
                (if is_none (dict_get m "verbose") then ret tt
                 else setitem "verbose" (dict_get m "verbose")) ;;;
                setitem "parameters_file" file ;;;
                let* d := get_data in
                write_config yaml_dump directory d ;;;
                ret args
            | _ => raise AttributeError
            end
        end
    end.

End Parameters.

(** ** Reference implementations of the hashing libraries

    [hashlib.sha256] (FIPS 180-4) and the standard base64 alphabet
    (RFC 4648), to run the client on concrete handshakes.  The client itself
    takes them as parameters. *)

Module Reference.

Definition mask32 (x : Z) : Z := Z.land x 4294967295.
Definition add32 (a b : Z) : Z := mask32 (a + b).
Definition rotr (n x : Z) : Z :=
  Z.lor (Z.shiftr x n) (mask32 (Z.shiftl x (32 - n))).
Definition not32 (x : Z) : Z := Z.lxor x 4294967295.
Definition xor3 (a b c : Z) : Z := Z.lxor (Z.lxor a b) c.

Definition Ch (x y z : Z) : Z := Z.lxor (Z.land x y) (Z.land (not32 x) z).
Definition Maj (x y z : Z) : Z :=
  xor3 (Z.land x y) (Z.land x z) (Z.land y z).
Definition Sigma0 (x : Z) : Z := xor3 (rotr 2 x) (rotr 13 x) (rotr 22 x).
Definition Sigma1 (x : Z) : Z := xor3 (rotr 6 x) (rotr 11 x) (rotr 25 x).
Definition sigma0 (x : Z) : Z := xor3 (rotr 7 x) (rotr 18 x) (Z.shiftr x 3).
Definition sigma1 (x : Z) : Z := xor3 (rotr 17 x) (rotr 19 x) (Z.shiftr x 10).

Definition K : list Z :=
  [
   1116352408; 1899447441; 3049323471; 3921009573; 961987163; 1508970993;
   2453635748; 2870763221; 3624381080; 310598401; 607225278; 1426881987;
   1925078388; 2162078206; 2614888103; 3248222580; 3835390401; 4022224774;
   264347078; 604807628; 770255983; 1249150122; 1555081692; 1996064986;
   2554220882; 2821834349; 2952996808; 3210313671; 3336571891; 3584528711;
   113926993; 338241895; 666307205; 773529912; 1294757372; 1396182291;
   1695183700; 1986661051; 2177026350; 2456956037; 2730485921; 2820302411;
   3259730800; 3345764771; 3516065817; 3600352804; 4094571909; 275423344;
   430227734; 506948616; 659060556; 883997877; 958139571; 1322822218;
   1537002063; 1747873779; 1955562222; 2024104815; 2227730452; 2361852424;
   2428436474; 2756734187; 3204031479; 3329325298
  ].

Definition state : Type := Z * Z * Z * Z * Z * Z * Z * Z.

Definition H0 : state :=
  (1779033703, 3144134277, 1013904242, 2773480762,
   1359893119, 2600822924, 528734635, 1541459225).

Definition byte_to_Z (b : Byte.byte) : Z := Z.of_N (Byte.to_N b).

Definition Z_to_byte (z : Z) : Byte.byte :=
  match Byte.of_N (Z.to_N (Z.land z 255)) with
  | Some b => b
  | None => Byte.x00
  end.

(** The [n] low bytes of [x], most significant first. *)
Definition be_bytes (n : nat) (x : Z) : list Z :=
  map (fun i => Z.land (Z.shiftr x (8 * Z.of_nat i)) 255) (rev (seq 0 n)).

(** The message, a one bit, zeros up to 56 modulo 64, and the bit length. *)
Definition pad (msg : list Z) : list Z :=
  let len := Z.of_nat (length msg) in
  msg ++ [128] ++ repeat 0 (Z.to_nat ((55 - len) mod 64))
      ++ be_bytes 8 (8 * len).

Fixpoint words (bytes : list Z) : list Z :=
  match bytes with
  | a :: b :: c :: d :: rest =>
      (Z.shiftl a 24 + Z.shiftl b 16 + Z.shiftl c 8 + d) :: words rest
  | _ => []
  end.

Fixpoint blocks (fuel : nat) (ws : list Z) : list (list Z) :=
  match fuel, ws with
  | S fuel', _ :: _ => firstn 16 ws :: blocks fuel' (skipn 16 ws)
  | _, _ => []
  end.

(** The message schedule: [n] more words after those of [w]. *)
Fixpoint schedule (n : nat) (w : list Z) : list Z :=
  match n with
  | O => w
  | S n' =>
      let t := length w in
      let at_ i := nth (t - i) w 0 in
      schedule n' (w ++ [add32 (add32 (sigma1 (at_ 2%nat)) (at_ 7%nat))
                               (add32 (sigma0 (at_ 15%nat)) (at_ 16%nat))])
  end.

Definition round (s : state) (kw : Z * Z) : state :=
  let '(a, b, c, d, e, f, g, h) := s in
  let t1 := add32 (add32 (add32 h (Sigma1 e)) (add32 (Ch e f g) (fst kw)))
                  (snd kw) in
  let t2 := add32 (Sigma0 a) (Maj a b c) in
  (add32 t1 t2, a, b, c, add32 d t1, e, f, g).

Definition compress (hs : state) (block : list Z) : state :=
  let '(a, b, c, d, e, f, g, h) :=
    fold_left round (combine K (schedule 48 block)) hs in
  let '(h0, h1, h2, h3, h4, h5, h6, h7) := hs in
  (add32 h0 a, add32 h1 b, add32 h2 c, add32 h3 d,
   add32 h4 e, add32 h5 f, add32 h6 g, add32 h7 h).

Definition sha256 (msg : list Byte.byte) : list Byte.byte :=
  let ws := words (pad (map byte_to_Z msg)) in
  let '(h0, h1, h2, h3, h4, h5, h6, h7) :=
    fold_left compress (blocks (length ws) ws) H0 in
  map Z_to_byte (flat_map (be_bytes 4) [h0; h1; h2; h3; h4; h5; h6; h7]).

Definition alphabet : string :=
  "ABCDEFGHIJKLMNOPQRSTUVWXYZabcdefghijklmnopqrstuvwxyz0123456789+/".

Definition b64_chr (n : Z) : ascii :=
  match String.get (Z.to_nat n) alphabet with
  | Some c => c
  | None => "="%char
  end.

Definition b64_val (c : ascii) : option Z :=
  Z.of_nat <$> Py.index c alphabet.

Fixpoint b64encode_bytes (bs : list Z) : string :=
  match bs with
  | [] => ""
  | [a] =>
      String (b64_chr (Z.shiftr a 2))
        (String (b64_chr (Z.shiftl (Z.land a 3) 4)) "==")
  | [a; b] =>
      String (b64_chr (Z.shiftr a 2))
        (String (b64_chr (Z.lor (Z.shiftl (Z.land a 3) 4) (Z.shiftr b 4)))
           (String (b64_chr (Z.shiftl (Z.land b 15) 2)) "="))
  | a :: b :: c :: rest =>
      String (b64_chr (Z.shiftr a 2))
        (String (b64_chr (Z.lor (Z.shiftl (Z.land a 3) 4) (Z.shiftr b 4)))
           (String (b64_chr (Z.lor (Z.shiftl (Z.land b 15) 2) (Z.shiftr c 6)))
              (String (b64_chr (Z.land c 63)) (b64encode_bytes rest))))
  end.

(** [base64.b64encode(b).decode('utf-8')]. *)
Definition b64encode (bs : list Byte.byte) : string :=
  b64encode_bytes (map byte_to_Z bs).

Definition pad_chr : ascii := "="%char.

(** Quads of alphabet characters, the last one possibly padded. *)
Fixpoint b64decode_quads (cs : list ascii) : option (list Z) :=
  match cs with
  | [] => Some []
  | c1 :: c2 :: c3 :: c4 :: rest =>
      match b64_val c1, b64_val c2 with
      | Some v1, Some v2 =>
          let b1 := Z.lor (Z.shiftl v1 2) (Z.shiftr v2 4) in
          match b64_val c3, b64_val c4, rest with
          | Some v3, Some v4, _ =>
              let b2 := Z.lor (Z.shiftl (Z.land v2 15) 4) (Z.shiftr v3 2) in
              let b3 := Z.lor (Z.shiftl (Z.land v3 3) 6) v4 in
              (fun tl => b1 :: b2 :: b3 :: tl) <$> b64decode_quads rest
          | Some v3, None, [] =>
              if Ascii.eqb c4 pad_chr
              then Some [b1; Z.lor (Z.shiftl (Z.land v2 15) 4) (Z.shiftr v3 2)]
              else None
          | None, None, [] =>
              if Ascii.eqb c3 pad_chr && Ascii.eqb c4 pad_chr
              then Some [b1] else None
          | _, _, _ => None
          end
      | _, _ => None
      end
  | _ => None
  end.

(** [base64.b64decode(s)] on the texts the handshake carries: characters
    outside the alphabet are dropped, then the text must be made of complete
    quads ([None]: [binascii.Error]). *)
Definition b64decode (s : string) : option (list Byte.byte) :=
  let keep c :=
    match b64_val c with
    | Some _ => true
    | None => Ascii.eqb c pad_chr
    end in
  map Z_to_byte <$> b64decode_quads (filter keep (list_ascii_of_string s)).

End Reference.

(** ** Vocabulary of the statements *)

(** The line [log_output] prints, if it prints. *)
Definition log_line (verbose : bool) (text : string) (important : bool)
  (code : option Z) : list string :=
  if negb verbose && negb important then []
  else match code with
       | None => [text]
       | Some c =>
           if negb verbose then [text]
           else [text +:+ Py.LF +:+ "Code: " +:+ Py.str_of_int c]
       end.

Definition add_stdout (lines : list string) (w : world) : world :=
  World (data w) (verbose w) (config_disk w) (directory_exists w)
        (stdout w ++ lines) (sent w) (clock_reads w).

(** The session of [d] is live at [now]: a token, and an expiry that [now]
    has not passed. *)
Definition session_live (d : dict) (now : Z) : Prop :=
  dict_get d "token" <> VNone
  /\ exists e, dict_get d "token_expires" = VTime e /\ now <= e.

(** The world after [write_config d]: the directory exists, the file holds
    the dump of [d], and the creation of the directory was announced. *)
Definition written (yaml_dump : dict -> string) (directory : string)
  (d : dict) (w : world) : world :=
  World (data w) (verbose w) (Some (yaml_dump d)) true
        (stdout w ++ (if directory_exists w then []
                      else ["Created directory " +:+ Py.DQUOTE +:+ directory
                            +:+ Py.DQUOTE]))
        (sent w) (clock_reads w).

(** One more reading of the clock. *)
Definition tick (w : world) : world :=
  World (data w) (verbose w) (config_disk w) (directory_exists w)
        (stdout w) (sent w) (S (clock_reads w)).

(** The override as [login] reads it: without slashes and underscores. *)
Definition stripped (input_url : string) : string :=
  Py.replace "_" "" (Py.replace "/" "" input_url).

(** A segment of the override: a text without colon. *)
Definition colon_free (s : string) : Prop := Py.count ":" s = 0%nat.

(** The digits of a text, in order. *)
Fixpoint keep_digits (s : string) : string :=
  match s with
  | "" => ""
  | String c s' => if Py.is_digit c then String c (keep_digits s') else keep_digits s'
  end.

(** A parsed protocol is kept when it is http or https in any case, a parsed
    host or port when it is not empty; the configured value [v] stands in
    otherwise. *)
Definition protocol_or (p : string) (v : value) : value :=
  if Py.in_list (Py.lower p) ["http"; "https"] then VStr p else v.

Definition text_or (x : string) (v : value) : value :=
  if String.eqb x "" then v else VStr x.

(** The configuration with the server entry [srv] holding an address. *)
Definition with_server (protocol url port : value) (srv d : dict) : dict :=
  <["server" := VDict (<["port" := port]> (<["url" := url]>
                        (<["protocol" := protocol]> srv)))]> d.

(** The address the configuration holds, when it holds one in full. *)
Definition server_address (d : dict) : option (string * string * string) :=
  match d !! "server" with
  | Some (VDict srv) =>
      match srv !! "protocol", srv !! "url", srv !! "port" with
      | Some (VStr protocol), Some (VStr url), Some (VStr port) =>
          Some (protocol, url, port)
      | _, _, _ => None
      end
  | _ => None
  end.

(** [protocol://url:port], the base of every request. *)
Definition base_url (protocol url port : string) : string :=
  protocol +:+ "://" +:+ url +:+ ":" +:+ port.

(** The probe of [login]. *)
Definition probe_request (protocol url port : string) : request :=
  Request GET (base_url protocol url port) [] [] [] false.

Definition add_sent (rq : request) (w : world) : world :=
  World (data w) (verbose w) (config_disk w) (directory_exists w)
        (stdout w) (sent w ++ [rq]) (clock_reads w).

(** The world when the probe has gone out: the configuration in memory holds
    the address, the connection is announced in verbose mode, the request is
    logged.  The configuration file is as before. *)
Definition probed (protocol url port : string) (srv : dict) (w : world)
  : world :=
  add_sent (probe_request protocol url port)
    (add_stdout
       (log_line (verbose w)
          ("Connecting to " +:+ base_url protocol url port +:+ "...")
          false None)
       (set_data (with_server (VStr protocol) (VStr url) (VStr port) srv
                    (data w)) w)).

(** The login endpoint and the two requests of the challenge. *)
Definition login_cgi (protocol url port : string) : string :=
  base_url protocol url port +:+ "/login.cgi".

Definition nonce_request (endpoint : string) : request :=
  Request POST endpoint [] [] [("get-nonce", "1")] true.

Definition submit_request (endpoint token nonce digest : string) : request :=
  Request POST endpoint []
          [("xsrf-token", token); ("session-nonce", nonce)]
          [("password", digest)] true.

(** The password [login] hashes: the one given, or the one typed. *)
Definition password_used (getpass : string) (password : option string)
  : string :=
  match password with
  | Some p => p
  | None => getpass
  end.

(** The world when the nonce request has gone out. *)
Definition challenged (endpoint : string) (password : option string)
  (w : world) : world :=
  add_sent (nonce_request endpoint)
    (add_stdout (log_line (verbose w) "Getting nonce and salt..." false None)
       (add_stdout
          (match password with
           | None => log_line (verbose w) "Authentication required" true
                              (Some 302)
           | Some _ => []
           end) w)).

(** The world when the digest has gone out: the nonce is in the
    configuration in memory. *)
Definition submitted (endpoint token nonce digest : string) (w : world)
  : world :=
  add_sent (submit_request endpoint token nonce digest)
    (add_stdout (log_line (verbose w) "Authenticating... " false None)
       (add_stdout (log_line (verbose w) "Hashing password..." false None)
          (set_data (<["nonce" := VStr nonce]> (data w)) w))).

(** The digest as the specification words it:
    base64( SHA256( nonce_bytes || SHA256( password_bytes || salt_bytes ) ) ),
    nonce and salt decoded from base64; [None] when one of them does not
    decode. *)
Definition auth_digest (sha256 : list Byte.byte -> list Byte.byte)
  (b64decode : string -> option (list Byte.byte))
  (b64encode : list Byte.byte -> string)
  (password salt nonce : string) : option string :=
  match b64decode nonce, b64decode salt with
  | Some nonce_bytes, Some salt_bytes =>
      Some (b64encode
              (sha256 (nonce_bytes ++ sha256 (Py.encode password ++ salt_bytes))))
  | _, _ => None
  end.

(** The alphabet of base64 texts, padding included. *)
Definition is_base64_chr (c : ascii) : bool :=
  let n := nat_of_ascii c in
  ((65 <=? n)%nat && (n <=? 90)%nat) || ((97 <=? n)%nat && (n <=? 122)%nat)
  || ((48 <=? n)%nat && (n <=? 57)%nat)
  || (n =? 43)%nat || (n =? 47)%nat || (n =? 61)%nat.

Fixpoint is_base64 (s : string) : bool :=
  match s with
  | "" => true
  | String c s' => is_base64_chr c && is_base64 s'
  end.

(** A computation keeps a property of the world. *)
Definition maintains {A} (P : world -> Prop) (c : M A) : Prop :=
  forall w, P w -> P (snd (c w)).

(** ** Fixtures *)

(** The default configuration, lines 26-37 of the source. *)
Definition default_server : dict :=
  <["port" := VStr "8200"]> (<["protocol" := VStr "http"]>
    (<["url" := VStr "localhost"]> ∅)).

Definition default_data : dict :=
  <["last_login" := VNone]> (<["parameters_file" := VNone]>
    (<["server" := VDict default_server]> (<["token" := VNone]>
      (<["token_expires" := VNone]> (<["verbose" := VBool false]> ∅))))).

(** A fresh world around a configuration: nothing printed, nothing sent, no
    configuration file yet, the clock never read. *)
Definition fresh (d : dict) : world := World d false None true [] [] 0.

(** A session whose expiry is the very microsecond the clock shows. *)
Definition boundary_data : dict :=
  <["token" := VStr "abc"]> (<["token_expires" := VTime 1000]> default_data).

(** A configuration [validate_config] accepts: the server entry with its
    three keys, a token entry and an expiry entry, whatever they hold. *)
Definition has_required_keys (d : dict) : Prop :=
  exists srv, d !! "server" = Some (VDict srv)
              /\ is_Some (srv !! "protocol") /\ is_Some (srv !! "url")
              /\ is_Some (srv !! "port")
              /\ is_Some (d !! "token") /\ is_Some (d !! "token_expires").

(** The clock of the fixtures: one microsecond per reading. *)
Definition fixture_clock (n : nat) : Z := 1000 + Z.of_nat n.

(** A server that answers the probe, the nonce request and the submission
    of the digest with the given statuses.  The salt is the base64 text of
    [salt], the nonce that of [nonce]. *)
Definition fixture_server (probe nonce submit : Z) (history : list request)
  (rq : request) : response :=
  match history with
  | [] => Response probe {["xsrf-token" := "tok"]} None
  | [_] => Response nonce {["xsrf-token" := "tok"]}
             (Some (<["Salt" := "c2FsdA=="]> {["Nonce" := "bm9uY2U="]}))
  | _ => Response submit {["session-auth" := "auth"]} None
  end.

(** A stand-in for YAML that shows the address and the token of a
    configuration, and reads back the two configurations of the fixtures. *)
Definition fixture_dump (d : dict) : string :=
  match server_address d with
  | Some (p, h, q) => base_url p h q
  | None => "?"
  end
  +:+ match dict_get d "token" with
      | VStr t => " " +:+ t
      | _ => ""
      end.

Definition fixture_load (text : string) : value + string :=
  if String.eqb text "http://localhost:8200 abc" then inl (VDict boundary_data)
  else if String.eqb text "http://localhost:8200" then inl (VDict default_data)
  else inr "cannot parse".

Definition fixture_directory : string := "/home/user/.config/duplicati-client".

(** The world at the start of a command: the configuration was loaded from
    its file. *)
Definition configured (d : dict) : world :=
  World d false (Some (fixture_dump d)) true [] [] 0.

(** [login] against the fixture server, the password typed at the prompt
    being [secret]. *)
Definition fixture_login (probe nonce submit : Z) (input_url : string)
  (password : option string) : M unit :=
  login fixture_clock (fixture_server probe nonce submit) "secret"
        fixture_dump Reference.sha256 Reference.b64decode Reference.b64encode
        (fun s => s) (fun s => s) fixture_directory (Some input_url) password.

(** ** Vocabulary and fixtures of the rest of the client *)

(** The configuration after a login: the token, its expiry and the time of
    the login. *)
Definition logged_in (token : string) (expires last_login : Z) (d : dict)
  : dict :=
  <["last_login" := VTime last_login]>
    (<["token_expires" := VTime expires]> (<["token" := VStr token]> d)).

(** What [login] needs of the answer to the nonce request: the salt and the
    nonce as bytes and the token; [None] when a part is missing or does not
    decode. *)
Definition handshake_material (b64decode : string -> option (list Byte.byte))
  (unquote_escaped : string -> string) (r : response)
  : option (list Byte.byte * list Byte.byte * string * string) :=
  body ← json r;
  salt ← body !! "Salt";
  nonce ← body !! "Nonce";
  token ← cookies r !! "xsrf-token";
  salt_bytes ← b64decode salt;
  nonce_bytes ← b64decode (unquote unquote_escaped nonce);
  Some (salt_bytes, nonce_bytes, unquote unquote_escaped nonce,
        unquote unquote_escaped token).

(** A text of digits only. *)
Fixpoint only_digits (s : string) : bool :=
  match s with
  | "" => true
  | String c s' => Py.is_digit c && only_digits s'
  end.

(** A text without colon, slash and underscore. *)
Definition clean (s : string) : Prop :=
  Py.count ":" s = 0%nat /\ Py.count "/" s = 0%nat /\ Py.count "_" s = 0%nat.

(** The shape [run_backup] and [abort_task] share: the session is checked,
    one POST goes to [path] with the credentials, the status is observed and
    one of two lines is printed. *)
Definition post_command (clock : nat -> Z) (tzlocal : Z -> Z)
  (server : list request -> request -> response) (yaml_dump : dict -> string)
  (quote_plus : string -> string) (directory : string)
  (path failure success : string) : M unit :=
  verify_token clock tzlocal ;;;
  let* baseurl := create_baseurl quote_plus path false in
  let* d := get_data in
  let cookies := create_cookies d in
  let headers := create_headers d in
  let* r := requests_post_with server baseurl headers cookies in
  check_response clock yaml_dump directory (status_code r) ;;;
  if negb (status_code r =? 200) then
    log_output failure true (Some (status_code r))
  else
    log_output success true (Some 200).

(** The request of such a command. *)
Definition command_request (P H Q path token : string)
  (cookies : list (string * string)) : request :=
  Request POST (base_url P H Q +:+ path) [("X-XSRF-TOKEN", token)] cookies []
          true.

(** The line [validate_config] prints before it gives up. *)
Definition invalid_configuration : string :=
  "Configuration appears to be invalid. You can re-create it with --overwrite.".

(** A server as [fixture_server] whose answers to the probe and to the
    digest carry no cookie, and whose answer to the nonce request has the
    given body. *)
Definition fixture_server_partial (probe nonce submit : Z)
  (body : option (gmap string string)) (history : list request)
  (rq : request) : response :=
  match history with
  | [] => Response probe ∅ None
  | [_] => Response nonce {["xsrf-token" := "tok"]} body
  | _ => Response submit ∅ None
  end.

(** The fixtures know one time zone: UTC. *)
Definition fixture_tzlocal (t : Z) : Z := 0.

(** A parameters file of the fixtures and the stand-in for YAML that reads
    it. *)
Definition fixture_parameters_disk (name : value) : option string :=
  match name with
  | VStr f => if String.eqb f "params.yml" then Some "id: 7" else None
  | _ => None
  end.

Definition fixture_parameters_load (text : string) : value + string :=
  if String.eqb text "id: 7" then inl (VDict {["id" := VStr "7"]})
  else inr "cannot parse".

(** A configuration that names the parameters file, and the arguments of a
    command line that gives the output and leaves the id open. *)
Definition fixture_parameters_data : dict :=
  <["parameters_file" := VStr "params.yml"]> default_data.

Definition fixture_args : dict :=
  <["id" := VNone]> {["output" := VStr "json"]}.

(** * Properties of the session manager *)

(** ** The monad *)

Lemma bind_ret_l {A B} (a : A) (k : A -> M B) (w : world) :
  bind (ret a) k w = k a w.
Proof. reflexivity. Qed.

Lemma bind_get_data {B} (k : dict -> M B) (w : world) :
  bind get_data k w = k (data w) w.
Proof. reflexivity. Qed.

Lemma bind_Ret {A B} (c : M A) (k : A -> M B) (w w' : world) (a : A) :
  c w = (Ret a, w') -> bind c k w = k a w'.
Proof. intros H. unfold bind. now rewrite H. Qed.

Lemma bind_Exit {A B} (c : M A) (k : A -> M B) (w w' : world) (n : Z) :
  c w = (Exit n, w') -> bind c k w = (Exit n, w').
Proof. intros H. unfold bind. now rewrite H. Qed.

Lemma bind_Raise {A B} (c : M A) (k : A -> M B) (w w' : world) (e : exn) :
  c w = (Raise e, w') -> bind c k w = (Raise e, w').
Proof. intros H. unfold bind. now rewrite H. Qed.

(** A computation whose parts send nothing sends nothing. *)
Lemma bind_sent {A B} (c : M A) (k : A -> M B) :
  (forall w, sent (snd (c w)) = sent w) ->
  (forall a w, sent (snd (k a w)) = sent w) ->
  forall w, sent (snd (bind c k w)) = sent w.
Proof.
  intros Hc Hk w. unfold bind. specialize (Hc w).
  destruct (c w) as [[a|n|e] w']; simpl in *; [|assumption..].
  now rewrite Hk.
Qed.

(** ** [log_output] only prints *)

Lemma add_stdout_nil w : add_stdout [] w = w.
Proof. destruct w; unfold add_stdout; simpl. now rewrite app_nil_r. Qed.

Lemma log_output_eq text important code w :
  log_output text important code w
  = (Ret tt, add_stdout (log_line (verbose w) text important code) w).
Proof.
  unfold log_output, log_line.
  destruct (negb (verbose w) && negb important) eqn:E.
  - now rewrite add_stdout_nil.
  - destruct code as [c|]; [destruct (negb (verbose w))|]; reflexivity.
Qed.

Lemma log_line_plain v text : log_line v text true None = [text].
Proof. unfold log_line. now rewrite andb_false_r. Qed.

(** ** Time zones cancel in a comparison *)

Section Zones.
Variable tzlocal : Z -> Z.

Lemma instant_astimezone_local a :
  instant (astimezone_local tzlocal a) = instant a.
Proof. unfold astimezone_local, instant; simpl. lia. Qed.

Lemma aware_gt_local now e :
  aware_gt (astimezone_local tzlocal (replace_tzutc now))
           (astimezone_local tzlocal (replace_tzutc e))
  = (e <? now).
Proof.
  unfold aware_gt. rewrite !instant_astimezone_local.
  unfold instant, replace_tzutc; simpl. now rewrite !Z.sub_0_r.
Qed.
End Zones.

(** ** [verify_token] *)

Section VerifyToken.
Variable clock : nat -> Z.
Variable tzlocal : Z -> Z.

Lemma verify_token_absent w :
  is_none (dict_get (data w) "token")
  || is_none (dict_get (data w) "token_expires") = true ->
  verify_token clock tzlocal w = (Exit 2, add_stdout ["Not logged in"] w).
Proof.
  intros H. unfold verify_token. rewrite bind_get_data, H.
  erewrite bind_Ret by apply log_output_eq.
  now rewrite log_line_plain.
Qed.

Lemma verify_token_timed w e :
  dict_get (data w) "token" <> VNone ->
  dict_get (data w) "token_expires" = VTime e ->
  let now := clock (clock_reads w) in
  let w1 := World (data w) (verbose w) (config_disk w) (directory_exists w)
                  (stdout w) (sent w) (S (clock_reads w)) in
  verify_token clock tzlocal w
  = if e <? now then (Exit 2, add_stdout ["Token expired"] w1)
    else (Ret tt, w1).
Proof.
  intros Ht He. unfold verify_token. rewrite bind_get_data, He.
  destruct (dict_get (data w) "token") eqn:Et; try congruence;
    simpl; unfold bind, datetime_now; rewrite aware_gt_local;
    (destruct (e <? clock (clock_reads w)); [|reflexivity]);
    rewrite log_output_eq, log_line_plain; reflexivity.
Qed.

Lemma verify_token_frame w :
  let r := verify_token clock tzlocal w in
  data (snd r) = data w /\ config_disk (snd r) = config_disk w
  /\ sent (snd r) = sent w.
Proof.
  unfold verify_token. rewrite bind_get_data.
  destruct (is_none (dict_get (data w) "token")
            || is_none (dict_get (data w) "token_expires")).
  - erewrite bind_Ret by apply log_output_eq. simpl. auto.
  - unfold bind, datetime_now.
    destruct (dict_get (data w) "token_expires"); simpl; auto.
    destruct (aware_gt _ _); simpl; auto.
    rewrite log_output_eq. simpl. auto.
Qed.


End VerifyToken.


(** ** [write_config] and [check_response] *)

Section CheckResponse.
Variable clock : nat -> Z.
Variable yaml_dump : dict -> string.
Variable directory : string.

Lemma write_config_eq d w :
  directory <> "" ->
  write_config yaml_dump directory d w
  = (Ret tt, written yaml_dump directory d w).
Proof.
  intros Hd. apply String.eqb_neq in Hd.
  unfold write_config, written, path_exists, makedirs. unfold bind at 1.
  rewrite Hd. cbn [negb andb].
  destruct (directory_exists w) eqn:E.
  - simpl. rewrite E, app_nil_r. reflexivity.
  - erewrite bind_Ret by apply log_output_eq.
    rewrite log_line_plain. simpl. reflexivity.
Qed.

(** A configuration file named without a directory part is never written:
    the creation of the empty path is announced and refused. *)
Lemma write_config_unnamed d w :
  write_config yaml_dump "" d w
  = (Raise FileNotFoundError,
     add_stdout ["Created directory " +:+ Py.DQUOTE +:+ Py.DQUOTE] w).
Proof.
  unfold write_config, path_exists, makedirs. unfold bind at 1.
  cbn [String.eqb negb andb].
  erewrite bind_Ret by apply log_output_eq.
  rewrite log_line_plain. reflexivity.
Qed.

Lemma write_config_sent d w :
  sent (snd (write_config yaml_dump directory d w)) = sent w.
Proof.
  destruct (String.eqb_spec directory "") as [->|Hd].
  - now rewrite write_config_unnamed.
  - now rewrite write_config_eq.
Qed.

Lemma check_response_200_eq w :
  directory <> "" ->
  check_response clock yaml_dump directory 200 w
  = (Ret tt,
     let d' := <["token_expires" := VTime (clock (clock_reads w)
                                           + timedelta 0 600)]> (data w) in
     written yaml_dump directory d' (set_data d' (tick w))).
Proof.
  intros Hd. unfold check_response. simpl.
  unfold bind at 1. simpl. rewrite bind_get_data. simpl.
  unfold bind at 1. simpl. rewrite bind_get_data.
  now rewrite write_config_eq.
Qed.

Lemma check_response_200_unnamed w :
  check_response clock yaml_dump "" 200 w
  = (Raise FileNotFoundError,
     let d' := <["token_expires" := VTime (clock (clock_reads w)
                                           + timedelta 0 600)]> (data w) in
     add_stdout ["Created directory " +:+ Py.DQUOTE +:+ Py.DQUOTE]
       (set_data d' (tick w))).
Proof.
  unfold check_response. simpl.
  unfold bind at 1. simpl. rewrite bind_get_data. simpl.
  unfold bind at 1. simpl. rewrite bind_get_data.
  now rewrite write_config_unnamed.
Qed.

Lemma check_response_400_eq w :
  check_response clock yaml_dump directory 400 w
  = (Exit 2, add_stdout (log_line (verbose w)
                           "Session expired. Please login again" true
                           (Some 400)) w).
Proof.
  unfold check_response. simpl.
  erewrite bind_Ret by apply log_output_eq. reflexivity.
Qed.

Lemma check_response_503_eq w :
  check_response clock yaml_dump directory 503 w
  = (Exit 2, add_stdout (log_line (verbose w)
                           "Server is not responding. Is it running?" true
                           (Some 503)) w).
Proof.
  unfold check_response. simpl.
  erewrite bind_Ret by apply log_output_eq. reflexivity.
Qed.

Lemma check_response_other_eq status w :
  status <> 200 -> status <> 400 -> status <> 503 ->
  check_response clock yaml_dump directory status w = (Ret tt, w).
Proof.
  intros H2 H4 H5. unfold check_response.
  apply Z.eqb_neq in H2, H4, H5. now rewrite H2, H4, H5.
Qed.

Lemma check_response_sent status w :
  sent (snd (check_response clock yaml_dump directory status w)) = sent w.
Proof.
  destruct (Z.eq_dec status 400) as [->|H4];
    [now rewrite check_response_400_eq|].
  destruct (Z.eq_dec status 503) as [->|H5];
    [now rewrite check_response_503_eq|].
  destruct (Z.eq_dec status 200) as [->|H2];
    [|now rewrite check_response_other_eq].
  destruct (String.eqb_spec directory "") as [->|Hd].
  - now rewrite check_response_200_unnamed.
  - now rewrite check_response_200_eq.
Qed.

(** C4, where the code departs from it.  With a configuration file named
    without a directory part, as the module's own [config.yml] or a file
    given as [--config-file cfg.yml], an observed status 200 sets
    [token_expires] in memory to the reading of the clock plus 600 seconds
    and then raises [FileNotFoundError] in [write_config]: the creation of
    the empty path is announced and refused, and the configuration file is
    as before. *)
Theorem check_response_200_unnamed_directory (w : world) :
  let now := clock (clock_reads w) in
  let d' := <["token_expires" := VTime (now + 600 * 1000000)]> (data w) in
  let r := check_response clock yaml_dump "" 200 w in
  fst r = Raise FileNotFoundError
  /\ data (snd r) = d'
  /\ config_disk (snd r) = config_disk w
  /\ stdout (snd r)
     = stdout w ++ ["Created directory " +:+ Py.DQUOTE +:+ Py.DQUOTE]
  /\ sent (snd r) = sent w.
Proof.
  intros now d' r. subst r. rewrite check_response_200_unnamed.
  change (timedelta 0 600) with (600 * 1000000). simpl.
  repeat split.
Qed.

(** X24: with a configuration file named with a directory part, an
    observed status 200 sets [token_expires] to the reading of the clock
    plus 600 seconds, whatever it held before, leaves every other key as it
    was, and writes the updated configuration to the configuration file at
    once. *)
Theorem check_response_200_slides (w : world) :
  directory <> "" ->
  let now := clock (clock_reads w) in
  let d' := <["token_expires" := VTime (now + 600 * 1000000)]> (data w) in
  let r := check_response clock yaml_dump directory 200 w in
  fst r = Ret tt
  /\ data (snd r) = d'
  /\ data (snd r) !! "token_expires" = Some (VTime (now + 600 * 1000000))
  /\ config_disk (snd r) = Some (yaml_dump d')
  /\ sent (snd r) = sent w.
Proof.
  intros Hd now d' r. subst r. rewrite check_response_200_eq by exact Hd.
  change (timedelta 0 600) with (600 * 1000000). simpl.
  repeat split. apply lookup_insert_eq.
Qed.

(** C5: status 400 ends the command with exit status 2 after the line
    "Session expired. Please login again" and touches neither the
    configuration nor its file nor the clock; a status other than 200, 400
    and 503 leaves the whole world as it is. *)
Theorem check_response_no_refresh (status : Z) (w : world) :
  let r := check_response clock yaml_dump directory status w in
  (status = 400 ->
     fst r = Exit 2
     /\ stdout (snd r)
        = stdout w ++ log_line (verbose w)
                        "Session expired. Please login again" true (Some 400)
     /\ data (snd r) = data w
     /\ config_disk (snd r) = config_disk w
     /\ sent (snd r) = sent w
     /\ clock_reads (snd r) = clock_reads w)
  /\ (status <> 200 -> status <> 400 -> status <> 503 -> r = (Ret tt, w)).
Proof.
  intros r. subst r. split.
  - intros ->. unfold check_response. simpl.
    erewrite bind_Ret by apply log_output_eq. simpl. auto 10.
  - intros H2 H4 H5. unfold check_response.
    apply Z.eqb_neq in H2, H4, H5. now rewrite H2, H4, H5.
Qed.

End CheckResponse.

(** ** Python string primitives *)

Section Strings.
Variable sep : ascii.
#[local] Arguments String.append !s1 s2 / : simpl nomatch.

Lemma append_nil_r (s : string) : s +:+ "" = s.
Proof. induction s as [|c s IH]; simpl; [reflexivity | now rewrite IH]. Qed.

Lemma append_assoc (a b c : string) : (a +:+ b) +:+ c = a +:+ (b +:+ c).
Proof. induction a as [|x a IH]; simpl; [reflexivity | now rewrite IH]. Qed.

Lemma count_append (a b : string) :
  Py.count sep (a +:+ b) = (Py.count sep a + Py.count sep b)%nat.
Proof.
  induction a as [|c a IH]; simpl; [reflexivity|].
  destruct (Ascii.eqb c sep); simpl; now rewrite IH.
Qed.

Lemma count_String_sep (s : string) :
  Py.count sep (String sep s) = S (Py.count sep s).
Proof. simpl. now rewrite Ascii.eqb_refl. Qed.

Lemma split_not_nil (s : string) : Py.split sep s <> [].
Proof.
  induction s as [|c s IH]; simpl; [discriminate|].
  destruct (Ascii.eqb c sep); [discriminate|].
  destruct (Py.split sep s); [contradiction | discriminate].
Qed.

(** A text without separator is its only segment. *)
Lemma split_free (s : string) :
  Py.count sep s = 0%nat -> Py.split sep s = [s].
Proof.
  induction s as [|c s IH]; simpl; [reflexivity|].
  destruct (Ascii.eqb c sep); [discriminate|].
  intros H. now rewrite IH.
Qed.

(** The first segment ends at the first separator. *)
Lemma split_append (a b : string) :
  Py.count sep a = 0%nat ->
  Py.split sep (a +:+ String sep b) = a :: Py.split sep b.
Proof.
  induction a as [|c a IH]; simpl.
  - now rewrite Ascii.eqb_refl.
  - destruct (Ascii.eqb c sep); [discriminate|].
    intros H. now rewrite IH.
Qed.

Lemma index_append (a b : string) :
  Py.count sep a = 0%nat ->
  Py.index sep (a +:+ String sep b) = Some (String.length a).
Proof.
  induction a as [|c a IH]; simpl.
  - now rewrite Ascii.eqb_refl.
  - destruct (Ascii.eqb c sep); [discriminate|].
    intros H. now rewrite IH.
Qed.

(** Every text with a separator splits at the first one. *)
Lemma count_pos_split (s : string) :
  Py.count sep s <> 0%nat ->
  exists a b, s = a +:+ String sep b /\ Py.count sep a = 0%nat
              /\ Py.count sep s = S (Py.count sep b).
Proof.
  induction s as [|c s IH]; simpl; [congruence|].
  destruct (Ascii.eqb_spec c sep) as [->|Hne].
  - intros _. exists "", s. simpl. auto.
  - intros H. destruct (IH H) as (a & b & -> & Ha & Hc).
    exists (String c a), b. simpl.
    destruct (Ascii.eqb_spec c sep); [contradiction|]. auto.
Qed.

Lemma digit_runs_join (s cur : string) :
  Py.join (Py.digit_runs cur s) = cur +:+ keep_digits s.
Proof.
  revert cur. induction s as [|c s IH]; intros cur; simpl.
  - rewrite append_nil_r. destruct (String.eqb_spec cur ""); subst; reflexivity.
  - destruct (Py.is_digit c).
    + rewrite IH, append_assoc. reflexivity.
    + destruct (String.eqb_spec cur "") as [->|Hne]; simpl.
      * apply IH.
      * unfold Py.join in *. simpl.
        specialize (IH ""). simpl in IH.
        destruct (Py.digit_runs "" s) as [|r rs] eqn:E.
        -- simpl in IH. rewrite <- IH. now rewrite append_nil_r.
        -- rewrite IH. reflexivity.
Qed.

(** [''.join(re.findall(r'\d+', port))] keeps the digits of [port]. *)
Lemma join_findall_digits (s : string) :
  Py.join (Py.findall_digits s) = keep_digits s.
Proof. unfold Py.findall_digits. now rewrite digit_runs_join. Qed.

End Strings.

(** ** The resolution of the server address *)

Section Resolve.
#[local] Arguments String.append !s1 s2 / : simpl nomatch.

Lemma login_parse_three (u p h q : string) (w : world) :
  colon_free p -> colon_free h -> colon_free q ->
  stripped u = p +:+ ":" +:+ h +:+ ":" +:+ q ->
  login_parse (Some u) w = (Ret (Some p, Some h, Some q), w).
Proof.
  unfold colon_free. intros Hp Hh Hq Hs.
  unfold login_parse. fold (stripped u). rewrite Hs.
  change (":" +:+ h +:+ ":" +:+ q) with (String ":" (h +:+ String ":" q)).
  rewrite !count_append, !count_String_sep, !count_append, !count_String_sep.
  rewrite Hp, Hh, Hq. simpl (_ =? _)%nat. cbv iota.
  rewrite split_append, split_append, split_free by assumption.
  reflexivity.
Qed.

Lemma login_parse_two (u a b : string) (w : world) :
  colon_free a -> colon_free b ->
  stripped u = a +:+ ":" +:+ b ->
  login_parse (Some u) w
  = (Ret (if (String.length a <? 6)%nat then (Some a, Some b, Some "")
          else (Some "", Some a, Some b)), w).
Proof.
  unfold colon_free. intros Ha Hb Hs.
  unfold login_parse. fold (stripped u). rewrite Hs.
  change (":" +:+ b) with (String ":" b).
  rewrite !count_append, !count_String_sep, Ha, Hb.
  simpl (_ =? _)%nat. cbv iota.
  rewrite index_append, split_append, split_free by assumption.
  rewrite bind_ret_l.
  destruct (String.length a <? 6)%nat; reflexivity.
Qed.

Lemma login_parse_one (u : string) (w : world) :
  colon_free (stripped u) ->
  login_parse (Some u) w = (Ret (Some "", Some (stripped u), Some ""), w).
Proof.
  unfold colon_free. intros H.
  unfold login_parse. fold (stripped u). rewrite H. reflexivity.
Qed.

Lemma login_parse_many (u : string) (w : world) :
  (3 <= Py.count ":" (stripped u))%nat ->
  login_parse (Some u) w = (Exit 2, add_stdout ["Invalid URL"] w).
Proof.
  intros H. unfold login_parse. fold (stripped u).
  destruct (Py.count ":" (stripped u)) as [|[|[|n]]]; try lia.
  simpl (_ =? _)%nat. cbv iota. rewrite bind_ret_l. cbv iota.
  erewrite bind_Ret by apply log_output_eq. now rewrite log_line_plain.
Qed.

Lemma login_defaults_eq (p h q : string) (w : world) (srv : dict)
  (P0 H0 Q0 : value) :
  data w !! "server" = Some (VDict srv) ->
  srv !! "protocol" = Some P0 -> srv !! "url" = Some H0 ->
  srv !! "port" = Some Q0 ->
  login_defaults (Some p, Some h, Some q) w
  = (Ret (protocol_or p P0, text_or h H0, text_or (keep_digits q) Q0), w).
Proof.
  intros Hs HP HH HQ.
  unfold login_defaults, read_local, protocol_or, text_or, subscript,
    bind, get_data, ret, raise.
  rewrite join_findall_digits, Hs, HP, HH, HQ.
  destruct (Py.in_list (Py.lower p) ["http"; "https"]);
    destruct (String.eqb h ""); destruct (String.eqb (keep_digits q) "");
    reflexivity.
Qed.

(** With an override, the parse assigns the three locals or does not
    return. *)
Lemma login_parse_assigns (u : string) (w : world) :
  (exists p h q, login_parse (Some u) w = (Ret (Some p, Some h, Some q), w))
  \/ (exists w', login_parse (Some u) w = (Exit 2, w'))
  \/ login_parse (Some u) w = (Raise ValueError, w).
Proof.
  unfold login_parse. fold (stripped u).
  destruct (Py.count ":" (stripped u) =? 2)%nat.
  { destruct (Py.split ":" (stripped u)) as [|a [|b [|c [|x l]]]];
      [right; right| right; right | right; right | left | right; right];
      try reflexivity.
    exists a, b, c. reflexivity. }
  destruct (Py.count ":" (stripped u) =? 1)%nat.
  - destruct (Py.index ":" (stripped u)) as [i|]; [|right; right; reflexivity].
    rewrite bind_ret_l.
    destruct (i <? 6)%nat;
      destruct (Py.split ":" (stripped u)) as [|a [|b [|c l]]];
      try (right; right; reflexivity); left.
    + exists a, b, "". reflexivity.
    + exists "", a, b. reflexivity.
  - rewrite bind_ret_l. cbv iota.
    destruct (Py.count ":" (stripped u) =? 0)%nat.
    + left. exists "", (stripped u), "". reflexivity.
    + right. left. erewrite bind_Ret by apply log_output_eq.
      eexists. reflexivity.
Qed.

(** A subscript returns or raises [KeyError] or [TypeError]. *)
Lemma subscript_outcome (v : value) (k : string) (w : world) :
  (exists x, subscript v k w = (Ret x, w))
  \/ (exists e, subscript v k w = (Raise e, w)
                /\ forall name, e <> UnboundLocalError name).
Proof.
  unfold subscript. destruct v as [| | | |m];
    try (right; eexists; split; [reflexivity | discriminate]).
  destruct (m !! k).
  - left. eexists. reflexivity.
  - right. eexists. split; [reflexivity | discriminate].
Qed.

Lemma fallback_outcome (b : bool) (d : dict) (k : string) (v : value)
  (w : world) :
  let c := if b then (let* srv := subscript (VDict d) "server" in
                      subscript srv k)
           else ret v in
  (exists x, c w = (Ret x, w))
  \/ (exists e, c w = (Raise e, w) /\ forall name, e <> UnboundLocalError name).
Proof.
  destruct b; simpl; [|left; eexists; reflexivity].
  destruct (subscript_outcome (VDict d) "server" w) as [[srv E] | (e & E & He)].
  - erewrite bind_Ret by exact E. apply subscript_outcome.
  - right. exists e. erewrite bind_Raise by exact E. auto.
Qed.

Lemma login_defaults_assigned (p h q : string) (w : world) (name : string) :
  fst (login_defaults (Some p, Some h, Some q) w)
  <> Raise (UnboundLocalError name).
Proof.
  unfold login_defaults, read_local.
  rewrite !bind_ret_l, bind_get_data.
  destruct (fallback_outcome
              (negb (Py.in_list (Py.lower p) ["http"; "https"])) (data w)
              "protocol" (VStr p) w) as [[x E] | (e & E & He)];
    [erewrite bind_Ret by exact E
    | erewrite bind_Raise by exact E; simpl; intros [= ->]; eapply He; eauto].
  rewrite bind_ret_l.
  destruct (fallback_outcome (String.eqb h "") (data w) "url" (VStr h) w)
    as [[y E'] | (e & E' & He)];
    [erewrite bind_Ret by exact E'
    | erewrite bind_Raise by exact E'; simpl; intros [= ->]; eapply He; eauto].
  destruct (fallback_outcome
              (String.eqb (Py.join (Py.findall_digits q)) "") (data w)
              "port" (VStr (Py.join (Py.findall_digits q))) w)
    as [[z E''] | (e & E'' & He)];
    [erewrite bind_Ret by exact E''
    | erewrite bind_Raise by exact E''; simpl; intros [= ->]; eapply He; eauto].
  discriminate.
Qed.

(** Every override falls under one of the four shapes. *)
Lemma stripped_shape (s : string) :
  colon_free s
  \/ (exists a b, colon_free a /\ colon_free b /\ s = a +:+ ":" +:+ b)
  \/ (exists p h q, colon_free p /\ colon_free h /\ colon_free q
                    /\ s = p +:+ ":" +:+ h +:+ ":" +:+ q)
  \/ (3 <= Py.count ":" s)%nat.
Proof.
  unfold colon_free.
  destruct (Nat.eq_dec (Py.count ":" s) 0%nat) as [H0|H0]; [now left|right].
  destruct (count_pos_split ":" s H0) as (a & b & -> & Ha & Hc).
  destruct (Nat.eq_dec (Py.count ":" b) 0%nat) as [H1|H1].
  { left. exists a, b. auto. }
  right. destruct (count_pos_split ":" b H1) as (h & q & -> & Hh & Hc').
  destruct (Nat.eq_dec (Py.count ":" q) 0%nat) as [H2|H2].
  { left. exists a, h, q. auto. }
  right. rewrite Hc, Hc'. lia.
Qed.

(** C3, as the code has it.  The override is read without its slashes and
    underscores.  With two colons it is protocol:host:port; with one colon
    before index 6 it is protocol:host; with one colon further right it is
    host:port; without colon it is the host; with three colons or more the
    command prints Invalid URL and exits with status 2.  Only the digits of
    the port segment are kept.  A protocol that is not http or https (in
    any letter case), an empty host and an empty port are replaced by the
    values of the configuration in memory. *)
Theorem login_resolve_spec (w : world) (srv : dict) (P0 H0 Q0 : value)
  (input_url : string) :
  data w !! "server" = Some (VDict srv) ->
  srv !! "protocol" = Some P0 -> srv !! "url" = Some H0 ->
  srv !! "port" = Some Q0 ->
  let s := stripped input_url in
  (forall p h q, colon_free p -> colon_free h -> colon_free q ->
     s = p +:+ ":" +:+ h +:+ ":" +:+ q ->
     login_resolve (Some input_url) w
     = (Ret (protocol_or p P0, text_or h H0, text_or (keep_digits q) Q0), w))
  /\ (forall a b, colon_free a -> colon_free b -> s = a +:+ ":" +:+ b ->
        login_resolve (Some input_url) w
        = (Ret (if (String.length a <? 6)%nat
                then (protocol_or a P0, text_or b H0, Q0)
                else (P0, text_or a H0, text_or (keep_digits b) Q0)), w))
  /\ (colon_free s ->
        login_resolve (Some input_url) w = (Ret (P0, text_or s H0, Q0), w))
  /\ ((3 <= Py.count ":" s)%nat ->
        login_resolve (Some input_url) w
        = (Exit 2, add_stdout ["Invalid URL"] w)).
Proof.
  intros Hs HP HH HQ s. unfold login_resolve. repeat split.
  - intros p h q Hp Hh Hq E.
    rewrite (bind_Ret _ _ _ _ _ (login_parse_three _ _ _ _ w Hp Hh Hq E)).
    eapply login_defaults_eq; eassumption.
  - intros a b Ha Hb E.
    rewrite (bind_Ret _ _ _ _ _ (login_parse_two _ _ _ w Ha Hb E)).
    destruct (String.length a <? 6)%nat;
      erewrite login_defaults_eq by eassumption; reflexivity.
  - intros Hc.
    rewrite (bind_Ret _ _ _ _ _ (login_parse_one _ w Hc)).
    erewrite login_defaults_eq by eassumption. reflexivity.
  - intros Hc.
    rewrite (bind_Exit _ _ _ _ _ (login_parse_many _ w Hc)).
    reflexivity.
Qed.

End Resolve.

(** The four overrides the specification lists, against the default
    configuration. *)
Lemma login_resolve_examples :
  login_resolve (Some "https:myserver:8200") (fresh default_data)
  = (Ret (VStr "https", VStr "myserver", VStr "8200"), fresh default_data)
  /\ login_resolve (Some "myserver:8200") (fresh default_data)
     = (Ret (VStr "http", VStr "myserver", VStr "8200"), fresh default_data)
  /\ login_resolve (Some "myserver") (fresh default_data)
     = (Ret (VStr "http", VStr "myserver", VStr "8200"), fresh default_data)
  /\ login_resolve (Some "a:b:c:d") (fresh default_data)
     = (Exit 2, add_stdout ["Invalid URL"] (fresh default_data)).
Proof.
  pose proof (fun u => login_resolve_spec (fresh default_data) default_server
                (VStr "http") (VStr "localhost") (VStr "8200") u
                eq_refl eq_refl eq_refl eq_refl) as H.
  split; [|split; [|split]].
  - exact (proj1 (H "https:myserver:8200") "https" "myserver" "8200"
             eq_refl eq_refl eq_refl eq_refl).
  - exact (proj1 (proj2 (H "myserver:8200")) "myserver" "8200"
             eq_refl eq_refl eq_refl).
  - exact (proj1 (proj2 (proj2 (H "myserver"))) eq_refl).
  - apply (proj2 (proj2 (proj2 (H "a:b:c:d")))). simpl. lia.
Defined.

(** C3 as stated does not hold for an override with an underscore: in
    my_nas:8200 the only colon stands at index 6, which is not before 6, yet
    the override is read as protocol:host, because the colon is looked up
    after the underscore is removed.  The host becomes 8200 and the port
    is the configured one. *)
Lemma login_resolve_underscore :
  Py.count ":" "my_nas:8200" = 1%nat
  /\ Py.index ":" "my_nas:8200" = Some 6%nat
  /\ login_resolve (Some "my_nas:8200") (fresh default_data)
     = (Ret (VStr "http", VStr "8200", VStr "8200"), fresh default_data).
Proof. repeat split. Qed.

(** ** [login] *)

Section Login.
Variable clock : nat -> Z.
Variable server : list request -> request -> response.
Variable getpass : string.
Variable yaml_dump : dict -> string.
Variable sha256 : list Byte.byte -> list Byte.byte.
Variable b64decode : string -> option (list Byte.byte).
Variable b64encode : list Byte.byte -> string.
Variable unquote_escaped : string -> string.
Variable quote_plus : string -> string.
Variable directory : string.

#[local] Abbreviation login_ :=
  (login clock server getpass yaml_dump sha256 b64decode b64encode
         unquote_escaped quote_plus directory).
#[local] Abbreviation login_answer_ :=
  (login_answer clock server getpass yaml_dump sha256 b64decode b64encode
                unquote_escaped quote_plus directory).
#[local] Abbreviation login_challenge_ :=
  (login_challenge clock server getpass yaml_dump sha256 b64decode b64encode
                   unquote_escaped quote_plus directory).
#[local] Abbreviation login_authenticate_ :=
  (login_authenticate clock server yaml_dump sha256 b64decode b64encode
                      unquote_escaped directory).
#[local] Abbreviation login_verdict_ :=
  (login_verdict clock yaml_dump unquote_escaped directory).
#[local] Abbreviation login_finish_ :=
  (login_finish clock yaml_dump directory).
#[local] Abbreviation check_response_ :=
  (check_response clock yaml_dump directory).
#[local] Abbreviation unquote_ := (unquote unquote_escaped).
#[local] Abbreviation noncedpwd_ := (noncedpwd sha256).

(** C10: without an override the locals [protocol], [url] and [port] are
    never assigned; the first statement that reads one of them, the
    normalisation of the port, raises [UnboundLocalError], a [NameError].
    Nothing was printed, sent, read from the clock or changed before: the
    world is as it was, for every password and every configuration, and the
    process ends with a status that is not 0.  With an override the three
    names are assigned before they are read: the resolution never raises
    that error. *)
Theorem login_without_url_raises (password : option string) (w : world) :
  login_ None password w = (Raise (UnboundLocalError "port"), w)
  /\ exit_status (fst (login_ None password w)) <> 0
  /\ forall input_url name,
       fst (login_resolve (Some input_url) w)
       <> Raise (UnboundLocalError name).
Proof.
  split; [reflexivity | split; [discriminate|]].
  intros input_url name. unfold login_resolve.
  destruct (login_parse_assigns input_url w)
    as [(p & h & q & E) | [(w' & E) | E]].
  - erewrite bind_Ret by exact E. apply login_defaults_assigned.
  - erewrite bind_Exit by exact E. discriminate.
  - erewrite bind_Raise by exact E. discriminate.
Qed.

Lemma setitem_eq (k : string) (v : value) (w : world) :
  setitem k v w = (Ret tt, set_data (<[k := v]> (data w)) w).
Proof. reflexivity. Qed.

Lemma set_server_eq (k : string) (v : value) (srv : dict) (w : world) :
  data w !! "server" = Some (VDict srv) ->
  set_server k v w
  = (Ret tt, set_data (<["server" := VDict (<[k := v]> srv)]> (data w)) w).
Proof.
  intros H. unfold set_server. rewrite bind_get_data.
  unfold bind, subscript. rewrite H. reflexivity.
Qed.

Lemma server_address_with_server (P H Q : string) (srv d : dict) :
  server_address (with_server (VStr P) (VStr H) (VStr Q) srv d) = Some (P, H, Q).
Proof.
  unfold server_address, with_server. now simplify_map_eq.
Qed.

Lemma create_baseurl_eq (path : string) (P H Q : string) (w : world) :
  server_address (data w) = Some (P, H, Q) ->
  create_baseurl quote_plus path false w = (Ret (base_url P H Q +:+ path), w).
Proof.
  unfold server_address. intros Ha.
  destruct (data w !! "server") as [[| | | |srv]|] eqn:Es; try discriminate.
  destruct (srv !! "protocol") as [[| |p| |]|] eqn:Ep; try discriminate.
  destruct (srv !! "url") as [[| |h| |]|] eqn:Eh; try discriminate.
  destruct (srv !! "port") as [[| |q| |]|] eqn:Eq; try discriminate.
  injection Ha as -> -> ->.
  unfold create_baseurl. rewrite bind_get_data.
  unfold bind, subscript, as_str, ret. rewrite Es, Ep, Eh, Eq.
  unfold base_url. f_equal. f_equal.
  now rewrite !append_assoc.
Qed.

Lemma login_probe_eq (P H Q : string) (srv : dict) (w : world) :
  data w !! "server" = Some (VDict srv) ->
  login_probe server quote_plus (VStr P, VStr H, VStr Q) w
  = (Ret (server (sent w) (probe_request P H Q)), probed P H Q srv w).
Proof.
  intros Hs. unfold login_probe.
  erewrite bind_Ret by (apply set_server_eq; exact Hs).
  erewrite bind_Ret by (apply set_server_eq; simpl; apply lookup_insert_eq).
  erewrite bind_Ret by (apply set_server_eq; simpl; apply lookup_insert_eq).
  erewrite bind_Ret.
  2:{ apply (create_baseurl_eq "" P H Q). simpl.
      rewrite !insert_insert_eq. apply server_address_with_server. }
  rewrite append_nil_r.
  erewrite bind_Ret by apply log_output_eq.
  unfold requests_get, http, probed, add_sent, add_stdout, set_data,
    probe_request, with_server. simpl.
  now rewrite !insert_insert_eq.
Qed.

(** *** The answer to the probe *)

Lemma login_answer_400 (r : response) (password : option string) (w : world) :
  status_code r = 400 ->
  login_answer_ r password w
  = (Exit 2, add_stdout (log_line (verbose w)
                           "Session expired. Please login again" true
                           (Some 400)) w).
Proof.
  intros H. unfold login_answer. rewrite H.
  erewrite bind_Exit by apply check_response_400_eq. reflexivity.
Qed.

Lemma login_answer_503 (r : response) (password : option string) (w : world) :
  status_code r = 503 ->
  login_answer_ r password w
  = (Exit 2, add_stdout (log_line (verbose w)
                           "Server is not responding. Is it running?" true
                           (Some 503)) w).
Proof.
  intros H. unfold login_answer. rewrite H.
  erewrite bind_Exit by apply check_response_503_eq. reflexivity.
Qed.

Lemma login_answer_other (r : response) (password : option string)
  (w : world) :
  status_code r <> 200 -> status_code r <> 302 ->
  status_code r <> 400 -> status_code r <> 503 ->
  login_answer_ r password w
  = (Ret tt, add_stdout (log_line (verbose w) "Error connecting to server"
                           true (Some (status_code r))) w).
Proof.
  intros H2 H3 H4 H5. unfold login_answer.
  erewrite bind_Ret by (apply check_response_other_eq; assumption).
  apply Z.eqb_neq in H2, H3. rewrite H2, H3. apply log_output_eq.
Qed.

Lemma login_answer_302 (r : response) (password : option string) (w : world) :
  status_code r = 302 ->
  login_answer_ r password w
  = login_challenge_ 302 password w.
Proof.
  intros H. unfold login_answer. rewrite H.
  erewrite bind_Ret by (apply check_response_other_eq; discriminate).
  reflexivity.
Qed.

(** *** The challenge *)

Lemma login_challenge_eq (P H Q : string) (password : option string)
  (w : world) :
  server_address (data w) = Some (P, H, Q) ->
  let endpoint := login_cgi P H Q in
  let r := server (sent w) (nonce_request endpoint) in
  login_challenge_ 302 password w
  = (if negb (status_code r =? 200)
     then log_output "Error getting salt from server" true
                     (Some (status_code r))
     else login_authenticate_ endpoint (password_used getpass password) r)
      (challenged endpoint password w).
Proof.
  intros Ha endpoint r. unfold login_challenge.
  assert (Hp : (match password with
                | Some p => ret p
                | None => log_output "Authentication required" true (Some 302)
                          ;;; ret getpass
                end) w
               = (Ret (password_used getpass password),
                  add_stdout (match password with
                              | None => log_line (verbose w)
                                          "Authentication required" true
                                          (Some 302)
                              | Some _ => []
                              end) w)).
  { destruct password as [p|]; simpl.
    - now rewrite add_stdout_nil.
    - erewrite bind_Ret by apply log_output_eq. reflexivity. }
  erewrite bind_Ret by exact Hp.
  erewrite bind_Ret by apply log_output_eq.
  erewrite bind_Ret by (apply (create_baseurl_eq "/login.cgi" P H Q); exact Ha).
  reflexivity.
Qed.

Lemma login_authenticate_eq (endpoint password : string) (r : response)
  (body : gmap string string) (salt nonce token : string)
  (salt_bytes nonce_bytes : list Byte.byte) (w : world) :
  json r = Some body ->
  body !! "Salt" = Some salt -> body !! "Nonce" = Some nonce ->
  cookies r !! "xsrf-token" = Some token ->
  b64decode salt = Some salt_bytes ->
  b64decode (unquote_ nonce) = Some nonce_bytes ->
  let token' := unquote_ token in
  let nonce' := unquote_ nonce in
  let digest := b64encode (noncedpwd_ password salt_bytes nonce_bytes) in
  login_authenticate_ endpoint password r w
  = login_verdict_
      (server (sent w) (submit_request endpoint token' nonce' digest)) token'
      (submitted endpoint token' nonce' digest w).
Proof.
  intros Hj Hs Hn Ht Hsb Hnb token' nonce' digest.
  unfold login_authenticate.
  unfold json_member at 1. rewrite Hj, Hs, bind_ret_l.
  unfold json_member at 1. rewrite Hj, Hn, bind_ret_l.
  erewrite bind_Ret by apply setitem_eq.
  unfold cookie at 1. rewrite Ht, bind_ret_l.
  erewrite bind_Ret by apply log_output_eq.
  unfold b64decode_or_raise at 1. rewrite Hsb, bind_ret_l.
  rewrite bind_get_data.
  unfold subscript at 1. simpl data. rewrite lookup_insert_eq, bind_ret_l.
  unfold as_str at 1. rewrite bind_ret_l.
  unfold b64decode_or_raise at 1. rewrite Hnb, bind_ret_l.
  erewrite bind_Ret by apply log_output_eq.
  rewrite bind_get_data. simpl data. rewrite lookup_insert_eq.
  unfold as_str at 1. rewrite bind_ret_l.
  reflexivity.
Qed.

Lemma login_verdict_400 (r : response) (token : string) (w : world) :
  status_code r = 400 ->
  login_verdict_ r token w
  = (Exit 2, add_stdout (log_line (verbose w)
                           "Session expired. Please login again" true
                           (Some 400)) w).
Proof.
  intros H. unfold login_verdict. rewrite H.
  erewrite bind_Exit by apply check_response_400_eq. reflexivity.
Qed.

Lemma login_verdict_503 (r : response) (token : string) (w : world) :
  status_code r = 503 ->
  login_verdict_ r token w
  = (Exit 2, add_stdout (log_line (verbose w)
                           "Server is not responding. Is it running?" true
                           (Some 503)) w).
Proof.
  intros H. unfold login_verdict. rewrite H.
  erewrite bind_Exit by apply check_response_503_eq. reflexivity.
Qed.

Lemma login_verdict_other (r : response) (token : string) (w : world) :
  status_code r <> 200 -> status_code r <> 400 -> status_code r <> 503 ->
  login_verdict_ r token w
  = (Exit 2, add_stdout (log_line (verbose w)
                           "Error authenticating against the server" true
                           (Some (status_code r))) w).
Proof.
  intros H2 H4 H5. unfold login_verdict.
  erewrite bind_Ret by (apply check_response_other_eq; assumption).
  apply Z.eqb_neq in H2. rewrite H2.
  erewrite bind_Ret by apply log_output_eq. reflexivity.
Qed.

(** *** A successful handshake *)

Lemma bind_datetime_now {B} (k : Z -> M B) (w : world) :
  bind (datetime_now clock) k w = k (clock (clock_reads w)) (tick w).
Proof. reflexivity. Qed.

Lemma log_output_sent text important code w :
  sent (snd (log_output text important code w)) = sent w.
Proof. now rewrite log_output_eq. Qed.

Lemma login_finish_sent (token : string) (w : world) :
  sent (snd (login_finish_ token w)) = sent w.
Proof.
  revert w. unfold login_finish.
  repeat (apply bind_sent;
          [first [reflexivity | intros w; apply write_config_sent]
          | intros ?]).
  intros w. apply log_output_sent.
Qed.

Lemma login_finish_run (token : string) (w : world) :
  directory <> "" ->
  let r := login_finish_ token w in
  fst r = Ret tt
  /\ sent (snd r) = sent w
  /\ config_disk (snd r) = Some (yaml_dump (data (snd r)))
  /\ data (snd r) !! "server" = data w !! "server"
  /\ data (snd r) !! "token" = Some (VStr token)
  /\ data (snd r) !! "token_expires"
     = Some (VTime (clock (clock_reads w) + timedelta 0 600)).
Proof.
  intros Hd. unfold login_finish.
  erewrite bind_Ret by apply setitem_eq.
  rewrite bind_datetime_now.
  erewrite bind_Ret by apply setitem_eq.
  rewrite bind_datetime_now.
  erewrite bind_Ret by apply setitem_eq.
  rewrite bind_get_data.
  erewrite bind_Ret by (apply write_config_eq; exact Hd).
  rewrite log_output_eq. simpl.
  repeat split.
  - now rewrite !lookup_insert_ne by done.
  - rewrite !lookup_insert_ne by done. apply lookup_insert_eq.
  - rewrite lookup_insert_ne by done. apply lookup_insert_eq.
Qed.

Lemma login_verdict_200 (r : response) (token : string) (w : world) :
  directory <> "" ->
  status_code r = 200 ->
  let d1 := <["token_expires" := VTime (clock (clock_reads w)
                                        + timedelta 0 600)]> (data w) in
  let w1 := add_stdout (log_line (verbose w) "Connected" true (Some 200))
              (written yaml_dump directory d1 (set_data d1 (tick w))) in
  login_verdict_ r token w
  = match cookies r !! "session-auth" with
    | Some auth =>
        login_finish_ token
          (set_data (<["session-auth" := VStr (unquote_ auth)]> d1) w1)
    | None => (Raise (KeyError "session-auth"), w1)
    end.
Proof.
  intros Hd H d1 w1. unfold login_verdict. rewrite H.
  erewrite bind_Ret by (apply check_response_200_eq; exact Hd).
  simpl (200 =? 200). cbv iota.
  erewrite bind_Ret by apply log_output_eq.
  unfold cookie. destruct (cookies r !! "session-auth") as [auth|].
  - rewrite bind_ret_l.
    erewrite bind_Ret by apply setitem_eq. reflexivity.
  - reflexivity.
Qed.

(** Nothing is requested after the digest was submitted. *)
Lemma login_verdict_sent (r : response) (token : string) (w : world) :
  sent (snd (login_verdict_ r token w)) = sent w.
Proof.
  revert w. unfold login_verdict.
  apply bind_sent; [intros w; apply check_response_sent | intros _].
  destruct (status_code r =? 200).
  - apply bind_sent; [intros w; apply log_output_sent | intros _].
    apply bind_sent.
    + intros w. unfold cookie. now destruct (cookies r !! "session-auth").
    + intros auth.
      apply bind_sent; [reflexivity | intros _].
      intros w. apply login_finish_sent.
  - apply bind_sent; [intros w; apply log_output_sent | reflexivity].
Qed.

(** A probe answered with 200 writes the configuration, address included,
    also when the token cookie turns out to be missing afterwards. *)
Lemma login_answer_200_disk (r : response) (password : option string)
  (w : world) :
  directory <> "" ->
  status_code r = 200 ->
  let w' := snd (login_answer_ r password w) in
  exists d', config_disk w' = Some (yaml_dump d')
             /\ d' !! "server" = data w !! "server".
Proof.
  intros Hdir H. unfold login_answer. rewrite H.
  erewrite bind_Ret by (apply check_response_200_eq; exact Hdir).
  simpl (200 =? 200). cbv iota.
  erewrite bind_Ret by apply log_output_eq.
  unfold cookie. destruct (cookies r !! "xsrf-token") as [token|].
  - rewrite bind_ret_l.
    destruct (login_finish_run (unquote_ token)
                (add_stdout (log_line (verbose w) "OK" false (Some 200))
                   (written yaml_dump directory
                      (<["token_expires" := VTime (clock (clock_reads w)
                                                   + timedelta 0 600)]> (data w))
                      (set_data
                         (<["token_expires" := VTime (clock (clock_reads w)
                                                      + timedelta 0 600)]>
                            (data w)) (tick w)))) Hdir)
      as (_ & _ & Hd & Hs & _).
    eexists. split; [exact Hd|]. rewrite Hs. simpl. now simplify_map_eq.
  - simpl. eexists. split; [reflexivity|]. now simplify_map_eq.
Qed.

(** *** From the override to the answer of the probe *)

Lemma login_eq (input_url : string) (password : option string)
  (P H Q : string) (srv : dict) (w : world) :
  data w !! "server" = Some (VDict srv) ->
  login_resolve (Some input_url) w = (Ret (VStr P, VStr H, VStr Q), w) ->
  login_ (Some input_url) password w
  = login_answer_ (server (sent w) (probe_request P H Q)) password
                  (probed P H Q srv w).
Proof.
  intros Hs Hr. unfold login.
  erewrite bind_Ret by exact Hr.
  erewrite bind_Ret by (apply login_probe_eq; exact Hs).
  reflexivity.
Qed.

Lemma server_address_probed (P H Q : string) (srv : dict) (w : world) :
  server_address (data (probed P H Q srv w)) = Some (P, H, Q).
Proof. apply server_address_with_server. Qed.

(** *** The probe is refused *)

(** C6, as the code has it.  When the probe is answered with a status other
    than 200 and 302, the probe is the only request [login] issues and the
    configuration file is not written; the configuration in memory holds
    the resolved address.  Status 400 is reported as an expired session and
    status 503 as a server that does not respond, both with exit status 2;
    any other status is reported as an error connecting to the server. *)
Theorem login_probe_refused (w : world) (srv : dict) (input_url : string)
  (password : option string) (P H Q : string) :
  data w !! "server" = Some (VDict srv) ->
  login_resolve (Some input_url) w = (Ret (VStr P, VStr H, VStr Q), w) ->
  let answer := server (sent w) (probe_request P H Q) in
  let w1 := probed P H Q srv w in
  let r := login_ (Some input_url) password w in
  status_code answer <> 200 -> status_code answer <> 302 ->
  sent (snd r) = sent w ++ [probe_request P H Q]
  /\ config_disk (snd r) = config_disk w
  /\ data (snd r) = with_server (VStr P) (VStr H) (VStr Q) srv (data w)
  /\ (status_code answer = 400 ->
      fst r = Exit 2
      /\ stdout (snd r)
         = stdout w1 ++ log_line (verbose w)
                          "Session expired. Please login again" true
                          (Some 400))
  /\ (status_code answer = 503 ->
      fst r = Exit 2
      /\ stdout (snd r)
         = stdout w1 ++ log_line (verbose w)
                          "Server is not responding. Is it running?" true
                          (Some 503))
  /\ (status_code answer <> 400 -> status_code answer <> 503 ->
      stdout (snd r)
      = stdout w1 ++ log_line (verbose w) "Error connecting to server" true
                       (Some (status_code answer))).
Proof.
  intros Hs Hr answer w1 r H2 H3. subst r.
  rewrite (login_eq input_url password P H Q srv w Hs Hr). fold answer w1.
  destruct (Z.eq_dec (status_code answer) 400) as [H4|H4].
  { rewrite login_answer_400 by exact H4. simpl.
    repeat split; try reflexivity; intros; congruence. }
  destruct (Z.eq_dec (status_code answer) 503) as [H5|H5].
  { rewrite login_answer_503 by exact H5. simpl.
    repeat split; try reflexivity; intros; congruence. }
  rewrite login_answer_other by assumption. simpl.
  repeat split; try reflexivity; intros; congruence.
Qed.

(** *** The handshake *)

Lemma login_challenged_eq (input_url : string) (password : option string)
  (P H Q : string) (srv : dict) (w : world) :
  data w !! "server" = Some (VDict srv) ->
  login_resolve (Some input_url) w = (Ret (VStr P, VStr H, VStr Q), w) ->
  status_code (server (sent w) (probe_request P H Q)) = 302 ->
  let endpoint := login_cgi P H Q in
  let answer := server (sent w ++ [probe_request P H Q])
                       (nonce_request endpoint) in
  login_ (Some input_url) password w
  = (if negb (status_code answer =? 200)
     then log_output "Error getting salt from server" true
                     (Some (status_code answer))
     else login_authenticate_ endpoint (password_used getpass password) answer)
      (challenged endpoint password (probed P H Q srv w)).
Proof.
  intros Hs Hr H3 endpoint answer.
  rewrite (login_eq input_url password P H Q srv w Hs Hr).
  rewrite login_answer_302 by exact H3.
  rewrite (login_challenge_eq P H Q) by apply server_address_probed.
  reflexivity.
Qed.

(** C7, as the code has it.  On the challenge path, a nonce request that is
    not answered with 200 is reported as an error getting the salt and ends
    the handshake: no digest is submitted.  A digest that is not answered
    with 200 ends the command with exit status 2; the report is an expired
    session for 400, a server that does not respond for 503, and an error
    authenticating against the server for any other status.  In both cases
    the configuration file is not written. *)
Theorem login_handshake_failure (w : world) (srv : dict) (input_url : string)
  (password : option string) (P H Q : string) :
  data w !! "server" = Some (VDict srv) ->
  login_resolve (Some input_url) w = (Ret (VStr P, VStr H, VStr Q), w) ->
  let probe := probe_request P H Q in
  let endpoint := login_cgi P H Q in
  let answer2 := server (sent w ++ [probe]) (nonce_request endpoint) in
  let r := login_ (Some input_url) password w in
  status_code (server (sent w) probe) = 302 ->
  (status_code answer2 <> 200 ->
   sent (snd r) = sent w ++ [probe; nonce_request endpoint]
   /\ config_disk (snd r) = config_disk w
   /\ exists before,
        stdout (snd r)
        = before ++ log_line (verbose w) "Error getting salt from server"
                             true (Some (status_code answer2)))
  /\ (forall body salt nonce token salt_bytes nonce_bytes,
        status_code answer2 = 200 ->
        json answer2 = Some body ->
        body !! "Salt" = Some salt -> body !! "Nonce" = Some nonce ->
        cookies answer2 !! "xsrf-token" = Some token ->
        b64decode salt = Some salt_bytes ->
        b64decode (unquote_ nonce) = Some nonce_bytes ->
        let digest :=
          b64encode (noncedpwd_ (password_used getpass password)
                                salt_bytes nonce_bytes) in
        let submit :=
          submit_request endpoint (unquote_ token) (unquote_ nonce) digest in
        let answer3 :=
          server (sent w ++ [probe; nonce_request endpoint]) submit in
        status_code answer3 <> 200 ->
        fst r = Exit 2
        /\ sent (snd r) = sent w ++ [probe; nonce_request endpoint; submit]
        /\ config_disk (snd r) = config_disk w
        /\ exists before,
             stdout (snd r)
             = before
               ++ log_line (verbose w)
                    (if status_code answer3 =? 400
                     then "Session expired. Please login again"
                     else if status_code answer3 =? 503
                          then "Server is not responding. Is it running?"
                          else "Error authenticating against the server")
                    true (Some (status_code answer3))).
Proof.
  intros Hs Hr probe endpoint answer2 r H3. subst r.
  rewrite (login_challenged_eq input_url password P H Q srv w Hs Hr H3).
  fold probe endpoint answer2. split.
  - intros Hn. apply Z.eqb_neq in Hn. rewrite Hn. unfold negb. cbv iota.
    rewrite log_output_eq. simpl.
    repeat split; [now rewrite <- app_assoc | eexists; reflexivity].
  - intros body salt nonce token salt_bytes nonce_bytes Hn Hj HS HN Ht Hsb Hnb
      digest submit answer3 Hne.
    rewrite Hn. simpl (200 =? 200). unfold negb. cbv iota.
    rewrite (login_authenticate_eq endpoint _ answer2 body salt nonce token
               salt_bytes nonce_bytes _ Hj HS HN Ht Hsb Hnb).
    fold digest. fold submit.
    assert (Hsent : sent (challenged endpoint password (probed P H Q srv w))
                    = sent w ++ [probe; nonce_request endpoint])
      by (simpl; now rewrite <- app_assoc).
    rewrite Hsent. fold answer3.
    destruct (Z.eq_dec (status_code answer3) 400) as [H4|H4].
    { rewrite login_verdict_400 by exact H4. rewrite H4. simpl.
      repeat split; [now rewrite <- !app_assoc | eexists; reflexivity]. }
    destruct (Z.eq_dec (status_code answer3) 503) as [H5|H5].
    { rewrite login_verdict_503 by exact H5. rewrite H5. simpl.
      repeat split; [now rewrite <- !app_assoc | eexists; reflexivity]. }
    rewrite login_verdict_other by assumption.
    apply Z.eqb_neq in H4, H5. rewrite H4, H5. simpl.
    repeat split; [now rewrite <- !app_assoc | eexists; reflexivity].
Qed.

Lemma login_submitted_eq (input_url : string) (password : option string)
  (P H Q : string) (srv : dict) (w : world)
  (body : gmap string string) (salt nonce token : string)
  (salt_bytes nonce_bytes : list Byte.byte) :
  data w !! "server" = Some (VDict srv) ->
  login_resolve (Some input_url) w = (Ret (VStr P, VStr H, VStr Q), w) ->
  let probe := probe_request P H Q in
  let endpoint := login_cgi P H Q in
  let answer2 := server (sent w ++ [probe]) (nonce_request endpoint) in
  status_code (server (sent w) probe) = 302 ->
  status_code answer2 = 200 ->
  json answer2 = Some body ->
  body !! "Salt" = Some salt -> body !! "Nonce" = Some nonce ->
  cookies answer2 !! "xsrf-token" = Some token ->
  b64decode salt = Some salt_bytes ->
  b64decode (unquote_ nonce) = Some nonce_bytes ->
  let digest :=
    b64encode (noncedpwd_ (password_used getpass password)
                          salt_bytes nonce_bytes) in
  let submit :=
    submit_request endpoint (unquote_ token) (unquote_ nonce) digest in
  login_ (Some input_url) password w
  = login_verdict_
      (server (sent w ++ [probe; nonce_request endpoint]) submit)
      (unquote_ token)
      (submitted endpoint (unquote_ token) (unquote_ nonce) digest
         (challenged endpoint password (probed P H Q srv w))).
Proof.
  intros Hs Hr probe endpoint answer2 H3 Hn Hj HS HN Ht Hsb Hnb digest submit.
  rewrite (login_challenged_eq input_url password P H Q srv w Hs Hr H3).
  fold probe endpoint answer2.
  rewrite Hn. simpl (200 =? 200). unfold negb. cbv iota.
  rewrite (login_authenticate_eq endpoint _ answer2 body salt nonce token
             salt_bytes nonce_bytes _ Hj HS HN Ht Hsb Hnb).
  fold digest. fold submit.
  assert (Hsent : sent (challenged endpoint password (probed P H Q srv w))
                  = sent w ++ [probe; nonce_request endpoint])
    by (simpl; now rewrite <- app_assoc).
  now rewrite Hsent.
Qed.

(** *** The digest *)

(** The reference SHA-256 on the test vector abc of FIPS 180-4, in base64. *)
Example reference_sha256_abc :
  Reference.b64encode (Reference.sha256 (Py.encode "abc"))
  = "ungWv48Bz+pBQUDeXa4iI7ADYaOWF3qctBD/YfIAFa0=".
Proof. vm_compute. reflexivity. Qed.

Example reference_b64decode_salt :
  Reference.b64decode "c2FsdA==" = Some (Py.encode "salt").
Proof. vm_compute. reflexivity. Qed.

Lemma index_percent_cons (c : ascii) (s : string) :
  String.index 0 "%" (String c s)
  = if ascii_dec "%" c then Some 0%nat
    else match String.index 0 "%" s with
         | Some n => Some (S n)
         | None => None
         end.
Proof.
  cbn [String.index String.prefix].
  destruct (ascii_dec "%" c); [destruct s|]; reflexivity.
Qed.

Lemma contains_percent_base64 (s : string) :
  is_base64 s = true -> Py.contains "%" s = false.
Proof.
  unfold Py.contains.
  induction s as [|c s IH]; [reflexivity|].
  cbn [is_base64]. intros Hb. apply andb_true_iff in Hb as [Hc Hs].
  rewrite index_percent_cons.
  destruct (ascii_dec "%" c) as [<-|Hne]; [discriminate Hc|].
  specialize (IH Hs).
  destruct (String.index 0 "%" s); [discriminate IH | reflexivity].
Qed.

(** A base64 text has nothing to unquote. *)
Lemma unquote_base64 (s : string) : is_base64 s = true -> unquote_ s = s.
Proof.
  intros Hb. unfold unquote. now rewrite contains_percent_base64.
Qed.

(** C2: on the challenge path the password field of the submitted request
    is base64( SHA256( nonce_bytes || SHA256( password_bytes || salt_bytes ) ) ),
    with nonce and salt decoded from the base64 texts the server sent and
    the password in UTF-8.  It is the value of [auth_digest] at the
    password, the salt and the nonce, and of nothing else: not the clock,
    not the configuration, not the requests issued before. *)
Theorem login_submits_digest (w : world) (srv : dict) (input_url : string)
  (password : option string) (P H Q : string)
  (body : gmap string string) (salt nonce token digest : string) :
  data w !! "server" = Some (VDict srv) ->
  login_resolve (Some input_url) w = (Ret (VStr P, VStr H, VStr Q), w) ->
  let probe := probe_request P H Q in
  let endpoint := login_cgi P H Q in
  let answer2 := server (sent w ++ [probe]) (nonce_request endpoint) in
  status_code (server (sent w) probe) = 302 ->
  status_code answer2 = 200 ->
  json answer2 = Some body ->
  body !! "Salt" = Some salt -> body !! "Nonce" = Some nonce ->
  cookies answer2 !! "xsrf-token" = Some token ->
  is_base64 nonce = true ->
  auth_digest sha256 b64decode b64encode (password_used getpass password)
              salt nonce = Some digest ->
  sent (snd (login_ (Some input_url) password w))
  = sent w ++ [probe; nonce_request endpoint;
               submit_request endpoint (unquote_ token) nonce digest]
  /\ req_data (submit_request endpoint (unquote_ token) nonce digest)
     = [("password", digest)].
Proof.
  intros Hs Hr probe endpoint answer2 H3 Hn Hj HS HN Ht Hb Hd.
  unfold auth_digest in Hd.
  destruct (b64decode nonce) as [nonce_bytes|] eqn:Hnb; [|discriminate].
  destruct (b64decode salt) as [salt_bytes|] eqn:Hsb; [|discriminate].
  injection Hd as <-.
  split; [|reflexivity].
  rewrite <- (unquote_base64 nonce Hb) in Hnb.
  rewrite (login_submitted_eq input_url password P H Q srv w body salt nonce
             token salt_bytes nonce_bytes Hs Hr H3 Hn Hj HS HN Ht Hsb Hnb).
  rewrite login_verdict_sent. simpl.
  rewrite (unquote_base64 nonce Hb).
  rewrite <- !app_assoc. reflexivity.
Qed.

(** *** Where the resolved address is stored *)

Lemma server_address_ext (d d' : dict) :
  d !! "server" = d' !! "server" -> server_address d = server_address d'.
Proof. unfold server_address. now intros ->. Qed.

(** C8, as the code has it.  The resolved protocol, host and port are put
    into the configuration in memory before the probe is sent, not into the
    configuration file.  They reach the file with the next write of the
    configuration: with a configuration file named with a directory part,
    at once when the probe is answered with 200.  When the probe is
    answered with a status other than 200 and 302, when the nonce request
    is refused and when the digest is refused, the configuration file is
    left as it was while the configuration in memory holds the resolved
    address. *)
Theorem login_address_in_memory (w : world) (srv : dict) (input_url : string)
  (password : option string) (P H Q : string) :
  data w !! "server" = Some (VDict srv) ->
  login_resolve (Some input_url) w = (Ret (VStr P, VStr H, VStr Q), w) ->
  let probe := probe_request P H Q in
  let endpoint := login_cgi P H Q in
  let answer := server (sent w) probe in
  let answer2 := server (sent w ++ [probe]) (nonce_request endpoint) in
  let r := login_ (Some input_url) password w in
  (directory <> "" -> status_code answer = 200 ->
   exists d', config_disk (snd r) = Some (yaml_dump d')
              /\ server_address d' = Some (P, H, Q))
  /\ (status_code answer <> 200 -> status_code answer <> 302 ->
      config_disk (snd r) = config_disk w
      /\ server_address (data (snd r)) = Some (P, H, Q))
  /\ (status_code answer = 302 -> status_code answer2 <> 200 ->
      config_disk (snd r) = config_disk w
      /\ server_address (data (snd r)) = Some (P, H, Q))
  /\ (forall body salt nonce token salt_bytes nonce_bytes,
        status_code answer = 302 -> status_code answer2 = 200 ->
        json answer2 = Some body ->
        body !! "Salt" = Some salt -> body !! "Nonce" = Some nonce ->
        cookies answer2 !! "xsrf-token" = Some token ->
        b64decode salt = Some salt_bytes ->
        b64decode (unquote_ nonce) = Some nonce_bytes ->
        let digest :=
          b64encode (noncedpwd_ (password_used getpass password)
                                salt_bytes nonce_bytes) in
        let submit :=
          submit_request endpoint (unquote_ token) (unquote_ nonce) digest in
        status_code (server (sent w ++ [probe; nonce_request endpoint]) submit)
        <> 200 ->
        config_disk (snd r) = config_disk w
        /\ server_address (data (snd r)) = Some (P, H, Q)).
Proof.
  intros Hs Hr probe endpoint answer answer2 r.
  split; [|split; [|split]].
  - intros Hdir H2. subst r.
    rewrite (login_eq input_url password P H Q srv w Hs Hr).
    destruct (login_answer_200_disk answer password (probed P H Q srv w)
                Hdir H2)
      as (d' & Hd & Hsrv).
    exists d'. split; [exact Hd|].
    rewrite (server_address_ext _ _ Hsrv). apply server_address_probed.
  - intros H2 H3. subst r.
    rewrite (login_eq input_url password P H Q srv w Hs Hr). fold answer.
    destruct (Z.eq_dec (status_code answer) 400) as [H4|H4].
    { rewrite login_answer_400 by exact H4.
      split; [reflexivity | apply server_address_with_server]. }
    destruct (Z.eq_dec (status_code answer) 503) as [H5|H5].
    { rewrite login_answer_503 by exact H5.
      split; [reflexivity | apply server_address_with_server]. }
    rewrite login_answer_other by assumption.
    split; [reflexivity | apply server_address_with_server].
  - intros H3 Hn. subst r.
    rewrite (login_challenged_eq input_url password P H Q srv w Hs Hr H3).
    fold probe endpoint answer2.
    apply Z.eqb_neq in Hn. rewrite Hn. unfold negb. cbv iota.
    rewrite log_output_eq.
    split; [reflexivity | apply server_address_with_server].
  - intros body salt nonce token salt_bytes nonce_bytes H3 Hn Hj HS HN Ht
      Hsb Hnb digest submit Hne. subst r.
    rewrite (login_submitted_eq input_url password P H Q srv w body salt nonce
               token salt_bytes nonce_bytes Hs Hr H3 Hn Hj HS HN Ht Hsb Hnb).
    fold probe endpoint digest submit.
    assert (Ha : server_address
                   (data (submitted endpoint (unquote_ token) (unquote_ nonce)
                            digest
                            (challenged endpoint password (probed P H Q srv w))))
                 = Some (P, H, Q)).
    { simpl. rewrite <- (server_address_with_server P H Q srv (data w)).
      apply server_address_ext. now rewrite lookup_insert_ne. }
    destruct (Z.eq_dec (status_code
                (server (sent w ++ [probe; nonce_request endpoint]) submit))
                400) as [H4|H4].
    { rewrite login_verdict_400 by exact H4. split; [reflexivity | exact Ha]. }
    destruct (Z.eq_dec (status_code
                (server (sent w ++ [probe; nonce_request endpoint]) submit))
                503) as [H5|H5].
    { rewrite login_verdict_503 by exact H5. split; [reflexivity | exact Ha]. }
    rewrite login_verdict_other by assumption.
    split; [reflexivity | exact Ha].
Qed.

End Login.

(** ** Persistence *)

Section Persistence.
Variable yaml_dump : dict -> string.
Variable yaml_safe_load : string -> value + string.
Variable directory : string.

Lemma validate_config_accepts (d : dict) (w : world) :
  has_required_keys d -> validate_config (VDict d) w = (Ret tt, w).
Proof.
  intros (srv & Hs & Hp & Hu & Hq & Ht & He).
  unfold validate_config.
  repeat (first [ erewrite bind_Ret by reflexivity | rewrite Hs ]).
  rewrite !bool_decide_eq_true_2 by (assumption || eauto).
  reflexivity.
Qed.

(** C9, where the code departs from it.  With a configuration file named
    without a directory part, as the module's own [config.yml] or a file
    given as [--config-file cfg.yml], [write_config] announces the creation
    of the empty path and raises [FileNotFoundError]: the file is not
    written, and a write followed by a load reads nothing back, whatever
    the record and whatever YAML does. *)
Theorem write_config_unnamed_directory (d defaults : dict) (w : world) :
  let r := write_config yaml_dump "" d w in
  let r2 := (write_config yaml_dump "" d ;;;
             load_config yaml_dump yaml_safe_load "" defaults false) w in
  fst r = Raise FileNotFoundError
  /\ config_disk (snd r) = config_disk w
  /\ stdout (snd r)
     = stdout w ++ ["Created directory " +:+ Py.DQUOTE +:+ Py.DQUOTE]
  /\ fst r2 = Raise FileNotFoundError
  /\ config_disk (snd r2) = config_disk w.
Proof.
  intros r r2. subst r r2.
  erewrite bind_Raise by apply write_config_unnamed.
  rewrite write_config_unnamed. simpl. repeat split.
Qed.

(** With a directory part in the name of the configuration file, a
    configuration that has the keys [validate_config] asks for, and that
    YAML reads back from its own dump, is what [load_config] returns after
    [write_config] wrote it.  The load changes nothing in the world. *)
Lemma load_config_after_write_config (d defaults : dict) (w : world) :
  directory <> "" ->
  has_required_keys d ->
  yaml_safe_load (yaml_dump d) = inl (VDict d) ->
  let w1 := snd (write_config yaml_dump directory d w) in
  fst (write_config yaml_dump directory d w) = Ret tt
  /\ config_disk w1 = Some (yaml_dump d)
  /\ load_config yaml_dump yaml_safe_load directory defaults false w1
     = (Ret (VDict d), w1).
Proof.
  intros Hdir Hk Hy w1. subst w1. rewrite write_config_eq by exact Hdir.
  simpl. repeat split.
  unfold load_config. unfold bind at 1. simpl.
  rewrite Hy.
  erewrite bind_Ret by (apply validate_config_accepts; exact Hk).
  reflexivity.
Qed.

End Persistence.


(** ** The theorems at the fixtures *)

(** The configuration file of the fixtures is named with its directory. *)
Lemma fixture_directory_named : fixture_directory <> "".
Proof. discriminate. Qed.

(** The digest the fixture handshake submits for the password [secret],
    the salt [salt] and the nonce [nonce], as Python computes it. *)
Lemma login_submits_digest_fixture :
  sent (snd (fixture_login 302 200 200 "https:myserver:8200" None
               (configured default_data)))
  = [probe_request "https" "myserver" "8200";
     nonce_request "https://myserver:8200/login.cgi";
     submit_request "https://myserver:8200/login.cgi" "tok" "bm9uY2U="
                    "VjEdbpjFxWJIDjzsfGZRhQ5MRqDZ1x9hwStzzsfDkkw="].
Proof.
  exact (proj1 (login_submits_digest fixture_clock
           (fixture_server 302 200 200) "secret" fixture_dump
           Reference.sha256 Reference.b64decode Reference.b64encode
           (fun s => s) (fun s => s) fixture_directory
           (configured default_data) default_server "https:myserver:8200"
           None "https" "myserver" "8200"
           (<["Salt" := "c2FsdA=="]> {["Nonce" := "bm9uY2U="]})
           "c2FsdA==" "bm9uY2U=" "tok"
           "VjEdbpjFxWJIDjzsfGZRhQ5MRqDZ1x9hwStzzsfDkkw="
           eq_refl eq_refl eq_refl eq_refl eq_refl eq_refl eq_refl eq_refl
           eq_refl eq_refl)).
Defined.

(** A probe answered with 404: one request, the file untouched, one line. *)
Lemma login_probe_refused_fixture :
  let r := fixture_login 404 200 200 "https:myserver:8200" None
             (configured default_data) in
  sent (snd r) = [probe_request "https" "myserver" "8200"]
  /\ config_disk (snd r) = Some "http://localhost:8200"
  /\ stdout (snd r) = ["Error connecting to server"].
Proof.
  destruct (login_probe_refused fixture_clock (fixture_server 404 200 200)
              "secret" fixture_dump Reference.sha256 Reference.b64decode
              Reference.b64encode (fun s => s) (fun s => s) fixture_directory
              (configured default_data) default_server "https:myserver:8200"
              None "https" "myserver" "8200" eq_refl eq_refl
              ltac:(discriminate) ltac:(discriminate))
    as (Hsent & Hdisk & _ & _ & _ & Hout).
  split; [exact Hsent | split; [exact Hdisk |]].
  exact (Hout ltac:(discriminate) ltac:(discriminate)).
Defined.

(** C6 as stated does not hold.  A probe answered with 400 is reported as an
    expired session, not as a connection error, and the configuration in
    memory has taken the resolved address; a probe answered with 404 is
    reported and [login] returns to its caller instead of exiting. *)
Lemma login_probe_refused_otherwise :
  let r400 := fixture_login 400 200 200 "https:myserver:8200" None
                (configured default_data) in
  let r404 := fixture_login 404 200 200 "https:myserver:8200" None
                (configured default_data) in
  stdout (snd r400) = ["Session expired. Please login again"]
  /\ server_address default_data = Some ("http", "localhost", "8200")
  /\ server_address (data (snd r400)) = Some ("https", "myserver", "8200")
  /\ fst r404 = Ret tt
  /\ exit_status (fst r404) = 0.
Proof. vm_compute. repeat split. Qed.

(** A refused nonce request and a refused digest at the fixture server. *)
Lemma login_handshake_failure_fixture :
  let r500 := fixture_login 302 500 200 "https:myserver:8200" None
                (configured default_data) in
  let r401 := fixture_login 302 200 401 "https:myserver:8200" None
                (configured default_data) in
  (sent (snd r500)
   = [probe_request "https" "myserver" "8200";
      nonce_request "https://myserver:8200/login.cgi"]
   /\ config_disk (snd r500) = Some "http://localhost:8200")
  /\ (fst r401 = Exit 2
      /\ config_disk (snd r401) = Some "http://localhost:8200").
Proof.
  destruct (login_handshake_failure fixture_clock (fixture_server 302 500 200)
              "secret" fixture_dump Reference.sha256 Reference.b64decode
              Reference.b64encode (fun s => s) (fun s => s) fixture_directory
              (configured default_data) default_server "https:myserver:8200"
              None "https" "myserver" "8200" eq_refl eq_refl eq_refl)
    as [Hnonce _].
  destruct (Hnonce ltac:(discriminate)) as (Hsent & Hdisk & _).
  destruct (login_handshake_failure fixture_clock (fixture_server 302 200 401)
              "secret" fixture_dump Reference.sha256 Reference.b64decode
              Reference.b64encode (fun s => s) (fun s => s) fixture_directory
              (configured default_data) default_server "https:myserver:8200"
              None "https" "myserver" "8200" eq_refl eq_refl eq_refl)
    as [_ Hdigest].
  destruct (Hdigest (<["Salt" := "c2FsdA=="]> {["Nonce" := "bm9uY2U="]})
              "c2FsdA==" "bm9uY2U=" "tok"
              [Byte.x73; Byte.x61; Byte.x6c; Byte.x74]
              [Byte.x6e; Byte.x6f; Byte.x6e; Byte.x63; Byte.x65]
              eq_refl eq_refl eq_refl eq_refl eq_refl eq_refl eq_refl
              ltac:(discriminate))
    as (Hexit & _ & Hdisk' & _).
  split; [split; [exact Hsent | exact Hdisk] | split; [exact Hexit | exact Hdisk']].
Defined.

(** C7 as stated does not hold.  A digest answered with 400 is reported as
    an expired session, not as an authentication error; a nonce request
    answered with 500 is reported and [login] returns to its caller instead
    of exiting. *)
Lemma login_handshake_failure_otherwise :
  let r400 := fixture_login 302 200 400 "https:myserver:8200" (Some "secret")
                (configured default_data) in
  let r500 := fixture_login 302 500 200 "https:myserver:8200" (Some "secret")
                (configured default_data) in
  stdout (snd r400) = ["Session expired. Please login again"]
  /\ stdout (snd r500) = ["Error getting salt from server"]
  /\ fst r500 = Ret tt
  /\ exit_status (fst r500) = 0.
Proof. vm_compute. repeat split. Qed.

(** The address at the fixture server: in the file at once when the probe
    is answered with 200, in memory only when the digest is refused. *)
Lemma login_address_in_memory_fixture :
  let r200 := fixture_login 200 200 200 "https:myserver:8200" None
                (configured default_data) in
  let r401 := fixture_login 302 200 401 "https:myserver:8200" None
                (configured default_data) in
  (exists d', config_disk (snd r200) = Some (fixture_dump d')
              /\ server_address d' = Some ("https", "myserver", "8200"))
  /\ config_disk (snd r401) = Some "http://localhost:8200"
  /\ server_address (data (snd r401)) = Some ("https", "myserver", "8200").
Proof.
  destruct (login_address_in_memory fixture_clock (fixture_server 200 200 200)
              "secret" fixture_dump Reference.sha256 Reference.b64decode
              Reference.b64encode (fun s => s) (fun s => s) fixture_directory
              (configured default_data) default_server "https:myserver:8200"
              None "https" "myserver" "8200" eq_refl eq_refl)
    as [H200 _].
  destruct (login_address_in_memory fixture_clock (fixture_server 302 200 401)
              "secret" fixture_dump Reference.sha256 Reference.b64decode
              Reference.b64encode (fun s => s) (fun s => s) fixture_directory
              (configured default_data) default_server "https:myserver:8200"
              None "https" "myserver" "8200" eq_refl eq_refl)
    as (_ & _ & _ & H401).
  split; [exact (H200 fixture_directory_named eq_refl)|].
  exact (H401 (<["Salt" := "c2FsdA=="]> {["Nonce" := "bm9uY2U="]})
           "c2FsdA==" "bm9uY2U=" "tok"
           [Byte.x73; Byte.x61; Byte.x6c; Byte.x74]
           [Byte.x6e; Byte.x6f; Byte.x6e; Byte.x63; Byte.x65]
           eq_refl eq_refl eq_refl eq_refl eq_refl eq_refl eq_refl eq_refl
           ltac:(discriminate)).
Defined.

(** C8 as stated does not hold.  After a probe answered with 404 the
    configuration file still holds the former address, and the resolved one
    is in memory only. *)
Lemma login_address_not_written :
  let w := configured default_data in
  let r := fixture_login 404 200 200 "https:myserver:8200" None w in
  config_disk w = Some "http://localhost:8200"
  /\ config_disk (snd r) = Some "http://localhost:8200"
  /\ server_address (data (snd r)) = Some ("https", "myserver", "8200").
Proof. vm_compute. repeat split. Qed.


(** * More of the client *)

(** ** Helpers on texts *)

Section Texts.
#[local] Arguments String.append !s1 s2 / : simpl nomatch.

(** X1: [format_duration] returns what stands before the first dot: the
    result has no dot; a duration without dot comes back as it is; otherwise
    the input is the result, a dot and a rest. *)
Theorem format_duration_spec (duration_string : string) :
  Py.count "." (format_duration duration_string) = 0%nat
  /\ (Py.count "." duration_string = 0%nat ->
      format_duration duration_string = duration_string)
  /\ (Py.count "." duration_string <> 0%nat ->
      exists rest,
        duration_string
        = format_duration duration_string +:+ String "." rest).
Proof.
  unfold format_duration.
  destruct (Nat.eq_dec (Py.count "." duration_string) 0%nat) as [H0|H0].
  - rewrite split_free by exact H0. repeat split; congruence.
  - destruct (count_pos_split "." duration_string H0) as (a & b & -> & Ha & _).
    rewrite split_append by exact Ha.
    repeat split; try congruence. intros _. exists b. reflexivity.
Qed.

(** X2: a log message of at most 15 lines, or any message when everything
    is asked for, is shown line by line in full.  A longer one is shown as
    16 lines: its first 15 lines and a line that tells how many lines are
    hidden. *)
Theorem shorten_lines_spec (text : string) (show_all : bool) :
  let lines := Py.split "010" text in
  let shown := shorten_lines text show_all in
  ((length lines <= 15)%nat \/ show_all = true -> shown = lines)
  /\ ((15 < length lines)%nat -> show_all = false ->
      length shown = 16%nat
      /\ firstn 15 shown = firstn 15 lines
      /\ nth 15 shown ""
         = Py.str_of_int (Z.of_nat (length lines) - 15)
           +:+ " hidden lines (show with --all)").
Proof.
  intros lines shown. subst shown. unfold shorten_lines. fold lines. split.
  - intros [Hle | ->].
    + apply Nat.ltb_ge in Hle. now rewrite Hle.
    + now rewrite andb_false_r.
  - intros Hlt ->. pose proof Hlt as Hlt'.
    apply Nat.ltb_lt in Hlt'. rewrite Hlt'. cbn [negb andb].
    assert (Hlen : length (firstn 15 lines) = 15%nat)
      by (apply firstn_length_le; lia).
    repeat split.
    + rewrite length_app, Hlen. reflexivity.
    + rewrite firstn_app, Hlen. cbn [Nat.sub firstn].
      rewrite app_nil_r. apply firstn_firstn.
    + rewrite app_nth2 by (rewrite Hlen; lia). now rewrite Hlen.
Qed.

End Texts.

(** ** [check_response], every status *)

Section CheckResponseFrame.
Variable clock : nat -> Z.
Variable yaml_dump : dict -> string.
Variable directory : string.

(** X3: [check_response] ends the command with exit status 2 exactly for
    the statuses 400 and 503.  It raises exactly when the status is 200 and
    the configuration file is named without a directory part: then it is
    [FileNotFoundError], and the configuration file is as before.  It
    returns in every other case.  It never sends a request and never changes
    the verbosity; of the configuration in memory it changes at most
    [token_expires]; unless the status is 200 it leaves the configuration
    in memory and the configuration file as they are. *)
Theorem check_response_frame (status : Z) (w : world) :
  let r := check_response clock yaml_dump directory status w in
  (fst r = Exit 2 <-> status = 400 \/ status = 503)
  /\ (fst r = Raise FileNotFoundError <-> status = 200 /\ directory = "")
  /\ (fst r = Ret tt
      <-> status <> 400 /\ status <> 503
          /\ (status = 200 -> directory <> ""))
  /\ sent (snd r) = sent w
  /\ verbose (snd r) = verbose w
  /\ (forall k, k <> "token_expires" -> data (snd r) !! k = data w !! k)
  /\ (status <> 200 \/ directory = "" -> config_disk (snd r) = config_disk w)
  /\ (status <> 200 -> data (snd r) = data w).
Proof.
  intros r. subst r.
  destruct (Z.eq_dec status 400) as [->|H4].
  { rewrite check_response_400_eq. simpl.
    split; [split; [auto | reflexivity]|].
    split; [split; [discriminate | intros [? _]; lia]|].
    split; [split; [discriminate | intros [? _]; lia]|].
    repeat split; auto. }
  destruct (Z.eq_dec status 503) as [->|H5].
  { rewrite check_response_503_eq. simpl.
    split; [split; [auto | reflexivity]|].
    split; [split; [discriminate | intros [? _]; lia]|].
    split; [split; [discriminate | intros (_ & ? & _); lia]|].
    repeat split; auto. }
  destruct (Z.eq_dec status 200) as [->|H2].
  { destruct (String.eqb_spec directory "") as [->|Hd].
    - rewrite check_response_200_unnamed. simpl.
      split; [split; [discriminate | intros [?|?]; lia]|].
      split; [split; auto|].
      split; [split; [discriminate | intros (_ & _ & Hn); now elim Hn]|].
      split; [reflexivity|]. split; [reflexivity|].
      split; [intros k Hk; now rewrite lookup_insert_ne|].
      split; [reflexivity | intros ?; lia].
    - rewrite check_response_200_eq by exact Hd. simpl.
      split; [split; [discriminate | intros [?|?]; lia]|].
      split; [split; [discriminate | intros [_ ?]; contradiction]|].
      split; [split; [intros _; repeat split; (lia || auto) | reflexivity]|].
      split; [reflexivity|]. split; [reflexivity|].
      split; [intros k Hk; now rewrite lookup_insert_ne|].
      split; [intros [?|?]; [lia | contradiction] | intros ?; lia]. }
  rewrite check_response_other_eq by assumption. simpl.
  split; [split; [discriminate | intros [?|?]; lia]|].
  split; [split; [discriminate | intros [? _]; lia]|].
  split; [split; [intros _; repeat split; (lia || auto); intros ?; lia
                 | reflexivity]|].
  repeat split; auto.
Qed.

End CheckResponseFrame.

(** ** [logout] *)

Section Logout.
Variable clock : nat -> Z.
Variable tzlocal : Z -> Z.
Variable yaml_dump : dict -> string.
Variable directory : string.

Lemma logout_eq (w : world) :
  directory <> "" ->
  let d := <["token" := VNone]> (data w) in
  logout yaml_dump directory w
  = (Ret tt,
     written yaml_dump directory d
       (set_data d
          (add_stdout (log_line (verbose w) "Logging out..." true None) w))).
Proof.
  intros Hd. unfold logout.
  erewrite bind_Ret by apply log_output_eq.
  erewrite bind_Ret by apply setitem_eq.
  rewrite bind_get_data, write_config_eq by exact Hd. reflexivity.
Qed.

Lemma logout_unnamed (w : world) :
  let d := <["token" := VNone]> (data w) in
  logout yaml_dump "" w
  = (Raise FileNotFoundError,
     add_stdout ["Created directory " +:+ Py.DQUOTE +:+ Py.DQUOTE]
       (set_data d
          (add_stdout (log_line (verbose w) "Logging out..." true None) w))).
Proof.
  unfold logout.
  erewrite bind_Ret by apply log_output_eq.
  erewrite bind_Ret by apply setitem_eq.
  rewrite bind_get_data, write_config_unnamed. reflexivity.
Qed.

(** X4: [logout] clears the token, and nothing else, in memory, without a
    request to the server; afterwards [verify_token] refuses the session
    whatever its expiry, and a second [logout] changes nothing in memory.
    With a configuration file named with a directory part, [logout] returns
    and the file holds the cleared configuration, after the second [logout]
    as after the first.  With one named without, [logout] raises
    [FileNotFoundError] and the file is as before: it still holds the
    token. *)
Theorem logout_spec (w : world) :
  let r := logout yaml_dump directory w in
  let r2 := logout yaml_dump directory (snd r) in
  data (snd r) = <["token" := VNone]> (data w)
  /\ sent (snd r) = sent w
  /\ verify_token clock tzlocal (snd r)
     = (Exit 2, add_stdout ["Not logged in"] (snd r))
  /\ data (snd r2) = data (snd r)
  /\ (directory <> "" ->
      fst r = Ret tt
      /\ config_disk (snd r) = Some (yaml_dump (data (snd r)))
      /\ config_disk (snd r2) = config_disk (snd r))
  /\ (directory = "" ->
      fst r = Raise FileNotFoundError
      /\ config_disk (snd r) = config_disk w).
Proof.
  intros r r2. subst r2 r.
  assert (forall w0 : world,
             dict_get (<["token" := VNone]> (data w0)) "token" = VNone) as Ht.
  { intros w0. unfold dict_get. now rewrite lookup_insert_eq. }
  destruct (String.eqb_spec directory "") as [->|Hd].
  - rewrite !logout_unnamed. simpl. rewrite insert_insert_eq.
    split; [reflexivity|]. split; [reflexivity|].
    split; [apply verify_token_absent; simpl; now rewrite Ht|].
    split; [reflexivity|].
    split; [intros Hn; now elim Hn | intros _; split; reflexivity].
  - rewrite !logout_eq by exact Hd. simpl. rewrite insert_insert_eq.
    split; [reflexivity|]. split; [reflexivity|].
    split; [apply verify_token_absent; simpl; now rewrite Ht|].
    split; [reflexivity|].
    split; [intros _; repeat split | intros ?; contradiction].
Qed.

End Logout.

(** ** A successful [login] *)

Section LoginSuccess.
Variable clock : nat -> Z.
Variable tzlocal : Z -> Z.
Variable server : list request -> request -> response.
Variable getpass : string.
Variable yaml_dump : dict -> string.
Variable sha256 : list Byte.byte -> list Byte.byte.
Variable b64decode : string -> option (list Byte.byte).
Variable b64encode : list Byte.byte -> string.
Variable unquote_escaped : string -> string.
Variable quote_plus : string -> string.
Variable directory : string.

#[local] Abbreviation login_ :=
  (login clock server getpass yaml_dump sha256 b64decode b64encode
         unquote_escaped quote_plus directory).
#[local] Abbreviation login_answer_ :=
  (login_answer clock server getpass yaml_dump sha256 b64decode b64encode
                unquote_escaped quote_plus directory).
#[local] Abbreviation login_verdict_ :=
  (login_verdict clock yaml_dump unquote_escaped directory).
#[local] Abbreviation login_finish_ :=
  (login_finish clock yaml_dump directory).
#[local] Abbreviation unquote_ := (unquote unquote_escaped).
#[local] Abbreviation noncedpwd_ := (noncedpwd sha256).

Lemma login_finish_eq (token : string) (w : world) :
  directory <> "" ->
  let d := logged_in token (clock (clock_reads w) + timedelta 0 600)
             (clock (S (clock_reads w))) (data w) in
  login_finish_ token w
  = (Ret tt,
     add_stdout (log_line (verbose w) "Login successful" true None)
       (written yaml_dump directory d (set_data d (tick (tick w))))).
Proof.
  intros Hdir.
  unfold login_finish.
  erewrite bind_Ret by apply setitem_eq.
  rewrite bind_datetime_now.
  erewrite bind_Ret by apply setitem_eq.
  rewrite bind_datetime_now.
  erewrite bind_Ret by apply setitem_eq.
  rewrite bind_get_data.
  erewrite bind_Ret by (apply write_config_eq; exact Hdir).
  rewrite log_output_eq. reflexivity.
Qed.

Lemma logged_in_over_expiry (t : string) (e l e0 : Z) (d : dict) :
  logged_in t e l (<["token_expires" := VTime e0]> d) = logged_in t e l d.
Proof.
  unfold logged_in.
  rewrite (insert_insert_ne _ "token" "token_expires") by done.
  now rewrite insert_insert_eq.
Qed.

Lemma dict_get_logged_in_token (t : string) (e l : Z) (d : dict) :
  dict_get (logged_in t e l d) "token" = VStr t.
Proof.
  unfold dict_get, logged_in. rewrite !lookup_insert_ne by done.
  now rewrite lookup_insert_eq.
Qed.

Lemma dict_get_logged_in_expires (t : string) (e l : Z) (d : dict) :
  dict_get (logged_in t e l d) "token_expires" = VTime e.
Proof.
  unfold dict_get, logged_in. rewrite lookup_insert_ne by done.
  now rewrite lookup_insert_eq.
Qed.

Lemma lookup_logged_in_other (t : string) (e l : Z) (d : dict) (k : string) :
  k <> "token" -> k <> "token_expires" -> k <> "last_login" ->
  logged_in t e l d !! k = d !! k.
Proof.
  intros. unfold logged_in. now rewrite !lookup_insert_ne by done.
Qed.

Lemma create_headers_logged_in (t : string) (e l : Z) (d : dict) :
  create_headers (logged_in t e l d) = [("X-XSRF-TOKEN", VStr t)].
Proof.
  unfold create_headers, dict_get_or, logged_in.
  rewrite !lookup_insert_ne by done. now rewrite lookup_insert_eq.
Qed.

Lemma create_cookies_logged_in_plain (t : string) (e l : Z) (d : dict) :
  dict_get d "nonce" = VNone ->
  create_cookies (logged_in t e l d) = [("xsrf-token", VStr t)].
Proof.
  intros Hn. unfold create_cookies, dict_get_or.
  replace (dict_get (logged_in t e l d) "nonce") with VNone.
  - simpl. unfold logged_in.
    rewrite !lookup_insert_ne by done. now rewrite lookup_insert_eq.
  - rewrite <- Hn. unfold dict_get.
    now rewrite lookup_logged_in_other by done.
Qed.

Lemma create_cookies_logged_in_session (t nonce auth : string) (e l : Z)
  (d : dict) :
  create_cookies
    (logged_in t e l (<["session-auth" := VStr auth]>
                        (<["nonce" := VStr nonce]> d)))
  = [("xsrf-token", VStr t); ("session-nonce", VStr nonce);
     ("session-auth", VStr auth)].
Proof.
  unfold create_cookies, dict_get_or, dict_get.
  rewrite !(lookup_logged_in_other _ _ _ _ "nonce") by done.
  rewrite (lookup_logged_in_other _ _ _ _ "session-auth") by done.
  rewrite (lookup_insert_ne _ "session-auth" "nonce") by done.
  rewrite !lookup_insert_eq. simpl.
  unfold logged_in. rewrite !lookup_insert_ne by done.
  now rewrite lookup_insert_eq.
Qed.

(** After a login, [verify_token] accepts the session until the clock passes
    the expiry. *)
Lemma verify_token_logged_in (t : string) (e l : Z) (w : world) (d : dict) :
  data w = logged_in t e l d ->
  fst (verify_token clock tzlocal w) = Ret tt <-> clock (clock_reads w) <= e.
Proof.
  intros Hd.
  rewrite (verify_token_timed clock tzlocal w e).
  - destruct (e <? clock (clock_reads w)) eqn:C; simpl.
    + apply Z.ltb_lt in C. split; [discriminate | lia].
    + apply Z.ltb_ge in C. split; [auto | reflexivity].
  - rewrite Hd, dict_get_logged_in_token. discriminate.
  - rewrite Hd. apply dict_get_logged_in_expires.
Qed.

Lemma login_direct_world (w : world) (srv : dict) (input_url : string)
  (password : option string) (P H Q token : string) :
  directory <> "" ->
  data w !! "server" = Some (VDict srv) ->
  login_resolve (Some input_url) w = (Ret (VStr P, VStr H, VStr Q), w) ->
  status_code (server (sent w) (probe_request P H Q)) = 200 ->
  cookies (server (sent w) (probe_request P H Q)) !! "xsrf-token"
  = Some token ->
  let n := clock_reads w in
  let w1 := probed P H Q srv w in
  let d1 := <["token_expires" := VTime (clock n + timedelta 0 600)]>
              (data w1) in
  let w2 := add_stdout (log_line (verbose w) "OK" false (Some 200))
              (written yaml_dump directory d1 (set_data d1 (tick w1))) in
  let d := logged_in (unquote_ token) (clock (S n) + 600 * 1000000)
             (clock (S (S n))) (data w2) in
  login_ (Some input_url) password w
  = (Ret tt,
     add_stdout (log_line (verbose w) "Login successful" true None)
       (written yaml_dump directory d (set_data d (tick (tick w2))))).
Proof.
  intros Hdir Hs Hr H2 Hc n w1 d1 w2 d.
  rewrite (login_eq clock server getpass yaml_dump sha256 b64decode b64encode
             unquote_escaped quote_plus directory input_url password
             P H Q srv w Hs Hr).
  unfold login_answer. rewrite H2.
  erewrite bind_Ret by (apply check_response_200_eq; exact Hdir).
  simpl (200 =? 200). cbv iota.
  erewrite bind_Ret by apply log_output_eq.
  unfold cookie. rewrite Hc, bind_ret_l.
  rewrite login_finish_eq by exact Hdir. reflexivity.
Qed.

(** X5: the direct path.  When the probe is answered with 200 and carries
    the token cookie, [login] returns after this one request.  The
    configuration holds the resolved address, the unquoted token, an expiry
    600 seconds after the second reading of the clock and the time of the
    login; every other entry (a nonce or a session cookie of an earlier
    session included) is as before, and the configuration file holds this
    configuration.  [verify_token] then accepts the session as long as the
    clock has not passed the expiry. *)
Theorem login_direct_success (w : world) (srv : dict) (input_url : string)
  (password : option string) (P H Q token : string) :
  directory <> "" ->
  data w !! "server" = Some (VDict srv) ->
  login_resolve (Some input_url) w = (Ret (VStr P, VStr H, VStr Q), w) ->
  let probe := probe_request P H Q in
  let answer := server (sent w) probe in
  status_code answer = 200 ->
  cookies answer !! "xsrf-token" = Some token ->
  let n := clock_reads w in
  let expires := clock (S n) + 600 * 1000000 in
  let r := login_ (Some input_url) password w in
  fst r = Ret tt
  /\ sent (snd r) = sent w ++ [probe]
  /\ data (snd r)
     = logged_in (unquote_ token) expires (clock (S (S n)))
         (with_server (VStr P) (VStr H) (VStr Q) srv (data w))
  /\ config_disk (snd r) = Some (yaml_dump (data (snd r)))
  /\ (forall k, k <> "server" -> k <> "token" -> k <> "token_expires" ->
                k <> "last_login" -> data (snd r) !! k = data w !! k)
  /\ (fst (verify_token clock tzlocal (snd r)) = Ret tt
      <-> clock (S (S (S n))) <= expires)
  /\ create_headers (data (snd r)) = [("X-XSRF-TOKEN", VStr (unquote_ token))]
  /\ (dict_get (data w) "nonce" = VNone ->
      create_cookies (data (snd r)) = [("xsrf-token", VStr (unquote_ token))]).
Proof.
  intros Hdir Hs Hr probe answer H2 Hc n expires r. subst r.
  rewrite (login_direct_world w srv input_url password P H Q token Hdir Hs Hr
             H2 Hc).
  cbv zeta.
  split; [reflexivity|]. split; [reflexivity|].
  split; [simpl; apply logged_in_over_expiry|].
  split; [reflexivity|]. split.
  - intros k K1 K2 K3 K4. simpl. rewrite logged_in_over_expiry.
    rewrite lookup_logged_in_other by assumption.
    unfold with_server. now rewrite lookup_insert_ne.
  - split; [|split].
    + eapply (verify_token_logged_in (unquote_ token) expires).
      simpl. apply logged_in_over_expiry.
    + simpl. rewrite logged_in_over_expiry. apply create_headers_logged_in.
    + intros Hn. simpl. rewrite logged_in_over_expiry.
      apply create_cookies_logged_in_plain.
      unfold dict_get, with_server. rewrite lookup_insert_ne by done.
      exact Hn.
Qed.

Lemma handshake_material_inv (r : response) (salt_bytes nonce_bytes :
  list Byte.byte) (nonce' token' : string) :
  handshake_material b64decode unquote_escaped r
  = Some (salt_bytes, nonce_bytes, nonce', token') ->
  exists body salt nonce token,
    json r = Some body /\ body !! "Salt" = Some salt
    /\ body !! "Nonce" = Some nonce
    /\ cookies r !! "xsrf-token" = Some token
    /\ b64decode salt = Some salt_bytes
    /\ b64decode (unquote_ nonce) = Some nonce_bytes
    /\ nonce' = unquote_ nonce /\ token' = unquote_ token.
Proof.
  unfold handshake_material. intros H0.
  destruct (json r) as [body|]; simpl in H0; [|discriminate].
  destruct (body !! "Salt") as [salt|] eqn:HS; simpl in H0; [|discriminate].
  destruct (body !! "Nonce") as [nonce|] eqn:HN; simpl in H0; [|discriminate].
  destruct (cookies r !! "xsrf-token") as [token|] eqn:Ht; simpl in H0;
    [|discriminate].
  destruct (b64decode salt) as [sb|] eqn:Hsb; simpl in H0; [|discriminate].
  destruct (b64decode (unquote_ nonce)) as [nb|] eqn:Hnb; simpl in H0;
    [|discriminate].
  injection H0 as <- <- <- <-.
  exists body, salt, nonce, token. repeat split; auto.
Qed.

(** X6: the challenge path.  When the probe is answered with 302, the nonce
    request with 200 and everything the handshake needs, and the digest with
    200 and a session cookie, [login] returns after these three requests.
    The configuration holds the resolved address, the nonce, the session
    cookie, the token, an expiry 600 seconds after the second reading of the
    clock and the time of the login, and the configuration file holds this
    configuration.  The cookies of the next command are the token, the nonce
    and the session cookie, and [verify_token] accepts the session as long
    as the clock has not passed the expiry. *)
Theorem login_challenge_success (w : world) (srv : dict) (input_url : string)
  (password : option string) (P H Q nonce token auth : string)
  (salt_bytes nonce_bytes : list Byte.byte) :
  directory <> "" ->
  data w !! "server" = Some (VDict srv) ->
  login_resolve (Some input_url) w = (Ret (VStr P, VStr H, VStr Q), w) ->
  let probe := probe_request P H Q in
  let endpoint := login_cgi P H Q in
  let answer2 := server (sent w ++ [probe]) (nonce_request endpoint) in
  status_code (server (sent w) probe) = 302 ->
  status_code answer2 = 200 ->
  handshake_material b64decode unquote_escaped answer2
  = Some (salt_bytes, nonce_bytes, nonce, token) ->
  let digest :=
    b64encode (noncedpwd_ (password_used getpass password)
                          salt_bytes nonce_bytes) in
  let submit := submit_request endpoint token nonce digest in
  let answer3 := server (sent w ++ [probe; nonce_request endpoint]) submit in
  status_code answer3 = 200 ->
  cookies answer3 !! "session-auth" = Some auth ->
  let n := clock_reads w in
  let expires := clock (S n) + 600 * 1000000 in
  let r := login_ (Some input_url) password w in
  fst r = Ret tt
  /\ sent (snd r) = sent w ++ [probe; nonce_request endpoint; submit]
  /\ data (snd r)
     = logged_in token expires (clock (S (S n)))
         (<["session-auth" := VStr (unquote_ auth)]>
            (<["nonce" := VStr nonce]>
               (with_server (VStr P) (VStr H) (VStr Q) srv (data w))))
  /\ config_disk (snd r) = Some (yaml_dump (data (snd r)))
  /\ (fst (verify_token clock tzlocal (snd r)) = Ret tt
      <-> clock (S (S (S n))) <= expires)
  /\ create_headers (data (snd r)) = [("X-XSRF-TOKEN", VStr token)]
  /\ create_cookies (data (snd r))
     = [("xsrf-token", VStr token); ("session-nonce", VStr nonce);
        ("session-auth", VStr (unquote_ auth))].
Proof.
  intros Hdir Hs Hr probe endpoint answer2 H3 Hn Hm digest submit answer3 H2 Ha
    n expires r.
  destruct (handshake_material_inv _ _ _ _ _ Hm)
    as (body & salt & nonce0 & token0 & Hj & HS & HN & Ht & Hsb & Hnb & -> & ->).
  assert (Hdata : forall (e0 : Z) (d : dict),
            logged_in (unquote_ token0) expires (clock (S (S n)))
              (<["session-auth" := VStr (unquote_ auth)]>
                 (<["token_expires" := VTime e0]> d))
            = logged_in (unquote_ token0) expires (clock (S (S n)))
                (<["session-auth" := VStr (unquote_ auth)]> d)).
  { intros e0 d.
    rewrite (insert_insert_ne _ "session-auth" "token_expires") by done.
    apply logged_in_over_expiry. }
  assert (E : r = login_finish_ (unquote_ token0)
                    (set_data
                       (<["session-auth" := VStr (unquote_ auth)]>
                          (<["token_expires" := VTime (clock n + timedelta 0 600)]>
                             (<["nonce" := VStr (unquote_ nonce0)]>
                                (with_server (VStr P) (VStr H) (VStr Q) srv
                                   (data w)))))
                       (add_stdout (log_line (verbose w) "Connected" true (Some 200))
                          (written yaml_dump directory
                             (<["token_expires" := VTime (clock n + timedelta 0 600)]>
                                (<["nonce" := VStr (unquote_ nonce0)]>
                                   (with_server (VStr P) (VStr H) (VStr Q) srv
                                      (data w))))
                             (set_data
                                (<["token_expires" := VTime (clock n + timedelta 0 600)]>
                                   (<["nonce" := VStr (unquote_ nonce0)]>
                                      (with_server (VStr P) (VStr H) (VStr Q) srv
                                         (data w))))
                                (tick (submitted endpoint (unquote_ token0)
                                         (unquote_ nonce0) digest
                                         (challenged endpoint password
                                            (probed P H Q srv w))))))))).
  { subst r.
    rewrite (login_submitted_eq clock server getpass yaml_dump sha256 b64decode
               b64encode unquote_escaped quote_plus directory input_url
               password P H Q srv w body salt nonce0 token0 salt_bytes
               nonce_bytes Hs Hr H3 Hn Hj HS HN Ht Hsb Hnb).
    fold probe endpoint digest submit answer3.
    rewrite login_verdict_200 by (exact Hdir || exact H2).
    fold answer3. rewrite Ha. reflexivity. }
  clearbody r. subst r. rewrite login_finish_eq by exact Hdir. cbv zeta.
  split; [reflexivity|].
  split; [simpl; now rewrite <- !app_assoc|].
  split; [simpl; apply Hdata|].
  split; [reflexivity|].
  split; [|split].
  - eapply (verify_token_logged_in (unquote_ token0) expires).
    simpl. apply Hdata.
  - simpl. rewrite Hdata. apply create_headers_logged_in.
  - simpl. rewrite Hdata. apply create_cookies_logged_in_session.
Qed.

(** X7: a 200 without the cookie it should carry.  When the probe is
    answered with 200 but without token cookie, [login] raises [KeyError]
    after [check_response] has written the configuration: the file then
    holds the resolved address and a new expiry next to the token of
    before.  The same happens when the digest is answered with 200 but
    without session cookie; the file then holds the nonce as well. *)
Theorem login_cookie_missing (w : world) (srv : dict) (input_url : string)
  (password : option string) (P H Q : string) :
  directory <> "" ->
  data w !! "server" = Some (VDict srv) ->
  login_resolve (Some input_url) w = (Ret (VStr P, VStr H, VStr Q), w) ->
  let probe := probe_request P H Q in
  let endpoint := login_cgi P H Q in
  let answer := server (sent w) probe in
  let answer2 := server (sent w ++ [probe]) (nonce_request endpoint) in
  let d1 := with_server (VStr P) (VStr H) (VStr Q) srv (data w) in
  let slid := VTime (clock (clock_reads w) + 600 * 1000000) in
  let r := login_ (Some input_url) password w in
  (status_code answer = 200 -> cookies answer !! "xsrf-token" = None ->
   fst r = Raise (KeyError "xsrf-token")
   /\ data (snd r) = <["token_expires" := slid]> d1
   /\ config_disk (snd r) = Some (yaml_dump (data (snd r)))
   /\ data (snd r) !! "token" = data w !! "token")
  /\ (forall salt_bytes nonce_bytes nonce token,
        status_code answer = 302 -> status_code answer2 = 200 ->
        handshake_material b64decode unquote_escaped answer2
        = Some (salt_bytes, nonce_bytes, nonce, token) ->
        let digest :=
          b64encode (noncedpwd_ (password_used getpass password)
                                salt_bytes nonce_bytes) in
        let answer3 :=
          server (sent w ++ [probe; nonce_request endpoint])
                 (submit_request endpoint token nonce digest) in
        status_code answer3 = 200 ->
        cookies answer3 !! "session-auth" = None ->
        fst r = Raise (KeyError "session-auth")
        /\ data (snd r)
           = <["token_expires" := slid]> (<["nonce" := VStr nonce]> d1)
        /\ config_disk (snd r) = Some (yaml_dump (data (snd r)))
        /\ data (snd r) !! "token" = data w !! "token").
Proof.
  intros Hdir Hs Hr probe endpoint answer answer2 d1 slid r. split.
  - intros H2 Hc. subst r.
    rewrite (login_eq clock server getpass yaml_dump sha256 b64decode b64encode
               unquote_escaped quote_plus directory input_url password
               P H Q srv w Hs Hr).
    fold probe answer. unfold login_answer. rewrite H2.
    erewrite bind_Ret by (apply check_response_200_eq; exact Hdir).
    simpl (200 =? 200). cbv iota.
    erewrite bind_Ret by apply log_output_eq.
    unfold cookie. rewrite Hc. simpl.
    repeat split.
    subst d1. unfold with_server. now rewrite !lookup_insert_ne by done.
  - intros salt_bytes nonce_bytes nonce token H3 Hn Hm digest answer3 H2 Ha.
    destruct (handshake_material_inv _ _ _ _ _ Hm)
      as (body & salt & nonce0 & token0 & Hj & HS & HN & Ht & Hsb & Hnb
          & -> & ->).
    subst r.
    rewrite (login_submitted_eq clock server getpass yaml_dump sha256 b64decode
               b64encode unquote_escaped quote_plus directory input_url
               password P H Q srv w body salt nonce0 token0 salt_bytes
               nonce_bytes Hs Hr H3 Hn Hj HS HN Ht Hsb Hnb).
    fold probe endpoint digest answer3.
    rewrite login_verdict_200 by (exact Hdir || exact H2).
    fold answer3. rewrite Ha. simpl.
    repeat split.
    subst d1. unfold with_server. now rewrite !lookup_insert_ne by done.
Qed.

Lemma login_authenticate_raises (endpoint password : string) (r : response)
  (w : world) :
  handshake_material b64decode unquote_escaped r = None ->
  exists e w',
    login_authenticate clock server yaml_dump sha256 b64decode b64encode
      unquote_escaped directory endpoint password r w = (Raise e, w')
    /\ sent w' = sent w /\ config_disk w' = config_disk w.
Proof.
  unfold handshake_material, login_authenticate. intros H0.
  unfold json_member at 1.
  destruct (json r) as [body|] eqn:Hj;
    [|eexists _, _; split; [reflexivity | auto]].
  simpl in H0.
  destruct (body !! "Salt") as [salt|] eqn:HS;
    [|eexists _, _; split; [reflexivity | auto]].
  rewrite bind_ret_l. unfold json_member at 1. rewrite Hj.
  simpl in H0.
  destruct (body !! "Nonce") as [nonce|] eqn:HN;
    [|eexists _, _; split; [reflexivity | auto]].
  rewrite bind_ret_l. erewrite bind_Ret by apply setitem_eq.
  simpl in H0. unfold cookie at 1.
  destruct (cookies r !! "xsrf-token") as [token|] eqn:Ht;
    [|eexists _, _; split; [reflexivity | auto]].
  rewrite bind_ret_l. erewrite bind_Ret by apply log_output_eq.
  simpl in H0. unfold b64decode_or_raise at 1.
  destruct (b64decode salt) as [sb|] eqn:Hsb;
    [|eexists _, _; split; [reflexivity | auto]].
  rewrite bind_ret_l, bind_get_data.
  unfold subscript at 1. simpl data. rewrite lookup_insert_eq, bind_ret_l.
  unfold as_str at 1. rewrite bind_ret_l.
  simpl in H0. unfold b64decode_or_raise at 1.
  destruct (b64decode (unquote_ nonce)) as [nb|] eqn:Hnb; [discriminate|].
  eexists _, _; split; [reflexivity | auto].
Qed.

(** X8: an answer to the nonce request that lacks a part of the handshake
    (no JSON body, no salt, no nonce, no token cookie, a salt or a nonce
    that is not base64) makes [login] raise.  No digest is submitted and the
    configuration file is not written. *)
Theorem login_handshake_incomplete (w : world) (srv : dict)
  (input_url : string) (password : option string) (P H Q : string) :
  data w !! "server" = Some (VDict srv) ->
  login_resolve (Some input_url) w = (Ret (VStr P, VStr H, VStr Q), w) ->
  let probe := probe_request P H Q in
  let endpoint := login_cgi P H Q in
  let answer2 := server (sent w ++ [probe]) (nonce_request endpoint) in
  status_code (server (sent w) probe) = 302 ->
  status_code answer2 = 200 ->
  handshake_material b64decode unquote_escaped answer2 = None ->
  let r := login_ (Some input_url) password w in
  (exists e, fst r = Raise e)
  /\ sent (snd r) = sent w ++ [probe; nonce_request endpoint]
  /\ config_disk (snd r) = config_disk w.
Proof.
  intros Hs Hr probe endpoint answer2 H3 Hn Hm r. subst r.
  rewrite (login_challenged_eq clock server getpass yaml_dump sha256 b64decode
             b64encode unquote_escaped quote_plus directory input_url password
             P H Q srv w Hs Hr H3).
  fold probe endpoint answer2.
  rewrite Hn. simpl (200 =? 200). unfold negb. cbv iota.
  destruct (login_authenticate_raises endpoint
              (password_used getpass password) answer2
              (challenged endpoint password (probed P H Q srv w)) Hm)
    as (e & w' & E & Hsent & Hdisk).
  rewrite E. simpl. split; [eauto|]. split.
  - rewrite Hsent. simpl. now rewrite <- app_assoc.
  - rewrite Hdisk. reflexivity.
Qed.

End LoginSuccess.

(** ** The resolution never fails *)

Section ResolveTotal.
#[local] Arguments String.append !s1 s2 / : simpl nomatch.

Lemma count_replace_same (c : ascii) (s : string) :
  Py.count c (Py.replace c "" s) = 0%nat.
Proof.
  induction s as [|x s IH]; simpl; [reflexivity|].
  destruct (Ascii.eqb_spec x c) as [->|Hne]; simpl; [exact IH|].
  destruct (Ascii.eqb_spec x c); [contradiction | exact IH].
Qed.

Lemma count_replace_other (c old : ascii) (s : string) :
  c <> old -> Py.count c (Py.replace old "" s) = Py.count c s.
Proof.
  intros Hne. induction s as [|x s IH]; simpl; [reflexivity|].
  destruct (Ascii.eqb_spec x old) as [->|Hx]; simpl.
  - destruct (Ascii.eqb_spec old c); [congruence | exact IH].
  - destruct (Ascii.eqb x c); now rewrite IH.
Qed.

Lemma count_stripped (u : string) :
  Py.count ":" (stripped u) = Py.count ":" u
  /\ Py.count "/" (stripped u) = 0%nat
  /\ Py.count "_" (stripped u) = 0%nat.
Proof.
  unfold stripped. repeat split.
  - now rewrite !count_replace_other by discriminate.
  - rewrite count_replace_other by discriminate. apply count_replace_same.
  - apply count_replace_same.
Qed.

Lemma clean_nil : clean "".
Proof. repeat split. Qed.

(** The segments around a colon of a text without slash and underscore. *)
Lemma clean_segments (a b : string) :
  Py.count ":" a = 0%nat -> Py.count ":" b = 0%nat ->
  Py.count "/" (a +:+ String ":" b) = 0%nat ->
  Py.count "_" (a +:+ String ":" b) = 0%nat ->
  clean a /\ clean b.
Proof.
  intros Ha Hb Hs Hu. rewrite count_append in Hs, Hu. simpl in Hs, Hu.
  unfold clean. repeat split; auto; lia.
Qed.

Lemma only_digits_keep_digits (s : string) :
  only_digits (keep_digits s) = true.
Proof.
  induction s as [|c s IH]; simpl; [reflexivity|].
  destruct (Py.is_digit c) eqn:E; simpl; [now rewrite E | exact IH].
Qed.

(** The shapes of a resolution: three clean segments, of which the ones the
    override does not give are empty, or an exit. *)
Lemma login_resolve_cases (w : world) (srv : dict) (P0 H0 Q0 : value)
  (u : string) :
  data w !! "server" = Some (VDict srv) ->
  srv !! "protocol" = Some P0 -> srv !! "url" = Some H0 ->
  srv !! "port" = Some Q0 ->
  ((Py.count ":" u <= 2)%nat
   /\ exists p h q,
        clean p /\ clean h /\ clean q
        /\ login_resolve (Some u) w
           = (Ret (protocol_or p P0, text_or h H0,
                   text_or (keep_digits q) Q0), w))
  \/ ((3 <= Py.count ":" u)%nat
      /\ login_resolve (Some u) w = (Exit 2, add_stdout ["Invalid URL"] w)).
Proof.
  intros Hs HP HH HQ.
  destruct (count_stripped u) as (Hcolon & Hslash & Hunder).
  unfold login_resolve.
  destruct (stripped_shape (stripped u))
    as [Hc | [(a & b & Ha & Hb & E) | [(p & h & q & Hp & Hh & Hq & E) | Hm]]].
  - left. split; [rewrite <- Hcolon, Hc; lia|].
    exists "", (stripped u), "".
    split; [apply clean_nil|]. split; [repeat split; assumption|].
    split; [apply clean_nil|].
    rewrite (bind_Ret _ _ _ _ _ (login_parse_one _ w Hc)).
    now rewrite (login_defaults_eq _ _ _ w srv P0 H0 Q0 Hs HP HH HQ).
  - left.
    assert (Hcount : Py.count ":" (stripped u) = 1%nat).
    { rewrite E. change (":" +:+ b) with (String ":" b).
      rewrite count_append, count_String_sep. unfold colon_free in Ha, Hb.
      lia. }
    split; [rewrite <- Hcolon, Hcount; lia|].
    destruct (clean_segments a b Ha Hb) as [Ca Cb];
      [change (String ":" b) with (":" +:+ b); now rewrite <- E ..|].
    rewrite (bind_Ret _ _ _ _ _ (login_parse_two _ _ _ w Ha Hb E)).
    destruct (String.length a <? 6)%nat.
    + exists a, b, "". repeat split; try apply Ca; try apply Cb.
      now rewrite (login_defaults_eq _ _ _ w srv P0 H0 Q0 Hs HP HH HQ).
    + exists "", a, b. repeat split; try apply Ca; try apply Cb.
      now rewrite (login_defaults_eq _ _ _ w srv P0 H0 Q0 Hs HP HH HQ).
  - left.
    assert (Hcount : Py.count ":" (stripped u) = 2%nat).
    { rewrite E.
      change (":" +:+ h +:+ ":" +:+ q) with (String ":" (h +:+ String ":" q)).
      rewrite count_append, count_String_sep, count_append, count_String_sep.
      unfold colon_free in Hp, Hh, Hq. lia. }
    split; [rewrite <- Hcolon, Hcount; lia|].
    assert (Hrest : Py.count ":" (h +:+ String ":" q) = 1%nat).
    { rewrite count_append, count_String_sep.
      unfold colon_free in Hh, Hq. lia. }
    change (":" +:+ h +:+ ":" +:+ q) with (String ":" (h +:+ String ":" q))
      in E.
    rewrite E in Hslash, Hunder.
    rewrite count_append in Hslash, Hunder. simpl in Hslash, Hunder.
    destruct (clean_segments h q Hh Hq) as [Ch Cq]; [lia | lia |].
    exists p, h, q.
    split; [repeat split; [exact Hp | lia | lia]|].
    split; [exact Ch|]. split; [exact Cq|].
    change (String ":" (h +:+ String ":" q)) with (":" +:+ h +:+ ":" +:+ q)
      in E.
    rewrite (bind_Ret _ _ _ _ _ (login_parse_three _ _ _ _ w Hp Hh Hq E)).
    apply (login_defaults_eq _ _ _ w srv P0 H0 Q0 Hs HP HH HQ).
  - right. split; [rewrite <- Hcolon; exact Hm|].
    now rewrite (bind_Exit _ _ _ _ _ (login_parse_many _ w Hm)).
Qed.

(** X9: with a server entry in the configuration, the resolution of an
    override never raises: an override with at most two colons resolves to
    an address and leaves the world as it is, an override with three colons
    or more prints Invalid URL and exits with status 2. *)
Theorem login_resolve_total (w : world) (srv : dict) (P0 H0 Q0 : value)
  (input_url : string) :
  data w !! "server" = Some (VDict srv) ->
  srv !! "protocol" = Some P0 -> srv !! "url" = Some H0 ->
  srv !! "port" = Some Q0 ->
  ((Py.count ":" input_url <= 2)%nat ->
   exists address, login_resolve (Some input_url) w = (Ret address, w))
  /\ ((3 <= Py.count ":" input_url)%nat ->
      login_resolve (Some input_url) w
      = (Exit 2, add_stdout ["Invalid URL"] w)).
Proof.
  intros Hs HP HH HQ.
  destruct (login_resolve_cases w srv P0 H0 Q0 input_url Hs HP HH HQ)
    as [(Hle & p & h & q & _ & _ & _ & E) | (Hge & E)].
  - split; [eauto | intros; lia].
  - split; [intros; lia | auto].
Qed.

(** X10: what a resolution yields.  The protocol is the configured one or a
    text that is http or https up to letter case; the host is the
    configured one or a non-empty text without colon, slash and underscore;
    the port is the configured one or a non-empty text of digits. *)
Theorem login_resolve_sanitized (w w' : world) (srv : dict) (P0 H0 Q0 : value)
  (input_url : string) (P H Q : value) :
  data w !! "server" = Some (VDict srv) ->
  srv !! "protocol" = Some P0 -> srv !! "url" = Some H0 ->
  srv !! "port" = Some Q0 ->
  login_resolve (Some input_url) w = (Ret (P, H, Q), w') ->
  (P = P0
   \/ exists p, P = VStr p
                /\ Py.in_list (Py.lower p) ["http"; "https"] = true)
  /\ (H = H0 \/ exists h, H = VStr h /\ h <> "" /\ clean h)
  /\ (Q = Q0 \/ exists q, Q = VStr q /\ q <> "" /\ only_digits q = true).
Proof.
  intros Hs HP HH HQ Hr.
  destruct (login_resolve_cases w srv P0 H0 Q0 input_url Hs HP HH HQ)
    as [(_ & p & h & q & Cp & Ch & Cq & E) | (_ & E)];
    rewrite E in Hr; [|discriminate].
  injection Hr as <- <- <- <-.
  unfold protocol_or, text_or. repeat split.
  - destruct (Py.in_list (Py.lower p) ["http"; "https"]) eqn:Ep; eauto.
  - destruct (String.eqb_spec h ""); eauto.
  - destruct (String.eqb_spec (keep_digits q) ""); [auto|].
    right. eexists. split; [reflexivity|].
    split; [assumption | apply only_digits_keep_digits].
Qed.

End ResolveTotal.

(** ** Commands on a session: [run_backup] and [abort_task] *)

Section CommandsOnSession.
Variable clock : nat -> Z.
Variable tzlocal : Z -> Z.
Variable server : list request -> request -> response.
Variable yaml_dump : dict -> string.
Variable quote_plus : string -> string.
Variable directory : string.

#[local] Abbreviation post_command_ :=
  (post_command clock tzlocal server yaml_dump quote_plus directory).
#[local] Abbreviation run_backup_ :=
  (run_backup clock tzlocal server yaml_dump quote_plus directory).
#[local] Abbreviation abort_task_ :=
  (abort_task clock tzlocal server yaml_dump quote_plus directory).

Lemma run_backup_post (backup_id : Z) :
  run_backup_ backup_id
  = post_command_ ("/api/v1/backup/" +:+ Py.str_of_int backup_id +:+ "/run")
      "Error scheduling backup " "Backup scheduled".
Proof. reflexivity. Qed.

Lemma abort_task_post (task_id : Z) :
  abort_task_ task_id
  = post_command_ ("/api/v1/task/" +:+ Py.str_of_int task_id +:+ "/abort")
      "Error aborting task " "Task aborted".
Proof. reflexivity. Qed.

Lemma verify_token_refuses (w : world) :
  dict_get (data w) "token" = VNone
  \/ dict_get (data w) "token_expires" = VNone
  \/ (exists e, dict_get (data w) "token_expires" = VTime e
                /\ e < clock (clock_reads w)) ->
  exists w', verify_token clock tzlocal w = (Exit 2, w')
             /\ sent w' = sent w /\ data w' = data w
             /\ config_disk w' = config_disk w.
Proof.
  intros H.
  destruct (is_none (dict_get (data w) "token")
            || is_none (dict_get (data w) "token_expires")) eqn:E.
  - rewrite verify_token_absent by exact E. eexists. eauto.
  - apply orb_false_elim in E as [Et Ee].
    destruct H as [H | [H | (e & He & Hlt)]].
    + rewrite H in Et. discriminate.
    + rewrite H in Ee. discriminate.
    + rewrite (verify_token_timed clock tzlocal w e);
        [|intros Hn; rewrite Hn in Et; discriminate | exact He].
      apply Z.ltb_lt in Hlt. rewrite Hlt. eexists. eauto.
Qed.

Lemma post_command_refused (path failure success : string) (w : world) :
  dict_get (data w) "token" = VNone
  \/ dict_get (data w) "token_expires" = VNone
  \/ (exists e, dict_get (data w) "token_expires" = VTime e
                /\ e < clock (clock_reads w)) ->
  let r := post_command_ path failure success w in
  fst r = Exit 2 /\ sent (snd r) = sent w /\ data (snd r) = data w
  /\ config_disk (snd r) = config_disk w.
Proof.
  intros H r. subst r.
  destruct (verify_token_refuses w H) as (w' & E & Hs & Hd & Hc).
  unfold post_command. erewrite bind_Exit by exact E. simpl. auto.
Qed.


Lemma texts_create_headers (d : dict) (t : string) :
  dict_get d "token" = VStr t ->
  texts (create_headers d) = Some [("X-XSRF-TOKEN", t)].
Proof.
  unfold dict_get, create_headers, dict_get_or.
  destruct (d !! "token") as [v|]; [|discriminate]. now intros ->.
Qed.

Lemma texts_create_cookies (d : dict) (t : string)
  (cs : list (string * string)) :
  dict_get d "token" = VStr t ->
  texts (create_cookies d) = Some cs ->
  exists rest, cs = ("xsrf-token", t) :: rest.
Proof.
  unfold dict_get at 1, create_cookies, dict_get_or.
  destruct (d !! "token") as [v|]; [|discriminate]. intros ->.
  destruct (is_none (dict_get d "nonce")); simpl.
  - intros [= <-]. eauto.
  - intros (rest & _ & ->)%fmap_Some. eauto.
Qed.

Lemma post_command_sent (path failure success : string) (w : world)
  (t : string) (e : Z) (P H Q : string) (cs : list (string * string)) :
  dict_get (data w) "token" = VStr t ->
  dict_get (data w) "token_expires" = VTime e ->
  clock (clock_reads w) <= e ->
  server_address (data w) = Some (P, H, Q) ->
  texts (create_cookies (data w)) = Some cs ->
  let rq := command_request P H Q path t cs in
  let answer := server (sent w) rq in
  post_command_ path failure success w
  = (check_response clock yaml_dump directory (status_code answer) ;;;
     if negb (status_code answer =? 200)
     then log_output failure true (Some (status_code answer))
     else log_output success true (Some 200))
      (add_sent rq (tick w)).
Proof.
  intros Ht He Hle Ha Hc rq answer. unfold post_command.
  erewrite bind_Ret.
  2:{ rewrite (verify_token_timed clock tzlocal w e);
        [|rewrite Ht; discriminate | exact He].
      apply Z.ltb_ge in Hle. rewrite Hle. reflexivity. }
  erewrite bind_Ret by (apply (create_baseurl_eq quote_plus path P H Q); exact Ha).
  rewrite bind_get_data. simpl data.
  unfold requests_post_with.
  rewrite (texts_create_headers _ t Ht), Hc.
  reflexivity.
Qed.

Lemma post_command_spec (path failure success : string) (w : world)
  (t : string) (e : Z) (P H Q : string) (cs : list (string * string)) :
  dict_get (data w) "token" = VStr t ->
  dict_get (data w) "token_expires" = VTime e ->
  clock (clock_reads w) <= e ->
  server_address (data w) = Some (P, H, Q) ->
  texts (create_cookies (data w)) = Some cs ->
  let rq := command_request P H Q path t cs in
  let status := status_code (server (sent w) rq) in
  let r := post_command_ path failure success w in
  sent (snd r) = sent w ++ [rq]
  /\ (exists rest, cs = ("xsrf-token", t) :: rest)
  /\ (status = 200 -> directory <> "" ->
      fst r = Ret tt
      /\ data (snd r)
         = <["token_expires" :=
               VTime (clock (S (clock_reads w)) + 600 * 1000000)]> (data w)
      /\ config_disk (snd r) = Some (yaml_dump (data (snd r)))
      /\ exists before,
           stdout (snd r)
           = before ++ log_line (verbose w) success true (Some 200))
  /\ (status = 200 -> directory = "" ->
      fst r = Raise FileNotFoundError
      /\ config_disk (snd r) = config_disk w)
  /\ (status = 400 \/ status = 503 ->
      fst r = Exit 2 /\ data (snd r) = data w
      /\ config_disk (snd r) = config_disk w)
  /\ (status <> 200 -> status <> 400 -> status <> 503 ->
      fst r = Ret tt /\ data (snd r) = data w
      /\ config_disk (snd r) = config_disk w
      /\ stdout (snd r)
         = stdout w ++ log_line (verbose w) failure true
                         (Some status)).
Proof.
  intros Ht He Hle Ha Hc rq status r. subst r.
  rewrite (post_command_sent path failure success w t e P H Q cs Ht He Hle Ha Hc).
  fold rq. fold status.
  split; [|split; [exact (texts_create_cookies _ _ _ Ht Hc)|]].
  { rewrite bind_sent; [reflexivity | intros w0; apply check_response_sent|].
    intros _ w0. destruct (negb (status =? 200)); apply log_output_sent. }
  split; [|split; [|split]].
  - intros E Hdir. rewrite E.
    erewrite bind_Ret by (apply check_response_200_eq; exact Hdir).
    simpl (200 =? 200). unfold negb. cbv iota.
    rewrite log_output_eq. simpl.
    repeat split. eexists. reflexivity.
  - intros E Hdir. rewrite E, Hdir.
    erewrite bind_Raise by apply check_response_200_unnamed.
    simpl. auto.
  - intros [E|E]; rewrite E.
    + erewrite bind_Exit by apply check_response_400_eq. simpl. auto.
    + erewrite bind_Exit by apply check_response_503_eq. simpl. auto.
  - intros H2 H4 H5.
    erewrite bind_Ret by (apply check_response_other_eq; assumption).
    apply Z.eqb_neq in H2. rewrite H2. unfold negb. cbv iota.
    rewrite log_output_eq. simpl. auto.
Qed.



End CommandsOnSession.

(** ** The configuration file: what is refused *)

Section Configuration.
Variable yaml_dump : dict -> string.
Variable yaml_safe_load : string -> value + string.
Variable directory : string.

#[local] Abbreviation load_config_ :=
  (load_config yaml_dump yaml_safe_load directory).

Lemma validate_config_dict (d srv : dict) (w : world) :
  (match d !! "server" with Some s => s | None => VDict ∅ end) = VDict srv ->
  validate_config (VDict d) w
  = (if bool_decide (is_Some (d !! "server"))
        && bool_decide (is_Some (srv !! "protocol"))
        && bool_decide (is_Some (srv !! "url"))
        && bool_decide (is_Some (srv !! "port"))
        && bool_decide (is_Some (d !! "token"))
        && bool_decide (is_Some (d !! "token_expires"))
     then (Ret tt, w)
     else (Exit 2, add_stdout [invalid_configuration] w)).
Proof.
  intros Hs. unfold validate_config.
  repeat (first [ erewrite bind_Ret by reflexivity | rewrite Hs ]).
  match goal with |- (if ?b then _ else _) _ = _ => destruct b end;
    [reflexivity|].
  erewrite bind_Ret by apply log_output_eq.
  rewrite log_line_plain. reflexivity.
Qed.

Lemma validate_config_frame (v : value) (w : world) :
  exists o lines, validate_config v w = (o, add_stdout lines w).
Proof.
  assert (forall o, exists o' lines, (o, w) = (o' : outcome unit, add_stdout lines w))
    as Hsame.
  { intros o. exists o, []. now rewrite add_stdout_nil. }
  destruct v as [| b | s | t | m]; try apply Hsame.
  assert (forall srv,
             (match m !! "server" with Some s => s | None => VDict ∅ end)
             = VDict srv ->
             exists o lines, validate_config (VDict m) w
                             = (o, add_stdout lines w)) as Hdict.
  { intros srv E. rewrite (validate_config_dict m srv w E).
    match goal with |- context [if ?b then _ else _] => destruct b end;
      [apply Hsame | eauto]. }
  destruct (m !! "server") as [s|] eqn:Es; [|now apply (Hdict ∅)].
  destruct s as [| b | s | t | srv]; try now apply (Hdict srv).
  1-2,4: unfold validate_config;
    erewrite bind_Ret by reflexivity;
    erewrite bind_Ret by reflexivity;
    rewrite Es; apply Hsame.
  unfold validate_config.
  repeat (first [ erewrite bind_Ret by reflexivity | rewrite Es ]).
  match goal with |- context [if ?b then _ else _] => destruct b end;
    [apply Hsame|].
  erewrite bind_Ret by apply log_output_eq. simpl. eauto.
Qed.

(** X14: a configuration whose server entry is a dictionary, or is missing,
    and that lacks one of the keys [validate_config] asks for is refused:
    one line is printed and the process exits with status 2. *)
Theorem validate_config_rejects (d : dict) (w : world) :
  d !! "server" = None \/ (exists srv, d !! "server" = Some (VDict srv)) ->
  ~ has_required_keys d ->
  validate_config (VDict d) w
  = (Exit 2, add_stdout [invalid_configuration] w).
Proof.
  intros Hs Hn.
  assert (exists srv,
             (match d !! "server" with Some s => s | None => VDict ∅ end)
             = VDict srv) as (srv & E).
  { destruct Hs as [-> | (srv & ->)]; eauto. }
  rewrite (validate_config_dict d srv w E).
  match goal with |- (if ?b then _ else _) = _ => destruct b eqn:B end;
    [|reflexivity].
  exfalso. apply Hn.
  repeat (apply andb_prop in B as [B ?]).
  repeat match goal with
         | H : bool_decide _ = true |- _ => apply bool_decide_eq_true_1 in H
         end.
  destruct Hs as [Hs | (srv' & Hs)].
  - rewrite Hs in B. destruct B as [? [=]].
  - rewrite Hs in E. injection E as <-.
    exists srv'. auto 10.
Qed.

(** X15: what [validate_config] raises instead of answering.  The YAML of an
    empty file, a truth value or a time is no container: [TypeError]; a text
    has no [get]: [AttributeError]; a server entry that is empty, a truth
    value or a time is no container either: [TypeError].  Nothing is
    printed. *)
Theorem validate_config_raises (w : world) :
  validate_config VNone w = (Raise TypeError, w)
  /\ (forall b, validate_config (VBool b) w = (Raise TypeError, w))
  /\ (forall t, validate_config (VTime t) w = (Raise TypeError, w))
  /\ (forall s, validate_config (VStr s) w = (Raise AttributeError, w))
  /\ (forall d s,
        d !! "server" = Some s ->
        s = VNone \/ (exists b, s = VBool b) \/ (exists t, s = VTime t) ->
        validate_config (VDict d) w = (Raise TypeError, w)).
Proof.
  repeat split; try reflexivity.
  intros d s Hs Hshape. unfold validate_config.
  erewrite bind_Ret by reflexivity.
  erewrite bind_Ret by reflexivity.
  rewrite Hs.
  destruct Hshape as [-> | [(b & ->) | (t & ->)]]; reflexivity.
Qed.

Lemma load_config_creates (d : dict) (overwrite : bool) (w : world) :
  directory <> "" ->
  config_disk w = None \/ overwrite = true ->
  load_config_ d overwrite w
  = match yaml_safe_load (yaml_dump d) with
    | inl v => (validate_config v ;;; ret v)
    | inr msg => (log_output msg true None ;;; sys_exit 2)
    end (written yaml_dump directory d (add_stdout ["Creating config file"] w)).
Proof.
  intros Hdir H. unfold load_config. unfold bind at 1.
  assert (negb (bool_decide (is_Some (config_disk w))) || overwrite = true)
    as ->.
  { destruct H as [H | ->]; [rewrite H|]; [reflexivity|].
    apply orb_true_r. }
  erewrite bind_Ret by apply log_output_eq.
  rewrite write_config_eq, log_line_plain by exact Hdir. simpl.
  destruct (yaml_safe_load (yaml_dump d)); reflexivity.
Qed.

(** X16: the first run.  Without a configuration file, or when asked to
    overwrite it, [load_config] with a configuration file named with a
    directory part announces the creation, writes the defaults it is given
    and returns what YAML reads back from the file: the defaults, when they
    have the required keys and YAML reads them back from their dump. *)
Theorem load_config_first_run (d : dict) (overwrite : bool) (w : world) :
  directory <> "" ->
  config_disk w = None \/ overwrite = true ->
  has_required_keys d ->
  yaml_safe_load (yaml_dump d) = inl (VDict d) ->
  load_config_ d overwrite w
  = (Ret (VDict d),
     written yaml_dump directory d (add_stdout ["Creating config file"] w)).
Proof.
  intros Hdir H Hk Hy. rewrite (load_config_creates d overwrite w Hdir H), Hy.
  erewrite bind_Ret by (apply validate_config_accepts; exact Hk).
  reflexivity.
Qed.

(** X17: a configuration file that is there is never replaced by a load
    that was not asked to overwrite it.  When YAML cannot read the file, its
    message is printed; when the file holds a dictionary that lacks a
    required key, the line of [validate_config] is printed; both times the
    process exits with status 2, the file and the configuration in memory
    being as before. *)
Theorem load_config_refuses (defaults : dict) (w : world) (text : string) :
  config_disk w = Some text ->
  let r := load_config_ defaults false w in
  (forall msg, yaml_safe_load text = inr msg ->
     r = (Exit 2, add_stdout [msg] w))
  /\ (forall d, yaml_safe_load text = inl (VDict d) ->
        d !! "server" = None \/ (exists srv, d !! "server" = Some (VDict srv)) ->
        ~ has_required_keys d ->
        r = (Exit 2, add_stdout [invalid_configuration] w))
  /\ (forall d, yaml_safe_load text = inl (VDict d) ->
        has_required_keys d -> r = (Ret (VDict d), w))
  /\ config_disk (snd r) = Some text
  /\ data (snd r) = data w.
Proof.
  intros Hc r.
  assert (r = match yaml_safe_load text with
              | inl v => (validate_config v ;;; ret v) w
              | inr msg => (log_output msg true None ;;; sys_exit 2) w
              end) as Hr.
  { subst r. unfold load_config. unfold bind at 1. rewrite Hc. simpl.
    rewrite Hc. reflexivity. }
  assert (forall v, config_disk (snd (validate_config v w)) = config_disk w
                    /\ data (snd (validate_config v w)) = data w) as Hv.
  { intros v. destruct (validate_config_frame v w) as (o & lines & ->).
    split; reflexivity. }
  split; [|split; [|split]].
  - intros msg Hy. rewrite Hr, Hy.
    erewrite bind_Ret by apply log_output_eq.
    now rewrite log_line_plain.
  - intros d Hy Hs Hn. rewrite Hr, Hy.
    erewrite bind_Exit by (apply validate_config_rejects; assumption).
    reflexivity.
  - intros d Hy Hk. rewrite Hr, Hy.
    erewrite bind_Ret by (apply validate_config_accepts; exact Hk).
    reflexivity.
  - rewrite Hr. destruct (yaml_safe_load text) as [v|msg].
    + specialize (Hv v). unfold bind.
      destruct (validate_config v w) as [[[]|n|e] w'];
        simpl in *; destruct Hv as [-> ->]; auto.
    + erewrite bind_Ret by apply log_output_eq. simpl. auto.
Qed.

End Configuration.

(** ** Settings: [toggle_verbose] and [set_parameters_file] *)

Section Settings.
Variable yaml_dump : dict -> string.
Variable directory : string.

#[local] Abbreviation toggle_verbose_ := (toggle_verbose yaml_dump directory).
#[local] Abbreviation set_parameters_file_ :=
  (set_parameters_file yaml_dump directory).

Lemma toggle_verbose_eq (w : world) :
  directory <> "" ->
  let flag := negb (truthy (dict_get_or (data w) "verbose" (VBool false))) in
  let d := <["verbose" := VBool flag]> (data w) in
  toggle_verbose_ w
  = (Ret tt,
     add_stdout ["verbose mode: " +:+ str_of_bool flag]
       (written yaml_dump directory d (set_data d w))).
Proof.
  intros Hdir flag d. unfold toggle_verbose.
  rewrite bind_get_data. fold flag.
  erewrite bind_Ret by apply setitem_eq.
  rewrite bind_get_data. simpl data. fold d.
  erewrite bind_Ret by (apply write_config_eq; exact Hdir).
  rewrite log_output_eq, log_line_plain. reflexivity.
Qed.

Lemma has_required_keys_insert (k : string) (v : value) (d : dict) :
  k <> "server" -> has_required_keys d -> has_required_keys (<[k := v]> d).
Proof.
  intros Hk (srv & Hs & Hp & Hu & Hq & Ht & He).
  exists srv. rewrite lookup_insert_ne by congruence.
  repeat split; try assumption.
  - destruct (decide (k = "token")) as [->|];
      [rewrite lookup_insert_eq; eauto | now rewrite lookup_insert_ne].
  - destruct (decide (k = "token_expires")) as [->|];
      [rewrite lookup_insert_eq; eauto | now rewrite lookup_insert_ne].
Qed.

(** X18: with a configuration file named with a directory part,
    [toggle_verbose] stores the negation of the truth value of the verbose
    entry (a missing entry counts as false), leaves every other entry alone,
    writes the configuration to its file and prints the new flag, at the
    verbosity the process runs with.  Toggling twice stores the truth value
    of the entry: a configuration whose entry is a truth value is back as it
    was. *)
Theorem toggle_verbose_spec (w : world) :
  directory <> "" ->
  let old := truthy (dict_get_or (data w) "verbose" (VBool false)) in
  let r := toggle_verbose_ w in
  let r2 := toggle_verbose_ (snd r) in
  fst r = Ret tt
  /\ data (snd r) = <["verbose" := VBool (negb old)]> (data w)
  /\ config_disk (snd r) = Some (yaml_dump (data (snd r)))
  /\ (exists before,
        stdout (snd r)
        = before ++ ["verbose mode: " +:+ (if old then "False" else "True")])
  /\ verbose (snd r) = verbose w
  /\ fst r2 = Ret tt
  /\ data (snd r2) = <["verbose" := VBool old]> (data w)
  /\ config_disk (snd r2) = Some (yaml_dump (data (snd r2)))
  /\ (data w !! "verbose" = Some (VBool old) -> data (snd r2) = data w).
Proof.
  intros Hdir old r r2. subst r2 r.
  rewrite (toggle_verbose_eq (snd _)), (toggle_verbose_eq w) by exact Hdir.
  fold old. simpl.
  assert (dict_get_or (<["verbose" := VBool (negb old)]> (data w)) "verbose"
            (VBool false) = VBool (negb old)) as E.
  { unfold dict_get_or. now rewrite lookup_insert_eq. }
  rewrite E. simpl. rewrite negb_involutive, insert_insert_eq.
  repeat split.
  - eexists. destruct old; reflexivity.
  - intros H. now apply insert_id.
Qed.

Lemma set_parameters_file_disable (args : dict) (file : option string)
  (w : world) :
  directory <> "" ->
  truthy (dict_get_or args "disable" (VBool false)) = true ->
  let d := delete "parameters_file" (data w) in
  set_parameters_file_ args file w
  = (Ret tt,
     add_stdout ["Disabling parameters-file"]
       (written yaml_dump directory d (set_data d w))).
Proof.
  intros Hdir H d. unfold set_parameters_file. rewrite H.
  rewrite bind_get_data. erewrite bind_Ret by reflexivity.
  rewrite bind_get_data. simpl data. fold d.
  erewrite bind_Ret by (apply write_config_eq; exact Hdir).
  rewrite log_output_eq, log_line_plain. reflexivity.
Qed.

Lemma set_parameters_file_set (args : dict) (f : string) (w : world) :
  directory <> "" ->
  truthy (dict_get_or args "disable" (VBool false)) = false ->
  let d := <["parameters_file" := VStr f]> (data w) in
  set_parameters_file_ args (Some f) w
  = (Ret tt,
     add_stdout ["Setting parameters-file"]
       (written yaml_dump directory d (set_data d w))).
Proof.
  intros Hdir H d. unfold set_parameters_file. rewrite H.
  erewrite bind_Ret by apply setitem_eq.
  rewrite bind_get_data. simpl data. fold d.
  erewrite bind_Ret by (apply write_config_eq; exact Hdir).
  rewrite log_output_eq, log_line_plain. reflexivity.
Qed.

(** X19: with a configuration file named with a directory part,
    [set_parameters_file] touches the parameters-file entry and no other, so
    a configuration with the required keys keeps them.  Asked to disable, it
    removes the entry, whatever file it is given; given no file, it does
    nothing at all; given a file, it stores its name.  On a change the
    configuration is written to its file and one line is printed. *)
Theorem set_parameters_file_spec (args : dict) (file : option string)
  (w : world) :
  directory <> "" ->
  let disable := truthy (dict_get_or args "disable" (VBool false)) in
  let r := set_parameters_file_ args file w in
  fst r = Ret tt
  /\ (forall k, k <> "parameters_file" -> data (snd r) !! k = data w !! k)
  /\ (has_required_keys (data w) -> has_required_keys (data (snd r)))
  /\ (disable = true ->
      data (snd r) = delete "parameters_file" (data w)
      /\ config_disk (snd r) = Some (yaml_dump (data (snd r)))
      /\ exists before,
           stdout (snd r) = before ++ ["Disabling parameters-file"])
  /\ (disable = false -> file = None -> snd r = w)
  /\ (disable = false -> forall f, file = Some f ->
      data (snd r) = <["parameters_file" := VStr f]> (data w)
      /\ config_disk (snd r) = Some (yaml_dump (data (snd r)))
      /\ exists before,
           stdout (snd r) = before ++ ["Setting parameters-file"]).
Proof.
  intros Hdir disable r. subst r.
  destruct disable eqn:Hd; subst disable.
  - rewrite (set_parameters_file_disable args file w Hdir Hd). simpl.
    split; [reflexivity|]. split; [|split; [|split; [|split]]].
    + intros k Hk. now rewrite lookup_delete_ne.
    + intros (srv & Hs & Hp & Hu & Hq & Ht & He). exists srv.
      rewrite !lookup_delete_ne by discriminate. auto 10.
    + intros _. repeat split. eexists. reflexivity.
    + discriminate.
    + discriminate.
  - destruct file as [f|].
    + rewrite (set_parameters_file_set args f w Hdir Hd). simpl.
      split; [reflexivity|]. split; [|split; [|split; [|split]]].
      * intros k Hk. now rewrite lookup_insert_ne.
      * apply has_required_keys_insert. discriminate.
      * discriminate.
      * discriminate.
      * intros _ f' [= <-]. repeat split. eexists. reflexivity.
    + unfold set_parameters_file. rewrite Hd. simpl.
      split; [reflexivity|]. split; [|split; [|split; [|split]]]; auto.
      * discriminate.
      * discriminate.
Qed.

End Settings.

(** ** [create_baseurl] *)

Section BaseUrl.
Variable quote_plus : string -> string.

#[local] Abbreviation create_baseurl_ := (create_baseurl quote_plus).

Lemma reads_bind {A B} (c : M A) (k : A -> M B) :
  (forall w, snd (c w) = w) -> (forall a w, snd (k a w) = w) ->
  forall w, snd (bind c k w) = w.
Proof.
  intros Hc Hk w. unfold bind. specialize (Hc w).
  destruct (c w) as [[a|n|e] w']; simpl in *; subst; auto.
Qed.

Lemma reads_subscript (v : value) (k : string) (w : world) :
  snd (subscript v k w) = w.
Proof. destruct v as [| | | |m]; try reflexivity. simpl. now destruct (m !! k). Qed.

Lemma reads_as_str (v : value) (w : world) : snd (as_str v w) = w.
Proof. now destruct v. Qed.

Lemma create_baseurl_frame (path : string) (append_token : bool) (w : world) :
  snd (create_baseurl_ path append_token w) = w.
Proof.
  unfold create_baseurl. revert w.
  repeat (apply reads_bind;
          [first [ reflexivity | intros w; apply reads_subscript
                 | intros w; apply reads_as_str ] | intros ?]).
  destruct append_token; [|reflexivity].
  apply reads_bind; [intros w; apply reads_as_str | reflexivity].
Qed.

Lemma create_baseurl_token (path : string) (P H Q : string) (w : world) :
  server_address (data w) = Some (P, H, Q) ->
  create_baseurl_ path true w
  = (let* token := as_str (dict_get_or (data w) "token" (VStr "")) in
     ret (base_url P H Q +:+ path +:+ "?x-xsrf-token=" +:+ quote_plus token)) w.
Proof.
  unfold server_address. intros Ha.
  destruct (data w !! "server") as [[| | | |srv]|] eqn:Es; try discriminate.
  destruct (srv !! "protocol") as [[| |p| |]|] eqn:Ep; try discriminate.
  destruct (srv !! "url") as [[| |h| |]|] eqn:Eh; try discriminate.
  destruct (srv !! "port") as [[| |q| |]|] eqn:Eq; try discriminate.
  injection Ha as -> -> ->.
  unfold create_baseurl. rewrite bind_get_data.
  unfold bind at 1 2 3 4 5 6 7 8 9, subscript, as_str at 1 2 3, ret at 1 2 3 4 5 6 7 8 9.
  rewrite Es, Ep, Eh, Eq. unfold dict_get_or, base_url, bind.
  destruct (as_str _ w) as [[t|n|e] w']; try reflexivity.
  unfold ret. f_equal. f_equal. now rewrite !append_assoc.
Qed.

(** X20: [create_baseurl] reads the configuration and changes nothing.
    Without a server entry it raises [KeyError] for [server]; with a server
    dictionary that lacks the protocol, the host or the port it raises
    [KeyError] for the first of them that is missing.  With the three as
    texts the result is the address followed by the path and, when the token
    is asked for, by the quoted token as query; asked for the token of a
    configuration whose token is empty, as after a logout, it raises
    [TypeError]. *)
Theorem create_baseurl_spec (path : string) (append_token : bool) (w : world) :
  let r := create_baseurl_ path append_token w in
  snd r = w
  /\ (data w !! "server" = None -> fst r = Raise (KeyError "server"))
  /\ (forall srv, data w !! "server" = Some (VDict srv) ->
        (srv !! "protocol" = None -> fst r = Raise (KeyError "protocol"))
        /\ (is_Some (srv !! "protocol") -> srv !! "url" = None ->
            fst r = Raise (KeyError "url"))
        /\ (is_Some (srv !! "protocol") -> is_Some (srv !! "url") ->
            srv !! "port" = None -> fst r = Raise (KeyError "port")))
  /\ (forall P H Q, server_address (data w) = Some (P, H, Q) ->
        (append_token = false -> fst r = Ret (base_url P H Q +:+ path))
        /\ (append_token = true -> forall t,
              dict_get_or (data w) "token" (VStr "") = VStr t ->
              fst r = Ret (base_url P H Q +:+ path +:+ "?x-xsrf-token="
                           +:+ quote_plus t))
        /\ (append_token = true -> data w !! "token" = Some VNone ->
            fst r = Raise TypeError)).
Proof.
  intros r. subst r.
  split; [apply create_baseurl_frame|].
  split; [|split].
  - intros Hs. unfold create_baseurl. rewrite bind_get_data.
    unfold bind, subscript. rewrite Hs. reflexivity.
  - intros srv Hs.
    assert (forall k : M string,
               create_baseurl_ path append_token w
               = (let* protocol := subscript (VDict srv) "protocol" in
                  let* url := subscript (VDict srv) "url" in
                  let* port := subscript (VDict srv) "port" in
                  let* protocol := as_str protocol in
                  let* url := as_str url in
                  let* port := as_str port in
                  let baseurl := protocol +:+ "://" +:+ url +:+ ":" +:+ port
                                 +:+ path in
                  if append_token then
                    let* token := as_str (match data w !! "token" with
                                          | Some v => v
                                          | None => VStr ""
                                          end) in
                    ret (baseurl +:+ "?x-xsrf-token=" +:+ quote_plus token)
                  else ret baseurl) w) as E.
    { intros _. unfold create_baseurl. rewrite bind_get_data.
      unfold bind, subscript at 1 3 5. rewrite Hs. simpl.
      reflexivity. }
    rewrite (E (ret "")). clear E.
    split; [|split].
    + intros Hp. unfold bind, subscript. rewrite Hp. reflexivity.
    + intros [p Hp] Hu. unfold bind, subscript. rewrite Hp, Hu. reflexivity.
    + intros [p Hp] [u Hu] Hq. unfold bind, subscript.
      rewrite Hp, Hu, Hq. reflexivity.
  - intros P H Q Ha. split; [|split].
    + intros ->. now rewrite (create_baseurl_eq quote_plus path P H Q w Ha).
    + intros -> t Ht. rewrite (create_baseurl_token path P H Q w Ha), Ht.
      reflexivity.
    + intros -> Ht. rewrite (create_baseurl_token path P H Q w Ha).
      unfold dict_get_or. rewrite Ht. reflexivity.
Qed.

End BaseUrl.

(** ** The parameters file *)

Section ParametersFile.
Variable yaml_dump : dict -> string.
Variable yaml_safe_load : string -> value + string.
Variable directory : string.
Variable parameters_disk : value -> option string.

#[local] Abbreviation load_parameters_ :=
  (load_parameters yaml_dump yaml_safe_load directory parameters_disk).

Lemma fill_arguments_cons (args : dict) (k : string) (v : value)
  (items : list (string * value)) :
  fill_arguments args ((k, v) :: items)
  = fill_arguments (if is_none (dict_get args k) then <[k := v]> args
                    else args) items.
Proof. reflexivity. Qed.

Lemma fill_arguments_absent (items : list (string * value)) (args : dict)
  (k : string) :
  k ∉ items.*1 -> fill_arguments args items !! k = args !! k.
Proof.
  revert args. induction items as [|[k0 v0] items IH]; intros args Hk;
    [reflexivity|].
  rewrite fill_arguments_cons. rewrite fmap_cons, not_elem_of_cons in Hk.
  destruct Hk as [Hne Hk]. simpl in Hne.
  rewrite IH by exact Hk.
  destruct (is_none (dict_get args k0)); [|reflexivity].
  now rewrite lookup_insert_ne.
Qed.

Lemma fill_arguments_given (items : list (string * value)) (args : dict)
  (k : string) :
  is_none (dict_get args k) = false ->
  fill_arguments args items !! k = args !! k.
Proof.
  revert args. induction items as [|[k0 v0] items IH]; intros args Hk;
    [reflexivity|].
  rewrite fill_arguments_cons.
  destruct (is_none (dict_get args k0)) eqn:E0; [|now apply IH].
  assert (k <> k0) as Hne by (intros ->; congruence).
  rewrite IH.
  - now rewrite lookup_insert_ne.
  - unfold dict_get. rewrite lookup_insert_ne by congruence. exact Hk.
Qed.

Lemma fill_arguments_filled (items : list (string * value)) (args : dict)
  (k : string) (v : value) :
  NoDup items.*1 -> (k, v) ∈ items ->
  is_none (dict_get args k) = true ->
  fill_arguments args items !! k = Some v.
Proof.
  revert args. induction items as [|[k0 v0] items IH]; intros args Hnd Hin Hk.
  { now apply elem_of_nil in Hin. }
  rewrite fill_arguments_cons. rewrite fmap_cons in Hnd.
  apply NoDup_cons in Hnd as [Hfresh Hnd]. simpl in Hfresh.
  apply elem_of_cons in Hin as [[= -> ->] | Hin].
  - rewrite Hk, fill_arguments_absent by exact Hfresh.
    apply lookup_insert_eq.
  - assert (k <> k0) as Hne.
    { intros ->. apply Hfresh. apply list_elem_of_fmap.
      exists (k0, v). split; [reflexivity | exact Hin]. }
    apply IH; [exact Hnd | exact Hin |].
    destruct (is_none (dict_get args k0)); [|exact Hk].
    unfold dict_get. rewrite lookup_insert_ne by congruence. exact Hk.
Qed.

Lemma load_parameters_loaded (args : dict) (w : world) (f : value)
  (text : string) (m : dict) :
  directory <> "" ->
  dict_get (data w) "parameters_file" = f ->
  is_none f = false -> path_like f = true ->
  parameters_disk f = Some text ->
  yaml_safe_load text = inl (VDict m) ->
  let d := <["parameters_file" := f]>
             (if is_none (dict_get m "verbose") then data w
              else <["verbose" := dict_get m "verbose"]> (data w)) in
  load_parameters_ args w
  = (Ret (fill_arguments args (map_to_list m)),
     written yaml_dump directory d
       (set_data d
          (add_stdout ["Loaded " +:+ Py.str_of_int (Z.of_nat (size m))
                       +:+ " parameters from file"] w))).
Proof.
  intros Hdir Hf Hn Hp Hd Hy d. unfold load_parameters.
  rewrite bind_get_data, Hf, Hn, Hp. cbn [negb]. rewrite Hd, Hy.
  erewrite bind_Ret by reflexivity.
  erewrite bind_Ret by apply log_output_eq. rewrite log_line_plain.
  subst d. destruct (is_none (dict_get m "verbose")).
  - erewrite bind_Ret by reflexivity.
    erewrite bind_Ret by apply setitem_eq.
    rewrite bind_get_data.
    erewrite bind_Ret by (apply write_config_eq; exact Hdir). reflexivity.
  - erewrite bind_Ret by apply setitem_eq.
    erewrite bind_Ret by apply setitem_eq.
    rewrite bind_get_data.
    erewrite bind_Ret by (apply write_config_eq; exact Hdir). reflexivity.
Qed.

(** X21: the parameters file never overrides the command line.  When the
    configured parameters file holds a dictionary and the configuration
    file is named with a directory part, [load_parameters] returns the
    arguments with every argument of the command line that is not [None] as
    given, every other one that the file names with the value of the file,
    and the rest as it was.  It tells how many parameters the file holds,
    takes the verbose entry of the file, if it has one, into the
    configuration, and writes the configuration to its file. *)
Theorem load_parameters_spec (args : dict) (w : world) (f text : string)
  (m : dict) :
  directory <> "" ->
  dict_get (data w) "parameters_file" = VStr f ->
  parameters_disk (VStr f) = Some text ->
  yaml_safe_load text = inl (VDict m) ->
  let r := load_parameters_ args w in
  exists args',
    fst r = Ret args'
    /\ (forall k, is_none (dict_get args k) = false -> args' !! k = args !! k)
    /\ (forall k v, is_none (dict_get args k) = true -> m !! k = Some v ->
                    args' !! k = Some v)
    /\ (forall k, m !! k = None -> args' !! k = args !! k)
    /\ stdout (snd r)
       = stdout w ++ ["Loaded " +:+ Py.str_of_int (Z.of_nat (size m))
                      +:+ " parameters from file"]
                  ++ (if directory_exists w then []
                      else ["Created directory " +:+ Py.DQUOTE +:+ directory
                            +:+ Py.DQUOTE])
    /\ dict_get (data (snd r)) "verbose"
       = (if is_none (dict_get m "verbose") then dict_get (data w) "verbose"
          else dict_get m "verbose")
    /\ (forall k, k <> "verbose" -> data (snd r) !! k = data w !! k)
    /\ config_disk (snd r) = Some (yaml_dump (data (snd r))).
Proof.
  intros Hdir Hf Hd Hy r. subst r.
  rewrite (load_parameters_loaded args w (VStr f) text m Hdir Hf eq_refl
             eq_refl Hd Hy).
  eexists. split; [reflexivity|]. simpl.
  split; [|split; [|split; [|split; [|split; [|split]]]]].
  - intros k Hk. now apply fill_arguments_given.
  - intros k v Hk Hm. apply fill_arguments_filled; [| |exact Hk].
    + apply NoDup_fst_map_to_list.
    + now apply elem_of_map_to_list.
  - intros k Hm. apply fill_arguments_absent.
    intros (kv & -> & Hin)%list_elem_of_fmap. destruct kv as [k v].
    apply elem_of_map_to_list in Hin. simpl in Hm. congruence.
  - now rewrite <- app_assoc.
  - unfold dict_get at 1. rewrite lookup_insert_ne by discriminate.
    destruct (is_none (dict_get m "verbose")); [reflexivity|].
    now rewrite lookup_insert_eq.
  - intros k Hk.
    destruct (decide (k = "parameters_file")) as [->|Hp].
    + rewrite lookup_insert_eq.
      destruct (is_none (dict_get m "verbose")).
      * unfold dict_get in Hf.
        destruct (data w !! "parameters_file") as [v|]; congruence.
      * unfold dict_get in Hf.
        destruct (data w !! "parameters_file") as [v|]; congruence.
    + rewrite lookup_insert_ne by congruence.
      destruct (is_none (dict_get m "verbose")); [reflexivity|].
      now rewrite lookup_insert_ne by congruence.
  - reflexivity.
Qed.

(** X22: when nothing can be loaded, the arguments come back as they were
    and the configuration file is not written.  Without a parameters file in
    the configuration, or with one that is no regular file, the world is as
    before; a file that YAML cannot read has the message of YAML printed; a
    file that is empty makes [load_parameters] raise [TypeError]. *)
Theorem load_parameters_skips (args : dict) (w : world) :
  let r := load_parameters_ args w in
  (dict_get (data w) "parameters_file" = VNone -> r = (Ret args, w))
  /\ (forall f, dict_get (data w) "parameters_file" = VStr f ->
        (parameters_disk (VStr f) = None -> r = (Ret args, w))
        /\ (forall text, parameters_disk (VStr f) = Some text ->
              (forall msg, yaml_safe_load text = inr msg ->
                 r = (Ret args, add_stdout [msg] w))
              /\ (yaml_safe_load text = inl VNone ->
                  r = (Raise TypeError, w)))).
Proof.
  intros r. subst r. unfold load_parameters. rewrite bind_get_data.
  split.
  - intros ->. reflexivity.
  - intros f ->. cbn [is_none path_like negb]. split.
    + intros ->. reflexivity.
    + intros text ->. split.
      * intros msg ->. erewrite bind_Ret by apply log_output_eq.
        now rewrite log_line_plain.
      * intros ->. reflexivity.
Qed.

End ParametersFile.

(** ** A session from [login] to [logout] *)

Section SessionLife.
Variable clock : nat -> Z.
Variable tzlocal : Z -> Z.
Variable server : list request -> request -> response.
Variable getpass : string.
Variable yaml_dump : dict -> string.
Variable sha256 : list Byte.byte -> list Byte.byte.
Variable b64decode : string -> option (list Byte.byte).
Variable b64encode : list Byte.byte -> string.
Variable unquote_escaped : string -> string.
Variable quote_plus : string -> string.
Variable directory : string.

#[local] Abbreviation login_ :=
  (login clock server getpass yaml_dump sha256 b64decode b64encode
         unquote_escaped quote_plus directory).
#[local] Abbreviation run_backup_ :=
  (run_backup clock tzlocal server yaml_dump quote_plus directory).
#[local] Abbreviation unquote_ := (unquote unquote_escaped).

Lemma server_address_ignores (d : dict) (k : string) (v : value) :
  k <> "server" -> server_address (<[k := v]> d) = server_address d.
Proof. intros Hk. unfold server_address. now rewrite lookup_insert_ne. Qed.

(** X23: the token of a login is the credential of the next command, at the
    address the login resolved.  With a configuration file named with a
    directory part: after a login on the direct path, a
    [run_backup] within the expiry sends its request to the resolved address
    with the token the server handed out, as header and as cookie; after a
    [logout] the same command exits with status 2 and sends nothing. *)
Theorem session_life (w : world) (srv : dict) (input_url : string)
  (password : option string) (P H Q token : string) (backup_id : Z) :
  directory <> "" ->
  data w !! "server" = Some (VDict srv) ->
  login_resolve (Some input_url) w = (Ret (VStr P, VStr H, VStr Q), w) ->
  let probe := probe_request P H Q in
  let answer := server (sent w) probe in
  status_code answer = 200 ->
  cookies answer !! "xsrf-token" = Some token ->
  dict_get (data w) "nonce" = VNone ->
  let n := clock_reads w in
  clock (S (S (S n))) <= clock (S n) + 600 * 1000000 ->
  let after_login := snd (login_ (Some input_url) password w) in
  let after_logout := snd (logout yaml_dump directory after_login) in
  let rq := command_request P H Q
              ("/api/v1/backup/" +:+ Py.str_of_int backup_id +:+ "/run")
              (unquote_ token) [("xsrf-token", unquote_ token)] in
  sent (snd (run_backup_ backup_id after_login)) = sent w ++ [probe; rq]
  /\ fst (run_backup_ backup_id after_logout) = Exit 2
  /\ sent (snd (run_backup_ backup_id after_logout)) = sent w ++ [probe].
Proof.
  intros Hdir Hs Hr probe answer H2 Hc Hn n Hle after_login after_logout rq.
  subst after_logout after_login.
  rewrite (login_direct_world clock server getpass yaml_dump sha256 b64decode
             b64encode unquote_escaped quote_plus directory w srv input_url
             password P H Q token Hdir Hs Hr H2 Hc).
  cbv zeta. cbn [snd].
  match goal with
  | |- context [run_backup_ backup_id ?x] => set (wl := x)
  end.
  assert (data wl
          = logged_in (unquote_ token) (clock (S n) + 600 * 1000000)
              (clock (S (S n)))
              (with_server (VStr P) (VStr H) (VStr Q) srv (data w))) as Hd.
  { subst wl. simpl. apply logged_in_over_expiry. }
  assert (sent wl = sent w ++ [probe]) as Hsent by reflexivity.
  split; [|split].
  - rewrite run_backup_post.
    destruct (post_command_spec clock tzlocal server yaml_dump quote_plus
                directory
                ("/api/v1/backup/" +:+ Py.str_of_int backup_id +:+ "/run")
                "Error scheduling backup " "Backup scheduled" wl
                (unquote_ token) (clock (S n) + 600 * 1000000) P H Q
                [("xsrf-token", unquote_ token)])
      as (Hrq & _).
    + rewrite Hd. apply dict_get_logged_in_token.
    + rewrite Hd. apply dict_get_logged_in_expires.
    + exact Hle.
    + rewrite Hd. unfold logged_in.
      rewrite !server_address_ignores by done.
      apply server_address_with_server.
    + rewrite Hd, create_cookies_logged_in_plain; [reflexivity|].
      unfold dict_get, with_server. rewrite lookup_insert_ne by done.
      exact Hn.
    + rewrite Hrq, Hsent, <- app_assoc. reflexivity.
  - rewrite logout_eq, run_backup_post by exact Hdir. cbn [snd].
    apply post_command_refused. left. simpl. unfold dict_get.
    now rewrite lookup_insert_eq.
  - rewrite logout_eq, run_backup_post by exact Hdir. cbn [snd].
    match goal with
    | |- sent (snd (post_command _ _ _ _ _ _ _ _ _ ?x)) = _ =>
        destruct (post_command_refused clock tzlocal server yaml_dump
                    quote_plus directory
                    ("/api/v1/backup/" +:+ Py.str_of_int backup_id +:+ "/run")
                    "Error scheduling backup " "Backup scheduled" x)
          as (_ & Hrq & _)
    end.
    + left. simpl. unfold dict_get. now rewrite lookup_insert_eq.
    + rewrite Hrq. reflexivity.
Qed.

End SessionLife.

(** ** More theorems at the fixtures *)

(** A probe answered with 200 at the fixture server: one request, and the
    token of the answer is the credential of the next command. *)
Lemma login_direct_success_fixture :
  let r := fixture_login 200 200 200 "https:myserver:8200" None
             (configured default_data) in
  fst r = Ret tt
  /\ sent (snd r) = [probe_request "https" "myserver" "8200"]
  /\ create_headers (data (snd r)) = [("X-XSRF-TOKEN", VStr "tok")]
  /\ create_cookies (data (snd r)) = [("xsrf-token", VStr "tok")].
Proof.
  destruct (login_direct_success fixture_clock fixture_tzlocal
              (fixture_server 200 200 200) "secret" fixture_dump
              Reference.sha256 Reference.b64decode Reference.b64encode
              (fun s => s) (fun s => s) fixture_directory
              (configured default_data) default_server "https:myserver:8200"
              None "https" "myserver" "8200" "tok"
              fixture_directory_named eq_refl eq_refl eq_refl eq_refl)
    as (Hret & Hsent & _ & _ & _ & _ & Hheaders & Hcookies).
  split; [exact Hret | split; [exact Hsent | split; [exact Hheaders |]]].
  exact (Hcookies eq_refl).
Defined.

(** The whole handshake at the fixture server. *)
Lemma login_challenge_success_fixture :
  let r := fixture_login 302 200 200 "https:myserver:8200" None
             (configured default_data) in
  fst r = Ret tt
  /\ create_cookies (data (snd r))
     = [("xsrf-token", VStr "tok"); ("session-nonce", VStr "bm9uY2U=");
        ("session-auth", VStr "auth")].
Proof.
  destruct (login_challenge_success fixture_clock fixture_tzlocal
              (fixture_server 302 200 200) "secret" fixture_dump
              Reference.sha256 Reference.b64decode Reference.b64encode
              (fun s => s) (fun s => s) fixture_directory
              (configured default_data) default_server "https:myserver:8200"
              None "https" "myserver" "8200" "bm9uY2U=" "tok" "auth"
              [Byte.x73; Byte.x61; Byte.x6c; Byte.x74]
              [Byte.x6e; Byte.x6f; Byte.x6e; Byte.x63; Byte.x65]
              fixture_directory_named
              eq_refl eq_refl eq_refl eq_refl eq_refl eq_refl eq_refl)
    as (Hret & _ & _ & _ & _ & _ & Hcookies).
  split; [exact Hret | exact Hcookies].
Defined.

(** Answers of 200 without their cookie. *)
Lemma login_cookie_missing_fixture :
  let login_at probe :=
    login fixture_clock
      (fixture_server_partial probe 200 200
         (Some (<["Salt" := "c2FsdA=="]> {["Nonce" := "bm9uY2U="]})))
      "secret" fixture_dump Reference.sha256 Reference.b64decode
      Reference.b64encode (fun s => s) (fun s => s) fixture_directory
      (Some "https:myserver:8200") None (configured default_data) in
  (fst (login_at 200) = Raise (KeyError "xsrf-token")
   /\ config_disk (snd (login_at 200)) = Some "https://myserver:8200")
  /\ (fst (login_at 302) = Raise (KeyError "session-auth")
      /\ config_disk (snd (login_at 302)) = Some "https://myserver:8200").
Proof.
  destruct (login_cookie_missing fixture_clock
              (fixture_server_partial 200 200 200
                 (Some (<["Salt" := "c2FsdA=="]> {["Nonce" := "bm9uY2U="]})))
              "secret" fixture_dump Reference.sha256 Reference.b64decode
              Reference.b64encode (fun s => s) (fun s => s) fixture_directory
              (configured default_data) default_server "https:myserver:8200"
              None "https" "myserver" "8200" fixture_directory_named
              eq_refl eq_refl)
    as [Hprobe _].
  destruct (Hprobe eq_refl eq_refl) as (Hraise & Hdata & Hdisk & _).
  destruct (login_cookie_missing fixture_clock
              (fixture_server_partial 302 200 200
                 (Some (<["Salt" := "c2FsdA=="]> {["Nonce" := "bm9uY2U="]})))
              "secret" fixture_dump Reference.sha256 Reference.b64decode
              Reference.b64encode (fun s => s) (fun s => s) fixture_directory
              (configured default_data) default_server "https:myserver:8200"
              None "https" "myserver" "8200" fixture_directory_named
              eq_refl eq_refl)
    as [_ Hdigest].
  destruct (Hdigest [Byte.x73; Byte.x61; Byte.x6c; Byte.x74]
              [Byte.x6e; Byte.x6f; Byte.x6e; Byte.x63; Byte.x65]
              "bm9uY2U=" "tok" eq_refl eq_refl eq_refl eq_refl eq_refl)
    as (Hraise' & Hdata' & Hdisk' & _).
  split; (split; [assumption|]).
  - rewrite Hdisk, Hdata. reflexivity.
  - rewrite Hdisk', Hdata'. reflexivity.
Defined.

(** An answer to the nonce request without body. *)
Lemma login_handshake_incomplete_fixture :
  let r := login fixture_clock (fixture_server_partial 302 200 200 None)
             "secret" fixture_dump Reference.sha256 Reference.b64decode
             Reference.b64encode (fun s => s) (fun s => s) fixture_directory
             (Some "https:myserver:8200") None (configured default_data) in
  sent (snd r) = [probe_request "https" "myserver" "8200";
                  nonce_request "https://myserver:8200/login.cgi"]
  /\ config_disk (snd r) = Some "http://localhost:8200".
Proof.
  destruct (login_handshake_incomplete fixture_clock
              (fixture_server_partial 302 200 200 None)
              "secret" fixture_dump Reference.sha256 Reference.b64decode
              Reference.b64encode (fun s => s) (fun s => s) fixture_directory
              (configured default_data) default_server "https:myserver:8200"
              None "https" "myserver" "8200" eq_refl eq_refl eq_refl eq_refl
              eq_refl)
    as (_ & Hsent & Hdisk).
  split; [exact Hsent | exact Hdisk].
Defined.

(** A host alone resolves; four segments do not. *)
Lemma login_resolve_total_fixture :
  (exists address,
      login_resolve (Some "myserver") (configured default_data)
      = (Ret address, configured default_data))
  /\ login_resolve (Some "a:b:c:d") (configured default_data)
     = (Exit 2, add_stdout ["Invalid URL"] (configured default_data)).
Proof.
  split.
  - apply (login_resolve_total (configured default_data) default_server
             (VStr "http") (VStr "localhost") (VStr "8200") "myserver"
             eq_refl eq_refl eq_refl eq_refl).
    vm_compute. lia.
  - apply (login_resolve_total (configured default_data) default_server
             (VStr "http") (VStr "localhost") (VStr "8200") "a:b:c:d"
             eq_refl eq_refl eq_refl eq_refl).
    vm_compute. lia.
Defined.

(** The parts of an override with slashes, an underscore and a port with a
    letter in it. *)
Lemma login_resolve_sanitized_fixture :
  (VStr "HTTPS" = VStr "http"
   \/ exists p, VStr "HTTPS" = VStr p
                /\ Py.in_list (Py.lower p) ["http"; "https"] = true)
  /\ (VStr "myserver" = VStr "localhost"
      \/ exists h, VStr "myserver" = VStr h /\ h <> "" /\ clean h)
  /\ (VStr "8200" = VStr "8200"
      \/ exists q, VStr "8200" = VStr q /\ q <> "" /\ only_digits q = true).
Proof.
  exact (login_resolve_sanitized (configured default_data)
           (configured default_data) default_server
           (VStr "http") (VStr "localhost") (VStr "8200")
           "HTTPS://my_server:82a00"
           (VStr "HTTPS") (VStr "myserver") (VStr "8200")
           eq_refl eq_refl eq_refl eq_refl eq_refl).
Defined.




(** The defaults without their expiry entry are refused. *)
Lemma validate_config_rejects_fixture :
  validate_config (VDict (delete "token_expires" default_data))
    (fresh default_data)
  = (Exit 2, add_stdout [invalid_configuration] (fresh default_data)).
Proof.
  apply (validate_config_rejects (delete "token_expires" default_data)
           (fresh default_data)).
  - right. exists default_server. reflexivity.
  - intros (srv & _ & _ & _ & _ & _ & [x Hx]). vm_compute in Hx.
    discriminate.
Defined.

(** The first run at the fixtures. *)
Lemma load_config_first_run_fixture :
  let r := load_config fixture_dump fixture_load fixture_directory
             default_data false (fresh default_data) in
  fst r = Ret (VDict default_data)
  /\ config_disk (snd r) = Some "http://localhost:8200"
  /\ stdout (snd r) = ["Creating config file"].
Proof.
  rewrite (load_config_first_run fixture_dump fixture_load fixture_directory
             default_data false (fresh default_data) fixture_directory_named
             (or_introl eq_refl)).
  - repeat split.
  - exists default_server. repeat split; eexists; reflexivity.
  - reflexivity.
Defined.

(** A file the stand-in for YAML cannot read. *)
Lemma load_config_refuses_fixture :
  let w := World default_data false (Some "garbage") true [] [] 0 in
  load_config fixture_dump fixture_load fixture_directory default_data false w
  = (Exit 2, add_stdout ["cannot parse"] w).
Proof.
  exact (proj1 (load_config_refuses fixture_dump fixture_load
                  fixture_directory default_data
                  (World default_data false (Some "garbage") true [] [] 0)
                  "garbage" eq_refl)
               "cannot parse" eq_refl).
Defined.

(** An argument given on the command line and one left to the file. *)
Lemma load_parameters_spec_fixture :
  exists args',
    fst (load_parameters fixture_dump fixture_parameters_load
           fixture_directory fixture_parameters_disk fixture_args
           (configured fixture_parameters_data)) = Ret args'
    /\ args' !! "id" = Some (VStr "7")
    /\ args' !! "output" = Some (VStr "json").
Proof.
  destruct (load_parameters_spec fixture_dump fixture_parameters_load
              fixture_directory fixture_parameters_disk fixture_args
              (configured fixture_parameters_data)
              "params.yml" "id: 7" {["id" := VStr "7"]}
              fixture_directory_named eq_refl eq_refl eq_refl)
    as (args' & Hret & Hgiven & Hfilled & _).
  exists args'. split; [exact Hret | split].
  - exact (Hfilled "id" (VStr "7") eq_refl eq_refl).
  - rewrite (Hgiven "output" eq_refl). reflexivity.
Defined.

(** A login, a backup and a logout at the fixture server. *)
Lemma session_life_fixture :
  let after_login :=
    snd (fixture_login 200 200 200 "https:myserver:8200" None
           (configured default_data)) in
  let run := run_backup fixture_clock fixture_tzlocal
               (fixture_server 200 200 200) fixture_dump (fun s => s)
               fixture_directory 7 in
  sent (snd (run after_login))
  = [probe_request "https" "myserver" "8200";
     command_request "https" "myserver" "8200" "/api/v1/backup/7/run" "tok"
       [("xsrf-token", "tok")]]
  /\ fst (run (snd (logout fixture_dump fixture_directory after_login)))
     = Exit 2.
Proof.
  destruct (session_life fixture_clock fixture_tzlocal
              (fixture_server 200 200 200) "secret" fixture_dump
              Reference.sha256 Reference.b64decode Reference.b64encode
              (fun s => s) (fun s => s) fixture_directory
              (configured default_data) default_server "https:myserver:8200"
              None "https" "myserver" "8200" "tok" 7
              fixture_directory_named
              eq_refl eq_refl eq_refl eq_refl eq_refl
              ltac:(vm_compute; discriminate))
    as (Hsent & Hexit & _).
  split; [exact Hsent | exact Hexit].
Defined.

(** The verbose flag of the defaults, toggled once and twice. *)
Lemma toggle_verbose_spec_fixture :
  let r := toggle_verbose fixture_dump fixture_directory
             (configured default_data) in
  let r2 := toggle_verbose fixture_dump fixture_directory (snd r) in
  data (snd r) !! "verbose" = Some (VBool true)
  /\ stdout (snd r) = ["verbose mode: True"]
  /\ data (snd r2) = default_data.
Proof.
  destruct (toggle_verbose_spec fixture_dump fixture_directory
              (configured default_data) fixture_directory_named)
    as (_ & Hdata & _ & _ & _ & _ & _ & _ & Hback).
  split; [rewrite Hdata; reflexivity|].
  split; [reflexivity | exact (Hback eq_refl)].
Defined.

(** A parameters file set on the defaults. *)
Lemma set_parameters_file_spec_fixture :
  let r := set_parameters_file fixture_dump fixture_directory fixture_args
             (Some "params.yml") (configured default_data) in
  fst r = Ret tt
  /\ data (snd r) = fixture_parameters_data
  /\ stdout (snd r) = ["Setting parameters-file"].
Proof.
  destruct (set_parameters_file_spec fixture_dump fixture_directory
              fixture_args (Some "params.yml") (configured default_data)
              fixture_directory_named)
    as (Hret & _ & _ & _ & _ & Hset).
  destruct (Hset eq_refl "params.yml" eq_refl) as (Hdata & _).
  split; [exact Hret | split; [exact Hdata | reflexivity]].
Defined.

(** A 200 observed on the session of [boundary_data]. *)
Lemma check_response_200_slides_fixture :
  let r := check_response fixture_clock fixture_dump fixture_directory 200
             (configured boundary_data) in
  fst r = Ret tt
  /\ data (snd r) !! "token_expires" = Some (VTime 600001000)
  /\ config_disk (snd r) = Some "http://localhost:8200 abc".
Proof.
  destruct (check_response_200_slides fixture_clock fixture_dump
              fixture_directory (configured boundary_data)
              fixture_directory_named)
    as (Hret & _ & Hexp & Hdisk & _).
  split; [exact Hret | split; [exact Hexp | exact Hdisk]].
Defined.
